(** * Restaurant reservation API: reservation, table and user routes

    A shallow embedding of the Express route handlers of
    [src/routes/reservations.js], [src/routes/users.js] and the table routes
    (second half of [src/unnamed/part_002]) together with the error
    middleware of the server (first half of [src/unnamed/part_002]) and the
    part of the Prisma schema ([src/unnamed/part_000]) the handlers depend on.

    - Request bodies hold JavaScript values; the coercions the handlers apply
      to them ([!x], [x <= 0], [typeof], [Number.isInteger], [parseInt],
      [new Date]) are written out.  The ECMAScript functions that work on the
      characters of a string are taken from a [Js.Runtime].
    - The handlers take the Prisma client as an argument, as the source does
      ([module.exports = function (prisma)]).  A client is generated from a
      schema and knows the relation fields of the [Reservation] model by the
      names the schema gives them.
    - The database is a record of three row lists in the store's row order.
      Queries are state-passing computations that may throw; a write that
      happened before a throw stays (the handlers open no transaction).
    - [Int] columns are unbounded integers, and the [createdAt]/[updatedAt]
      columns, which no handler reads, are left out. *)

From Stdlib Require Import ZArith List String Ascii Bool Lia DecimalString.
Import ListNotations.

Local Open Scope string_scope.
Local Open Scope Z_scope.

(** ** JavaScript values of a JSON request body *)

Module Js.

(** A JSON number is an integer or lies strictly between [fl] and [fl + 1]. *)
Inductive Number :=
| NInt (z : Z)
| NFrac (fl : Z).

(** A field of [req.body]; a key that is missing reads [Undefined].  The
    scalar values of JSON are modelled; a field that holds an array or an
    object is outside these definitions. *)
Inductive Value :=
| Undefined
| Null
| Boolean (b : bool)
| Num (n : Number)
| Str (s : string).

(** The string-level built-ins: [StringToNumber], [Number::toString],
    [parseInt] on a string (radix undefined) and [Date.parse].
    [None] is [NaN]. *)
Class Runtime := {
  string_to_number : string -> option Number;
  number_to_string : Number -> string;
  parse_int_string : string -> option Z;
  date_parse : string -> option Z
}.

(** [ToBoolean] *)
Definition truthy (v : Value) : bool :=
  match v with
  | Undefined | Null => false
  | Boolean b => b
  | Num (NInt z) => negb (z =? 0)
  | Num (NFrac _) => true
  | Str s => negb (String.eqb s "")
  end.

Definition typeof (v : Value) : string :=
  match v with
  | Undefined => "undefined"
  | Null => "object"
  | Boolean _ => "boolean"
  | Num _ => "number"
  | Str _ => "string"
  end.

Definition Number_isInteger (v : Value) : bool :=
  match v with
  | Num (NInt _) => true
  | _ => false
  end.

(** [x <= k] and [x >= k] for an integer [k] *)
Definition number_leb (x : Number) (k : Z) : bool :=
  match x with
  | NInt z => z <=? k
  | NFrac fl => fl <? k
  end.

Definition number_geb (x : Number) (k : Z) : bool :=
  match x with
  | NInt z => k <=? z
  | NFrac fl => k <=? fl
  end.

Section WithRuntime.
Context {rt : Runtime}.

Definition ToNumber (v : Value) : option Number :=
  match v with
  | Undefined => None
  | Null => Some (NInt 0)
  | Boolean b => Some (NInt (if b then 1 else 0))
  | Num n => Some n
  | Str s => string_to_number s
  end.

Definition ToString (v : Value) : string :=
  match v with
  | Undefined => "undefined"
  | Null => "null"
  | Boolean b => if b then "true" else "false"
  | Num n => number_to_string n
  | Str s => s
  end.

(** [v <= k] and [v >= k] against a number literal; any comparison with
    [NaN] is false. *)
Definition leb (v : Value) (k : Z) : bool :=
  match ToNumber v with
  | Some x => number_leb x k
  | None => false
  end.

Definition geb (v : Value) (k : Z) : bool :=
  match ToNumber v with
  | Some x => number_geb x k
  | None => false
  end.

(** [parseInt(v)] converts its argument to a string first. *)
Definition parseInt (v : Value) : option Z :=
  parse_int_string (ToString v).

(** [new Date(v)]: the time value in milliseconds, [None] for an
    invalid date. *)
Definition time_clip (t : Z) : option Z :=
  if Z.abs t <=? 8640000000000000 then Some t else None.

Definition new_Date (v : Value) : option Z :=
  match v with
  | Str s => date_parse s
  | Undefined => None
  | Null => Some 0
  | Boolean b => Some (if b then 1 else 0)
  | Num (NInt z) => time_clip z
  | Num (NFrac fl) => time_clip (if 0 <=? fl then fl else fl + 1)
  end.
End WithRuntime.

End Js.

(** ** Errors, responses and the error middleware *)

(** What a handler can throw: its own [new Error(message)] with a [status]
    set, or one of the two Prisma client errors.  A validation error has no
    [code]; neither Prisma error has a [status]. *)
Inductive Error :=
| HttpError (message : string) (status : Z)
| PrismaValidationError
| PrismaKnownRequestError (code : string).

Definition error_code (e : Error) : option string :=
  match e with
  | PrismaKnownRequestError c => Some c
  | _ => None
  end.

(** ** The database *)

Record User := mkUser {
  u_id : Z;
  u_username : string;
  u_email : string;
  u_password : string;
  u_isAdmin : bool
}.

Record Table := mkTable {
  t_id : Z;
  t_name : string;
  t_capacity : Z;
  t_isAvailable : bool
}.

Record Reservation := mkReservation {
  r_id : Z;
  r_date : Z;
  r_time : string;
  r_people : Z;
  r_status : string;
  r_userId : Z;
  r_tableId : option Z
}.

(** [reservation_seq] is the next value of the autoincrement sequence of
    [Reservation.id]. *)
Record Store := mkStore {
  users : list User;
  tables : list Table;
  reservations : list Reservation;
  reservation_seq : Z
}.

(** A relation asked for with [include]: absent from the result when it was
    not asked for, else the related row or [null]. *)
Inductive Included (A : Type) :=
| NotIncluded
| Rel (row : option A).
Arguments NotIncluded {A}.
Arguments Rel {A} row.

Record ReservationJson := mkReservationJson {
  rj_reservation : Reservation;
  rj_user : Included User;
  rj_table : Included Table
}.

Inductive Body :=
| ReservationBody (r : ReservationJson)
| TableBody (t : Table)
| UserBody (u : User).

Inductive Message :=
| Text (s : string)
| PrismaText (code : option string).

(** [res.status(s).json(body)], [res.status(s).send()] and the JSON the
    error middleware sends, [{ error: { message, status } }]. *)
Inductive Response :=
| Json (status : Z) (body : Body)
| Empty (status : Z)
| Failure (message : Message) (status : Z).

(** [err.status || 500] and [err.message || 'Internal server error'] *)
Definition errorMiddleware (err : Error) : Response :=
  match err with
  | HttpError message status =>
      Failure (Text (if String.eqb message "" then "Internal server error" else message))
              (if status =? 0 then 500 else status)
  | PrismaValidationError => Failure (PrismaText None) 500
  | PrismaKnownRequestError code => Failure (PrismaText (Some code)) 500
  end.

(** ** Computations over the store *)

Inductive Result (A : Type) :=
| Ok (a : A)
| Throw (e : Error).
Arguments Ok {A} a.
Arguments Throw {A} e.

Definition M (A : Type) : Type := Store -> Result A * Store.

Definition ret {A} (a : A) : M A := fun st => (Ok a, st).
Definition throw {A} (e : Error) : M A := fun st => (Throw e, st).
Definition bind {A B} (m : M A) (k : A -> M B) : M B :=
  fun st =>
    match m st with
    | (Ok a, st') => k a st'
    | (Throw e, st') => (Throw e, st')
    end.

Notation "x <- m ;; k" := (bind m (fun x => k))
  (at level 100, m at next level, right associativity).

(** [try { ... } catch (error) { next(error) }] *)
Definition try_next (m : M Response) (st : Store) : Response * Store :=
  match m st with
  | (Ok r, st') => (r, st')
  | (Throw e, st') => (errorMiddleware e, st')
  end.

(** [catch (error) { if (error.code === 'P2025') return next(err404); next(error) }] *)
Definition try_next_P2025 (not_found : string) (m : M Response) (st : Store)
  : Response * Store :=
  match m st with
  | (Ok r, st') => (r, st')
  | (Throw e, st') =>
      match error_code e with
      | Some c => if String.eqb c "P2025"
                  then (errorMiddleware (HttpError not_found 404), st')
                  else (errorMiddleware e, st')
      | None => (errorMiddleware e, st')
      end
  end.

(** ** The Prisma client *)

(** The client is generated from the schema.  Of the schema the handlers
    depend on the names of the two relation fields of [model Reservation]:
    they pass them as keys of [include]. *)
Record PrismaClient := mkPrismaClient {
  reservation_user_field : string;
  reservation_table_field : string
}.

(** [src/unnamed/part_000], model [Reservation]:
    [User  User   @relation(fields: [userId], references: [id])] and
    [table Table? @relation(fields: [tableId], references: [id])]. *)
Definition schema_client : PrismaClient :=
  {| reservation_user_field := "User";
     reservation_table_field := "table" |}.

(** An argument of a query: [undefined] (the key counts as not given), a
    value of the wrong type for the column ([NaN], an invalid [Date], a
    number where a string is expected, ...), or a value. *)
Inductive Arg (A : Type) :=
| Omitted
| Invalid
| Given (a : A).
Arguments Omitted {A}.
Arguments Invalid {A}.
Arguments Given {A} a.

(** A number computed by the handler ([parseInt(..)], [new Date(..)]) *)
Definition computed {A} (o : option A) : Arg A :=
  match o with
  | Some a => Given a
  | None => Invalid
  end.

(** A body value passed on as it came, for a [String] or [Boolean] column *)
Definition string_arg (v : Js.Value) : Arg string :=
  match v with
  | Js.Undefined => Omitted
  | Js.Str s => Given s
  | _ => Invalid
  end.

Definition boolean_arg (v : Js.Value) : Arg bool :=
  match v with
  | Js.Undefined => Omitted
  | Js.Boolean b => Given b
  | _ => Invalid
  end.

Definition is_invalid {A} (a : Arg A) : bool :=
  match a with
  | Invalid => true
  | _ => false
  end.

(** The new value of a column under [data]: a key that is not given leaves
    the column as it is. *)
Definition assign {A} (a : Arg A) (old : A) : A :=
  match a with
  | Given x => x
  | _ => old
  end.

(** A filter of [where]: a key that is not given filters nothing. *)
Definition matches {A} (eqb : A -> A -> bool) (a : Arg A) (x : A) : bool :=
  match a with
  | Given y => eqb x y
  | _ => true
  end.

Definition update_where {A} (p : A -> bool) (f : A -> A) (l : list A) : list A :=
  map (fun x => if p x then f x else x) l.

Definition find_table (id : Z) (st : Store) : option Table :=
  find (fun t => t_id t =? id) (tables st).

Definition find_user (id : Z) (st : Store) : option User :=
  find (fun u => u_id u =? id) (users st).

Definition find_reservation (id : Z) (st : Store) : option Reservation :=
  find (fun r => r_id r =? id) (reservations st).

Definition option_Z_eqb (a b : option Z) : bool :=
  match a, b with
  | Some x, Some y => x =? y
  | None, None => true
  | _, _ => false
  end.

Record ReservationWhere := mkReservationWhere {
  w_tableId : Z;
  w_date : Arg Z;
  w_time : Arg string;
  w_status_in : list string
}.

Record ReservationCreate := mkReservationCreate {
  c_date : Arg Z;
  c_time : Arg string;
  c_people : Arg Z;
  c_status : string;
  c_userId : Arg Z;
  c_tableId : Z
}.

Record ReservationUpdate := mkReservationUpdate {
  d_date : Arg Z;
  d_time : Arg string;
  d_people : Arg Z;
  d_status : Arg string
}.

(** The [updates] object of the table route: a key is there or not, and a
    key that is there holds a value of the column's type. *)
Record TableUpdate := mkTableUpdate {
  d_name : option string;
  d_capacity : option Z;
  d_isAvailable : option bool
}.

(** The [updates] object of the user route: a key that is there holds the
    body's value as it came. *)
Record UserUpdate := mkUserUpdate {
  d_username : option Js.Value;
  d_email : option Js.Value;
  d_password : option Js.Value;
  d_isAdmin : option Js.Value
}.

Section Client.
Variable prisma : PrismaClient.

(** Prisma checks a query against the schema before it runs it: a key of
    [include] that is not a relation field of the model is rejected
    ("Unknown field ... for include statement on model ..."), and names
    are compared as written. *)
Definition include_valid (keys : list string) : bool :=
  forallb (fun k => String.eqb k (reservation_user_field prisma)
                    || String.eqb k (reservation_table_field prisma)) keys.

Definition asks_for (field : string) (keys : list string) : bool :=
  existsb (String.eqb field) keys.

Definition load_relations (keys : list string) (st : Store) (r : Reservation)
  : ReservationJson :=
  {| rj_reservation := r;
     rj_user := if asks_for (reservation_user_field prisma) keys
                then Rel (find_user (r_userId r) st) else NotIncluded;
     rj_table := if asks_for (reservation_table_field prisma) keys
                 then Rel (match r_tableId r with
                           | Some t => find_table t st
                           | None => None
                           end)
                 else NotIncluded |}.

(** [prisma.table.findFirst({ where: { capacity: { gte }, isAvailable } })] *)
Definition table_findFirst (capacity_gte : Arg Z) (isAvailable : bool)
  : M (option Table) :=
  fun st =>
    if is_invalid capacity_gte then (Throw PrismaValidationError, st)
    else (Ok (find (fun t => matches (fun c n => n <=? c) capacity_gte (t_capacity t)
                             && Bool.eqb (t_isAvailable t) isAvailable)
                   (tables st)), st).

(** [prisma.table.update({ where: { id }, data })]; [P2025] when no row
    has that id. *)
Definition apply_table_update (data : TableUpdate) (t : Table) : Table :=
  {| t_id := t_id t;
     t_name := match d_name data with Some n => n | None => t_name t end;
     t_capacity := match d_capacity data with Some c => c | None => t_capacity t end;
     t_isAvailable := match d_isAvailable data with
                      | Some b => b
                      | None => t_isAvailable t
                      end |}.

Definition set_tables (ts : list Table) (st : Store) : Store :=
  {| users := users st; tables := ts;
     reservations := reservations st; reservation_seq := reservation_seq st |}.

Definition set_reservations (rs : list Reservation) (st : Store) : Store :=
  {| users := users st; tables := tables st;
     reservations := rs; reservation_seq := reservation_seq st |}.

Definition set_users (us : list User) (st : Store) : Store :=
  {| users := us; tables := tables st;
     reservations := reservations st; reservation_seq := reservation_seq st |}.

Definition table_update (id : Arg Z) (data : TableUpdate) : M Table :=
  fun st =>
    match id with
    | Given id =>
        match find_table id st with
        | None => (Throw (PrismaKnownRequestError "P2025"), st)
        | Some t =>
            (Ok (apply_table_update data t),
             set_tables (update_where (fun t => t_id t =? id)
                                      (apply_table_update data) (tables st)) st)
        end
    | _ => (Throw PrismaValidationError, st)
    end.

(** [prisma.reservation.findFirst({ where: { tableId, date, time,
    status: { in } } })] *)
Definition reservation_matches (w : ReservationWhere) (r : Reservation) : bool :=
  option_Z_eqb (r_tableId r) (Some (w_tableId w))
  && matches Z.eqb (w_date w) (r_date r)
  && matches String.eqb (w_time w) (r_time r)
  && existsb (String.eqb (r_status r)) (w_status_in w).

Definition reservation_findFirst (w : ReservationWhere) : M (option Reservation) :=
  fun st =>
    if is_invalid (w_date w) || is_invalid (w_time w)
    then (Throw PrismaValidationError, st)
    else (Ok (find (reservation_matches w) (reservations st)), st).

(** [prisma.reservation.findUnique({ where: { id }, include })] *)
Definition reservation_findUnique (id : Arg Z) (include : list string)
  : M (option ReservationJson) :=
  fun st =>
    match id with
    | Given id =>
        if include_valid include
        then (Ok (option_map (load_relations include st) (find_reservation id st)), st)
        else (Throw PrismaValidationError, st)
    | _ => (Throw PrismaValidationError, st)
    end.

(** [prisma.reservation.create({ data, include })].  The query is checked
    first; then the row is inserted with the next id of the sequence.  A
    [userId] or [tableId] without its row violates the foreign key
    ([P2003]); the sequence value is used up all the same. *)
Definition reservation_create (data : ReservationCreate) (include : list string)
  : M ReservationJson :=
  fun st =>
    match c_date data, c_time data, c_people data, c_userId data with
    | Given date, Given time, Given people, Given userId =>
        if include_valid include then
          let st1 := {| users := users st; tables := tables st;
                        reservations := reservations st;
                        reservation_seq := reservation_seq st + 1 |} in
          match find_user userId st, find_table (c_tableId data) st with
          | Some _, Some _ =>
              let r := {| r_id := reservation_seq st; r_date := date;
                          r_time := time; r_people := people;
                          r_status := c_status data; r_userId := userId;
                          r_tableId := Some (c_tableId data) |} in
              let st2 := set_reservations (reservations st ++ [r]) st1 in
              (Ok (load_relations include st2 r), st2)
          | _, _ => (Throw (PrismaKnownRequestError "P2003"), st1)
          end
        else (Throw PrismaValidationError, st)
    | _, _, _, _ => (Throw PrismaValidationError, st)
    end.

(** [prisma.reservation.update({ where: { id }, data, include })] *)
Definition apply_reservation_update (data : ReservationUpdate) (r : Reservation)
  : Reservation :=
  {| r_id := r_id r;
     r_date := assign (d_date data) (r_date r);
     r_time := assign (d_time data) (r_time r);
     r_people := assign (d_people data) (r_people r);
     r_status := assign (d_status data) (r_status r);
     r_userId := r_userId r;
     r_tableId := r_tableId r |}.

Definition reservation_update (id : Arg Z) (data : ReservationUpdate)
           (include : list string) : M ReservationJson :=
  fun st =>
    match id with
    | Given id =>
        if is_invalid (d_date data) || is_invalid (d_time data)
           || is_invalid (d_people data) || is_invalid (d_status data)
           || negb (include_valid include)
        then (Throw PrismaValidationError, st)
        else
          match find_reservation id st with
          | None => (Throw (PrismaKnownRequestError "P2025"), st)
          | Some r =>
              let st' := set_reservations
                           (update_where (fun r => r_id r =? id)
                                         (apply_reservation_update data)
                                         (reservations st)) st in
              (Ok (load_relations include st' (apply_reservation_update data r)), st')
          end
    | _ => (Throw PrismaValidationError, st)
    end.

(** [prisma.reservation.delete({ where: { id } })] *)
Definition reservation_delete (id : Arg Z) : M Reservation :=
  fun st =>
    match id with
    | Given id =>
        match find_reservation id st with
        | None => (Throw (PrismaKnownRequestError "P2025"), st)
        | Some r =>
            (Ok r, set_reservations
                     (filter (fun r => negb (r_id r =? id)) (reservations st)) st)
        end
    | _ => (Throw PrismaValidationError, st)
    end.

(** [prisma.user.update({ where: { id }, data })]; [email] is [@unique]
    ([P2002] when another row has it). *)
Definition user_arg {A} (conv : Js.Value -> Arg A) (o : option Js.Value) : Arg A :=
  match o with
  | Some v => conv v
  | None => Omitted
  end.

Definition apply_user_update (data : UserUpdate) (u : User) : User :=
  {| u_id := u_id u;
     u_username := assign (user_arg string_arg (d_username data)) (u_username u);
     u_email := assign (user_arg string_arg (d_email data)) (u_email u);
     u_password := assign (user_arg string_arg (d_password data)) (u_password u);
     u_isAdmin := assign (user_arg boolean_arg (d_isAdmin data)) (u_isAdmin u) |}.

Definition email_taken (id : Z) (email : Arg string) (st : Store) : bool :=
  match email with
  | Given e => existsb (fun u => negb (u_id u =? id) && String.eqb (u_email u) e)
                       (users st)
  | _ => false
  end.

Definition user_update (id : Arg Z) (data : UserUpdate) : M User :=
  fun st =>
    match id with
    | Given id =>
        if is_invalid (user_arg string_arg (d_username data))
           || is_invalid (user_arg string_arg (d_email data))
           || is_invalid (user_arg string_arg (d_password data))
           || is_invalid (user_arg boolean_arg (d_isAdmin data))
        then (Throw PrismaValidationError, st)
        else
          match find_user id st with
          | None => (Throw (PrismaKnownRequestError "P2025"), st)
          | Some u =>
              if email_taken id (user_arg string_arg (d_email data)) st
              then (Throw (PrismaKnownRequestError "P2002"), st)
              else (Ok (apply_user_update data u),
                    set_users (update_where (fun u => u_id u =? id)
                                            (apply_user_update data) (users st)) st)
          end
    | _ => (Throw PrismaValidationError, st)
    end.
End Client.


(** ** The route handlers *)

(** [req.body] of [POST /reservations] *)
Record CreateReservationBody := mkCreateReservationBody {
  b_date : Js.Value;
  b_time : Js.Value;
  b_people : Js.Value;
  b_userId : Js.Value
}.

(** [req.body] of [PUT /reservations/:id] *)
Record UpdateReservationBody := mkUpdateReservationBody {
  p_date : Js.Value;
  p_time : Js.Value;
  p_people : Js.Value;
  p_status : Js.Value
}.

(** [req.body] of [PATCH /tables/:id] *)
Record PatchTableBody := mkPatchTableBody {
  b_name : Js.Value;
  b_capacity : Js.Value;
  b_isAvailable : Js.Value
}.

(** [req.body] of [PATCH /users/:id] *)
Record PatchUserBody := mkPatchUserBody {
  b_username : Js.Value;
  b_email : Js.Value;
  b_password : Js.Value;
  b_isAdmin : Js.Value
}.

Definition as_string (v : Js.Value) : option string :=
  match v with
  | Js.Str s => Some s
  | _ => None
  end.

Definition as_integer (v : Js.Value) : option Z :=
  match v with
  | Js.Num (Js.NInt z) => Some z
  | _ => None
  end.

Definition as_boolean (v : Js.Value) : option bool :=
  match v with
  | Js.Boolean b => Some b
  | _ => None
  end.

(** [v !== undefined] *)
Definition not_undefined (v : Js.Value) : bool :=
  match v with
  | Js.Undefined => false
  | _ => true
  end.

(** [Object.keys(updates).length] *)
Definition present {A} (o : option A) : nat :=
  match o with
  | Some _ => 1%nat
  | None => 0%nat
  end.

Definition table_update_keys (u : TableUpdate) : nat :=
  (present (d_name u) + present (d_capacity u) + present (d_isAvailable u))%nat.

Definition user_update_keys (u : UserUpdate) : nat :=
  (present (d_username u) + present (d_email u) + present (d_password u)
   + present (d_isAdmin u))%nat.

Definition set_isAvailable (b : bool) : TableUpdate :=
  {| d_name := None; d_capacity := None; d_isAvailable := Some b |}.

Definition validation_message : string :=
  "Date, time, people (positive number), and userId are required".

Section Routes.
Variable prisma : PrismaClient.
Context {rt : Js.Runtime}.

(** [router.post('/')] of [src/routes/reservations.js] *)
Definition create_data (body : CreateReservationBody) (table : Table)
  : ReservationCreate :=
  {| c_date := computed (Js.new_Date (b_date body));
     c_time := string_arg (b_time body);
     c_people := computed (Js.parseInt (b_people body));
     c_status := "booked";
     c_userId := computed (Js.parseInt (b_userId body));
     c_tableId := t_id table |}.

Definition conflict_where (body : CreateReservationBody) (table : Table)
  : ReservationWhere :=
  {| w_tableId := t_id table;
     w_date := computed (Js.new_Date (b_date body));
     w_time := string_arg (b_time body);
     w_status_in := ["booked"; "seated"] |}.

Definition rejects (body : CreateReservationBody) : bool :=
  negb (Js.truthy (b_date body)) || negb (Js.truthy (b_time body))
  || negb (Js.truthy (b_people body)) || Js.leb (b_people body) 0
  || negb (Js.truthy (b_userId body)).

(** The two writes: create the reservation, then mark the table. *)
Definition commit_reservation (body : CreateReservationBody) (table : Table)
  : M Response :=
  reservation <- reservation_create prisma (create_data body table)
                                    ["user"; "table"] ;;
  updatedTable <- table_update (Given (t_id table)) (set_isAvailable false) ;;
  ret (Json 201 (ReservationBody reservation)).

Definition post_reservation (body : CreateReservationBody)
  : Store -> Response * Store :=
  try_next (
    if rejects body then throw (HttpError validation_message 400)
    else
      table <- table_findFirst (computed (Js.parseInt (b_people body))) true ;;
      match table with
      | None => throw (HttpError "No available table for this party size" 400)
      | Some table =>
          conflictingReservation <- reservation_findFirst (conflict_where body table) ;;
          match conflictingReservation with
          | Some _ => throw (HttpError "Table is already reserved for this time" 400)
          | None => commit_reservation body table
          end
      end).

(** [router.get('/:id')] *)
Definition get_reservation (id : string) : Store -> Response * Store :=
  try_next (
    reservation <- reservation_findUnique prisma
                     (computed (Js.parseInt (Js.Str id))) ["user"; "table"] ;;
    match reservation with
    | None => throw (HttpError "Reservation not found" 404)
    | Some reservation => ret (Json 200 (ReservationBody reservation))
    end).

(** [router.put('/:id')] *)
Definition update_data (body : UpdateReservationBody) : ReservationUpdate :=
  {| d_date := if Js.truthy (p_date body)
               then computed (Js.new_Date (p_date body)) else Omitted;
     d_time := string_arg (p_time body);
     d_people := if Js.truthy (p_people body)
                 then computed (Js.parseInt (p_people body)) else Omitted;
     d_status := string_arg (p_status body) |}.

Definition put_reservation (id : string) (body : UpdateReservationBody)
  : Store -> Response * Store :=
  try_next_P2025 "Reservation not found" (
    reservation <- reservation_update prisma (computed (Js.parseInt (Js.Str id)))
                     (update_data body) ["user"; "table"] ;;
    ret (Json 200 (ReservationBody reservation))).

(** [if (reservation.tableId) await prisma.table.update(.. isAvailable: true ..)] *)
Definition free_table (reservation : Reservation) : M unit :=
  match r_tableId reservation with
  | Some tableId =>
      if tableId =? 0 then ret tt
      else (_ <- table_update (Given tableId) (set_isAvailable true) ;; ret tt)
  | None => ret tt
  end.

Definition cancel_data : ReservationUpdate :=
  {| d_date := Omitted; d_time := Omitted; d_people := Omitted;
     d_status := Given "cancelled" |}.

(** [router.put('/:id/cancel')] *)
Definition cancel_reservation (id : string) : Store -> Response * Store :=
  try_next (
    reservation <- reservation_findUnique prisma
                     (computed (Js.parseInt (Js.Str id))) [] ;;
    match reservation with
    | None => throw (HttpError "Reservation not found" 404)
    | Some reservation =>
        updatedReservation <- reservation_update prisma
                                (computed (Js.parseInt (Js.Str id)))
                                cancel_data ["user"; "table"] ;;
        _ <- free_table (rj_reservation reservation) ;;
        ret (Json 200 (ReservationBody updatedReservation))
    end).

(** [router.delete('/:id')] *)
Definition delete_reservation (id : string) : Store -> Response * Store :=
  try_next (
    reservation <- reservation_findUnique prisma
                     (computed (Js.parseInt (Js.Str id))) [] ;;
    match reservation with
    | None => throw (HttpError "Reservation not found" 404)
    | Some reservation =>
        _ <- reservation_delete (computed (Js.parseInt (Js.Str id))) ;;
        _ <- free_table (rj_reservation reservation) ;;
        ret (Empty 204)
    end).

(** [router.patch('/:id')] of the table routes *)
Definition table_updates (body : PatchTableBody) : TableUpdate :=
  {| d_name := if Js.truthy (b_name body)
                  && String.eqb (Js.typeof (b_name body)) "string"
               then as_string (b_name body) else None;
     d_capacity := if Js.truthy (b_capacity body)
                      && Js.Number_isInteger (b_capacity body)
                      && Js.geb (b_capacity body) 1
                   then as_integer (b_capacity body) else None;
     d_isAvailable := if not_undefined (b_isAvailable body)
                         && String.eqb (Js.typeof (b_isAvailable body)) "boolean"
                      then as_boolean (b_isAvailable body) else None |}.

Definition patch_table (id : string) (body : PatchTableBody)
  : Store -> Response * Store :=
  try_next_P2025 ("Table with id " ++ id ++ " not found") (
    let updates := table_updates body in
    if (table_update_keys updates =? 0)%nat
    then throw (HttpError "No valid fields to update" 400)
    else
      updatedTable <- table_update (computed (Js.parseInt (Js.Str id))) updates ;;
      ret (Json 200 (TableBody updatedTable))).

(** [router.patch('/:id')] of [src/routes/users.js] *)
Definition user_updates (body : PatchUserBody) : UserUpdate :=
  {| d_username := if Js.truthy (b_username body) then Some (b_username body) else None;
     d_email := if Js.truthy (b_email body) then Some (b_email body) else None;
     d_password := if Js.truthy (b_password body) then Some (b_password body) else None;
     d_isAdmin := if not_undefined (b_isAdmin body) then Some (b_isAdmin body) else None |}.

Definition patch_user (id : string) (body : PatchUserBody)
  : Store -> Response * Store :=
  try_next_P2025 ("User with id " ++ id ++ " not found") (
    let updates := user_updates body in
    if (user_update_keys updates =? 0)%nat
    then throw (HttpError "No fields to update" 400)
    else
      updateUser <- user_update (computed (Js.parseInt (Js.Str id))) updates ;;
      ret (Json 200 (UserBody updateUser))).
End Routes.

(** ** The remaining queries and handlers *)

(** The store together with the autoincrement sequences of [Table.id] and
    [User.id]. *)
Record Database := mkDatabase {
  store : Store;
  table_seq : Z;
  user_seq : Z
}.

(** A body value passed on as it came, for an [Int] column *)
Definition integer_arg (v : Js.Value) : Arg Z :=
  match v with
  | Js.Undefined => Omitted
  | Js.Num (Js.NInt z) => Given z
  | _ => Invalid
  end.

(** [v < k] against a number literal *)
Definition js_ltb {rt : Js.Runtime} (v : Js.Value) (k : Z) : bool :=
  match Js.ToNumber v with
  | Some x => negb (Js.number_geb x k)
  | None => false
  end.

(** [a || b] *)
Definition js_or (a b : Js.Value) : Js.Value :=
  if Js.truthy a then a else b.

(** What a handler that sends a list answers: [res.json(rows)] or the
    error middleware's response. *)
Inductive Listing (A : Type) :=
| Rows (rows : list A)
| NoRows (r : Response).
Arguments Rows {A} rows.
Arguments NoRows {A} r.

(** What becomes of a request: a response is sent, or the promise of the
    handler is rejected with an error that neither [res] nor [next] saw. *)
Inductive Outcome :=
| Responded (r : Response)
| Rejected (error : string).

Definition try_next_rows {A} (m : M (list A)) (st : Store) : Listing A * Store :=
  match m st with
  | (Ok rows, st') => (Rows rows, st')
  | (Throw e, st') => (NoRows (errorMiddleware e), st')
  end.

(** [prisma.reservation.findMany({ include })] *)
Definition reservation_findMany (prisma : PrismaClient) (include : list string)
  : M (list ReservationJson) :=
  fun st =>
    if include_valid prisma include
    then (Ok (map (load_relations prisma include st) (reservations st)), st)
    else (Throw PrismaValidationError, st).

(** [prisma.table.findMany()] and [prisma.user.findMany()] *)
Definition table_findMany : M (list Table) :=
  fun st => (Ok (tables st), st).

Definition user_findMany : M (list User) :=
  fun st => (Ok (users st), st).

(** [prisma.table.findUnique({ where: { id } })] and the same for users *)
Definition table_findUnique (id : Arg Z) : M (option Table) :=
  fun st =>
    match id with
    | Given id => (Ok (find_table id st), st)
    | _ => (Throw PrismaValidationError, st)
    end.

Definition user_findUnique (id : Arg Z) : M (option User) :=
  fun st =>
    match id with
    | Given id => (Ok (find_user id st), st)
    | _ => (Throw PrismaValidationError, st)
    end.

(** [prisma.table.delete({ where: { id } })].  The relation
    [Reservation.table] is optional and the schema gives it no [onDelete],
    so its foreign key is [ON DELETE SET NULL]: the reservations of the
    table stay, with [tableId] null. *)
Definition unbind (r : Reservation) : Reservation :=
  mkReservation (r_id r) (r_date r) (r_time r) (r_people r) (r_status r)
                (r_userId r) None.

Definition table_delete (id : Arg Z) : M Table :=
  fun st =>
    match id with
    | Given id =>
        match find_table id st with
        | None => (Throw (PrismaKnownRequestError "P2025"), st)
        | Some t =>
            (Ok t,
             mkStore (users st)
                     (filter (fun t => negb (t_id t =? id)) (tables st))
                     (update_where (fun r => option_Z_eqb (r_tableId r) (Some id))
                                   unbind (reservations st))
                     (reservation_seq st))
        end
    | _ => (Throw PrismaValidationError, st)
    end.

(** [prisma.user.delete({ where: { id } })].  The relation
    [Reservation.User] is required and the schema gives it no [onDelete],
    so its foreign key is [ON DELETE RESTRICT]: a user with reservations is
    not deleted ([P2003]). *)
Definition user_delete (id : Arg Z) : M User :=
  fun st =>
    match id with
    | Given id =>
        match find_user id st with
        | None => (Throw (PrismaKnownRequestError "P2025"), st)
        | Some u =>
            if existsb (fun r => r_userId r =? id) (reservations st)
            then (Throw (PrismaKnownRequestError "P2003"), st)
            else (Ok u, set_users (filter (fun u => negb (u_id u =? id)) (users st)) st)
        end
    | _ => (Throw PrismaValidationError, st)
    end.

(** [prisma.table.create({ data: { name, capacity, isAvailable } })] *)
Definition table_create (name : Arg string) (capacity : Arg Z) (isAvailable : bool)
           (db : Database) : Result Table * Database :=
  match name, capacity with
  | Given n, Given c =>
      let t := mkTable (table_seq db) n c isAvailable in
      (Ok t, mkDatabase (set_tables (tables (store db) ++ [t]) (store db))
                        (table_seq db + 1) (user_seq db))
  | _, _ => (Throw PrismaValidationError, db)
  end.

(** [prisma.user.create({ data: { username, email, password, isAdmin } })];
    [isAdmin] has [@default(false)], [email] is [@unique] ([P2002], the
    sequence value is used up all the same). *)
Definition user_create (username email password : Arg string) (isAdmin : Arg bool)
           (db : Database) : Result User * Database :=
  match username, email, password with
  | Given n, Given e, Given p =>
      if is_invalid isAdmin then (Throw PrismaValidationError, db)
      else
        if existsb (fun u => String.eqb (u_email u) e) (users (store db))
        then (Throw (PrismaKnownRequestError "P2002"),
              mkDatabase (store db) (table_seq db) (user_seq db + 1))
        else
          let u := mkUser (user_seq db) n e p (assign isAdmin false) in
          (Ok u, mkDatabase (set_users (users (store db) ++ [u]) (store db))
                            (table_seq db) (user_seq db + 1))
  | _, _, _ => (Throw PrismaValidationError, db)
  end.

(** [req.body] of [POST /tables] *)
Record CreateTableBody := mkCreateTableBody {
  ct_name : Js.Value;
  ct_capacity : Js.Value
}.

(** [req.body] of [POST /users] *)
Record CreateUserBody := mkCreateUserBody {
  cu_username : Js.Value;
  cu_email : Js.Value;
  cu_password : Js.Value;
  cu_isAdmin : Js.Value
}.

(** A handler that only works on the three row lists, run on the
    database. *)
Definition on_store {R} (handler : Store -> R * Store) (db : Database)
  : R * Database :=
  let (r, st') := handler (store db) in
  (r, mkDatabase st' (table_seq db) (user_seq db)).

Section OtherRoutes.
Variable prisma : PrismaClient.
Context {rt : Js.Runtime}.

(** [router.get('/')] of [src/routes/reservations.js] *)
Definition list_reservations : Store -> Listing ReservationJson * Store :=
  try_next_rows (reservation_findMany prisma ["user"; "table"]).

(** [router.post('/')] of the table routes *)
Definition table_rejects (body : CreateTableBody) : bool :=
  negb (Js.truthy (ct_name body))
  || negb (String.eqb (Js.typeof (ct_name body)) "string")
  || negb (Js.truthy (ct_capacity body))
  || negb (Js.Number_isInteger (ct_capacity body))
  || js_ltb (ct_capacity body) 1.

Definition table_validation_message : string :=
  "Name (string) and valid capacity (positive integer) are required".

Definition post_table (body : CreateTableBody) (db : Database)
  : Response * Database :=
  if table_rejects body
  then (errorMiddleware (HttpError table_validation_message 400), db)
  else
    match table_create (string_arg (ct_name body)) (integer_arg (ct_capacity body))
                       true db with
    | (Ok table, db') => (Json 201 (TableBody table), db')
    | (Throw e, db') => (errorMiddleware e, db')
    end.

(** [router.get('/')] of the table routes *)
Definition list_tables : Store -> Listing Table * Store :=
  try_next_rows table_findMany.

(** [router.get('/:id')] of the table routes *)
Definition get_table (id : string) : Store -> Response * Store :=
  try_next (
    table <- table_findUnique (computed (Js.parseInt (Js.Str id))) ;;
    match table with
    | None => throw (HttpError ("Table with id " ++ id ++ " not found") 404)
    | Some table => ret (Json 200 (TableBody table))
    end).

(** [router.delete('/:id')] of the table routes *)
Definition delete_table (id : string) : Store -> Response * Store :=
  try_next_P2025 ("Table with id " ++ id ++ " not found") (
    _ <- table_delete (computed (Js.parseInt (Js.Str id))) ;;
    ret (Empty 204)).

(** [router.post('/')] of [src/routes/users.js] *)
Definition user_rejects (body : CreateUserBody) : bool :=
  negb (Js.truthy (cu_username body)) || negb (Js.truthy (cu_email body))
  || negb (Js.truthy (cu_password body)).

Definition post_user (body : CreateUserBody) (db : Database)
  : Response * Database :=
  if user_rejects body
  then (errorMiddleware (HttpError "Username, email or password not specified." 400),
        db)
  else
    match user_create (string_arg (cu_username body)) (string_arg (cu_email body))
                      (string_arg (cu_password body))
                      (boolean_arg (js_or (cu_isAdmin body) (Js.Boolean false)))
                      db with
    | (Ok user, db') => (Json 201 (UserBody user), db')
    | (Throw e, db') => (errorMiddleware e, db')
    end.

(** [router.get('/')] of [src/routes/users.js] *)
Definition list_users : Store -> Listing User * Store :=
  try_next_rows user_findMany.

(** [router.get('/:id')] of [src/routes/users.js] *)
Definition get_user (id : string) : Store -> Response * Store :=
  try_next (
    user <- user_findUnique (computed (Js.parseInt (Js.Str id))) ;;
    match user with
    | None => throw (HttpError ("No user with id " ++ id ++ " found") 404)
    | Some user => ret (Json 200 (UserBody user))
    end).

(** [router.delete('/:id')] of [src/routes/users.js].  [id] is declared
    with [const] inside the [try] block, so it is not in scope in the
    [catch] block: building the message of the 404 throws a
    [ReferenceError] there, before [next] is called, and the promise of the
    handler is rejected. *)
Definition delete_user (id : string) (st : Store) : Outcome * Store :=
  match (_ <- user_delete (computed (Js.parseInt (Js.Str id))) ;;
         ret (Empty 204)) st with
  | (Ok r, st') => (Responded r, st')
  | (Throw e, st') =>
      match error_code e with
      | Some c => if String.eqb c "P2025"
                  then (Rejected "ReferenceError: id is not defined", st')
                  else (Responded (errorMiddleware e), st')
      | None => (Responded (errorMiddleware e), st')
      end
  end.
End OtherRoutes.

(** ** A runtime for the closed examples

    The examples below run the handlers on decimal integers and on calendar
    dates written [YYYY-MM-DD].  On those inputs the functions here give what
    the ECMAScript functions give; on other inputs ([0x] prefixes, leading
    white space, exponents, other date formats) they stand for [NaN]. *)

Definition digit (c : ascii) : option Z :=
  let n := Z.of_nat (nat_of_ascii c) in
  if (48 <=? n) && (n <=? 57) then Some (n - 48) else None.

Fixpoint digits (s : string) (acc : Z) : option Z :=
  match s with
  | EmptyString => Some acc
  | String c s' =>
      match digit c with
      | Some d => digits s' (10 * acc + d)
      | None => None
      end
  end.

Definition decimal (s : string) : option Z :=
  match s with
  | EmptyString => None
  | _ => digits s 0
  end.

Fixpoint leading_digits (s : string) (acc : option Z) : option Z :=
  match s with
  | EmptyString => acc
  | String c s' =>
      match digit c with
      | Some d => leading_digits s' (Some (10 * match acc with
                                                | Some a => a
                                                | None => 0
                                                end + d))
      | None => acc
      end
  end.

Definition decimal_parse_int (s : string) : option Z :=
  match s with
  | String "-" s' => option_map Z.opp (leading_digits s' None)
  | String "+" s' => leading_digits s' None
  | _ => leading_digits s None
  end.

Definition decimal_to_number (s : string) : option Js.Number :=
  match s with
  | EmptyString => Some (Js.NInt 0)
  | String "-" s' => option_map (fun z => Js.NInt (- z)) (decimal s')
  | _ => option_map Js.NInt (decimal s)
  end.

Definition decimal_of_Z (z : Z) : string :=
  DecimalString.NilZero.string_of_int (Z.to_int z).

(** [NFrac fl] is printed as the number halfway between [fl] and [fl + 1]. *)
Definition decimal_to_string (n : Js.Number) : string :=
  match n with
  | Js.NInt z => decimal_of_Z z
  | Js.NFrac fl =>
      if 0 <=? fl then decimal_of_Z fl ++ ".5"
      else "-" ++ decimal_of_Z (- (fl + 1)) ++ ".5"
  end.

Definition days_from_civil (y m d : Z) : Z :=
  let y' := if m <=? 2 then y - 1 else y in
  let era := y' / 400 in
  let yoe := y' - era * 400 in
  let doy := (153 * ((m + 9) mod 12) + 2) / 5 + d - 1 in
  era * 146097 + (yoe * 365 + yoe / 4 - yoe / 100 + doy) - 719468.

Definition iso_date_parse (s : string) : option Z :=
  if (String.length s =? 10)%nat
     && String.eqb (substring 4 1 s) "-" && String.eqb (substring 7 1 s) "-"
  then
    match decimal (substring 0 4 s), decimal (substring 5 2 s),
          decimal (substring 8 2 s) with
    | Some y, Some m, Some d =>
        if (1 <=? m) && (m <=? 12) && (1 <=? d) && (d <=? 31)
        then Some (days_from_civil y m d * 86400000)
        else None
    | _, _, _ => None
    end
  else None.

Definition decimal_runtime : Js.Runtime :=
  {| Js.string_to_number := decimal_to_number;
     Js.number_to_string := decimal_to_string;
     Js.parse_int_string := decimal_parse_int;
     Js.date_parse := iso_date_parse |}.

(** ** Vocabulary of the specification *)

(** A candidate table: capacity at least the party size and available. *)
Definition is_candidate (partySize : Z) (t : Table) : bool :=
  (partySize <=? t_capacity t) && t_isAvailable t.

(** The first candidate in the store's row order. *)
Definition first_candidate (partySize : Z) (st : Store) : option Table :=
  find (is_candidate partySize) (tables st).

(** An active reservation: status [booked] or [seated]. *)
Definition active (r : Reservation) : Prop :=
  r_status r = "booked" \/ r_status r = "seated".

(** A conflict: an active reservation of the same table, date and time
    string. *)
Definition conflicts (table : Table) (date : Z) (time : string) (r : Reservation)
  : Prop :=
  r_tableId r = Some (t_id table) /\ r_date r = date /\ r_time r = time /\ active r.

(** The body passes the validation of [POST /reservations] and asks for a
    party of [partySize]. *)
Definition valid_request {rt : Js.Runtime} (body : CreateReservationBody)
           (partySize : Z) : Prop :=
  Js.truthy (b_date body) = true /\ Js.truthy (b_time body) = true
  /\ Js.truthy (b_userId body) = true /\ Js.truthy (b_people body) = true
  /\ Js.leb (b_people body) 0 = false
  /\ Js.parseInt (b_people body) = Some partySize.

(** The client agrees with the handlers on the names of the relations. *)
Definition relations_named_as_used (prisma : PrismaClient) : Prop :=
  reservation_user_field prisma = "user" /\ reservation_table_field prisma = "table".

(** A field of [PATCH /tables/:id] that the handler takes over: a non-empty
    string, an integer of at least 1, a boolean. *)
Definition valid_name (v : Js.Value) : option string :=
  match v with
  | Js.Str s => if String.eqb s "" then None else Some s
  | _ => None
  end.

Definition valid_capacity (v : Js.Value) : option Z :=
  match v with
  | Js.Num (Js.NInt z) => if 1 <=? z then Some z else None
  | _ => None
  end.

Definition valid_isAvailable (v : Js.Value) : option bool :=
  match v with
  | Js.Boolean b => Some b
  | _ => None
  end.

Definition valid_fields (body : PatchTableBody) : TableUpdate :=
  {| d_name := valid_name (b_name body);
     d_capacity := valid_capacity (b_capacity body);
     d_isAvailable := valid_isAvailable (b_isAvailable body) |}.

Definition orElse {A} (o : option A) (d : A) : A :=
  match o with
  | Some a => a
  | None => d
  end.

Definition with_isAvailable (b : bool) (t : Table) : Table :=
  mkTable (t_id t) (t_name t) (t_capacity t) b.

Definition with_status (status : string) (r : Reservation) : Reservation :=
  mkReservation (r_id r) (r_date r) (r_time r) (r_people r) status
                (r_userId r) (r_tableId r).

(** The tables once the table of a reservation is available again. *)
Definition freed (tableId : option Z) (ts : list Table) : list Table :=
  match tableId with
  | Some t => update_where (fun x => t_id x =? t) (with_isAvailable true) ts
  | None => ts
  end.

(** The table a reservation is bound to is a row of the store, and its id
    is one the sequence hands out (they start at 1). *)
Definition table_bound (r : Reservation) (st : Store) : Prop :=
  forall t, r_tableId r = Some t -> t <> 0 /\ find_table t st <> None.

(** The store after reservation [n], found as [r], was cancelled; after it
    was deleted. *)
Definition cancelled (n : Z) (r : Reservation) (st : Store) : Store :=
  mkStore (users st) (freed (r_tableId r) (tables st))
          (update_where (fun x => r_id x =? n) (with_status "cancelled")
                        (reservations st))
          (reservation_seq st).

Definition deleted (n : Z) (r : Reservation) (st : Store) : Store :=
  mkStore (users st) (freed (r_tableId r) (tables st))
          (filter (fun x => negb (r_id x =? n)) (reservations st))
          (reservation_seq st).

(** ** Data of the examples *)

Definition john : User := mkUser 1 "John" "john@example.com" "secret" false.

Definition table1 : Table := mkTable 1 "Table 1" 4 true.

(** The store of the example of the specification: one free table of
    capacity 4 and no reservation. *)
Definition empty_store : Store := mkStore [john] [table1] [] 1.

(** [{ date: "2025-06-15", time: "19:00", people: 2, userId: 1 }] *)
Definition example_body : CreateReservationBody :=
  mkCreateReservationBody (Js.Str "2025-06-15") (Js.Str "19:00")
                          (Js.Num (Js.NInt 2)) (Js.Num (Js.NInt 1)).

(** The same request with another value for [people]. *)
Definition request_for (people : Js.Value) : CreateReservationBody :=
  mkCreateReservationBody (Js.Str "2025-06-15") (Js.Str "19:00")
                          people (Js.Num (Js.NInt 1)).

Definition booking (status : string) : Reservation :=
  mkReservation 1 1749945600000 "19:00" 2 status 1 (Some 1).

(** The store after that reservation was made: table 1 is taken. *)
Definition booked_store : Store :=
  mkStore [john] [mkTable 1 "Table 1" 4 false] [booking "booked"] 2.

(** A reservation on table 1 with the given status, the table still free. *)
Definition store_with (status : string) : Store :=
  mkStore [john] [table1] [booking status] 2.

(** A client whose schema names the relations [user] and [table]. *)
Definition camel_client : PrismaClient :=
  {| reservation_user_field := "user"; reservation_table_field := "table" |}.

(** The row [PATCH /tables/:id] is to write: each column takes the value of
    its field when that is valid and keeps its own otherwise. *)
Definition written (body : PatchTableBody) (t : Table) : Table :=
  {| t_id := t_id t;
     t_name := orElse (valid_name (b_name body)) (t_name t);
     t_capacity := orElse (valid_capacity (b_capacity body)) (t_capacity t);
     t_isAvailable := orElse (valid_isAvailable (b_isAvailable body)) (t_isAvailable t) |}.

(** [{ username: "", email: "", password: "" }] *)
Definition empty_strings : PatchUserBody :=
  mkPatchUserBody (Js.Str "") (Js.Str "") (Js.Str "") Js.Undefined.

(** [{ isAdmin: false }] *)
Definition only_isAdmin_false : PatchUserBody :=
  mkPatchUserBody Js.Undefined Js.Undefined Js.Undefined (Js.Boolean false).

(** [{ name: 7, capacity: 0, isAvailable: "yes" }]: no field is valid. *)
Definition no_valid_field : PatchTableBody :=
  mkPatchTableBody (Js.Num (Js.NInt 7)) (Js.Num (Js.NInt 0)) (Js.Str "yes").

(** [{ name: "Window", capacity: 2.5 }]: the name is valid, the capacity is
    not. *)
Definition name_only : PatchTableBody :=
  mkPatchTableBody (Js.Str "Window") (Js.Num (Js.NFrac 2)) Js.Undefined.

(** [{ status: "cancelled" }] *)
Definition status_cancelled : UpdateReservationBody :=
  mkUpdateReservationBody Js.Undefined Js.Undefined Js.Undefined (Js.Str "cancelled").

Definition admin : User := mkUser 2 "Ada" "ada@example.com" "secret" true.

Definition staff_store : Store := mkStore [john; admin] [table1] [] 1.

(** ** Vocabulary of the further properties *)

Definition status_of (r : Response) : Z :=
  match r with
  | Json s _ => s
  | Empty s => s
  | Failure _ s => s
  end.

(** Two reservations clash: both are active and they hold the same table
    at the same date and time string. *)
Definition clash (r1 r2 : Reservation) : Prop :=
  active r1 /\ active r2
  /\ (exists t, r_tableId r1 = Some t /\ r_tableId r2 = Some t)
  /\ r_date r1 = r_date r2 /\ r_time r1 = r_time r2.

(** No table is booked twice for a date and time. *)
Definition no_double_booking (st : Store) : Prop :=
  ForallOrdPairs (fun r1 r2 => ~ clash r1 r2) (reservations st).

(** The row [POST /reservations] inserts, and the store after the commit. *)
Definition booked_row (st : Store) (date : Z) (time : string)
           (partySize userId : Z) (table : Table) : Reservation :=
  mkReservation (reservation_seq st) date time partySize "booked" userId
                (Some (t_id table)).

Definition booked (st : Store) (table : Table) (r : Reservation) : Store :=
  mkStore (users st)
          (update_where (fun x => t_id x =? t_id table) (with_isAvailable false)
                        (tables st))
          (reservations st ++ [r])
          (reservation_seq st + 1).

(** Ids are told apart and the reservation sequence is ahead of the ids
    in use. *)
Definition table_ids_unique (st : Store) : Prop :=
  NoDup (map t_id (tables st)).

Definition reservation_ids_fresh (st : Store) : Prop :=
  forall r, In r (reservations st) -> r_id r < reservation_seq st.

(** The sequences of the database are ahead of the ids in use. *)
Definition table_ids_fresh (db : Database) : Prop :=
  forall t, In t (tables (store db)) -> t_id t < table_seq db.

Definition user_ids_fresh (db : Database) : Prop :=
  forall u, In u (users (store db)) -> u_id u < user_seq db.

(** Users are told apart by their id and by their email. *)
Definition users_consistent (db : Database) : Prop :=
  NoDup (map u_id (users (store db)))
  /\ NoDup (map u_email (users (store db)))
  /\ user_ids_fresh db.

(** The table [POST /tables] inserts. *)
Definition new_table (db : Database) (name : string) (capacity : Z) : Table :=
  mkTable (table_seq db) name capacity true.

Definition with_table (db : Database) (t : Table) : Database :=
  mkDatabase (set_tables (tables (store db) ++ [t]) (store db))
             (table_seq db + 1) (user_seq db).

(** [{ name: "Patio", capacity: 6 }] *)
Definition patio : CreateTableBody :=
  mkCreateTableBody (Js.Str "Patio") (Js.Num (Js.NInt 6)).

(** [{ username: "Eve", email: "eve@example.com", password: "pw",
    isAdmin: "yes" }] and the same with [isAdmin: true] *)
Definition eve (isAdmin : Js.Value) : CreateUserBody :=
  mkCreateUserBody (Js.Str "Eve") (Js.Str "eve@example.com") (Js.Str "pw") isAdmin.

(** The database of the examples: John and Ada, table 1, no reservation. *)
Definition example_db : Database := mkDatabase staff_store 2 3.


Definition absent_or_boolean (v : Js.Value) : Prop :=
  v = Js.Undefined \/ exists b, v = Js.Boolean b.

(** The database after [POST /users] has inserted [u]. *)
Definition with_user (db : Database) (u : User) : Database :=
  mkDatabase (set_users (users (store db) ++ [u]) (store db))
             (table_seq db) (user_seq db + 1).

(** A store where John has a reservation and Ada has none. *)
Definition john_booked : Store :=
  mkStore [john; admin] [mkTable 1 "Table 1" 4 false] [booking "booked"] 2.



(** What the routes keep of a database: the ids of tables, reservations
    and users are positive, told apart and behind their sequence, emails
    are told apart, and every reservation refers to a user and, when it is
    bound, to a table of the store. *)
Record consistent (db : Database) : Prop := mkConsistent {
  table_seq_positive : 0 < table_seq db;
  table_ids : NoDup (map t_id (tables (store db)));
  table_range : forall t, In t (tables (store db)) -> 0 < t_id t < table_seq db;
  reservation_seq_positive : 0 < reservation_seq (store db);
  reservation_ids : NoDup (map r_id (reservations (store db)));
  reservation_range :
    forall r, In r (reservations (store db)) ->
              0 < r_id r < reservation_seq (store db);
  user_seq_positive : 0 < user_seq db;
  user_ids : NoDup (map u_id (users (store db)));
  user_emails : NoDup (map u_email (users (store db)));
  user_range : forall u, In u (users (store db)) -> 0 < u_id u < user_seq db;
  reserved_by :
    forall r, In r (reservations (store db)) ->
              In (r_userId r) (map u_id (users (store db)));
  reserved_table :
    forall r t, In r (reservations (store db)) -> r_tableId r = Some t ->
                In t (map t_id (tables (store db)))
}.

(** The database before the first request. *)
Definition empty_db : Database := mkDatabase (mkStore [] [] [] 1) 1 1.

(** A [time] or [status] of [PUT /reservations/:id] that Prisma accepts:
    left out, or a string. *)
Definition absent_or_string (v : Js.Value) : Prop :=
  v = Js.Undefined \/ exists s, v = Js.Str s.

(** [{ date: "", time: "", people: 0, status: "anything" }] *)
Definition odd_update : UpdateReservationBody :=
  mkUpdateReservationBody (Js.Str "") (Js.Str "") (Js.Num (Js.NInt 0))
                          (Js.Str "anything").

(** One free table, for two. *)
Definition two_seater_store : Store :=
  mkStore [john] [mkTable 1 "Table 1" 2 true] [] 1.

(** The requests that write reservations, and a list of them served in
    turn: each handler runs to its end before the next request is looked
    at. *)
Inductive ReservationRequest :=
| CreateRequest (body : CreateReservationBody)
| CancelRequest (id : string)
| DeleteRequest (id : string).

Definition serve (prisma : PrismaClient) {rt : Js.Runtime}
           (request : ReservationRequest) (st : Store) : Store :=
  match request with
  | CreateRequest body => snd (post_reservation prisma body st)
  | CancelRequest id => snd (cancel_reservation prisma id st)
  | DeleteRequest id => snd (delete_reservation prisma id st)
  end.

Definition serve_in_turn (prisma : PrismaClient) {rt : Js.Runtime}
           (requests : list ReservationRequest) (st : Store) : Store :=
  fold_left (fun st request => serve prisma request st) requests st.



(** * Properties of the handlers *)

#[local] Arguments String.eqb : simpl nomatch.
#[local] Arguments include_valid : simpl never.
#[local] Arguments load_relations : simpl never.
#[local] Arguments find_table : simpl never.
#[local] Arguments find_user : simpl never.
#[local] Arguments find_reservation : simpl never.
#[local] Arguments update_where : simpl never.

(** ** Queries *)

Lemma find_agree {A} (f g : A -> bool) (l : list A) :
  (forall a, f a = g a) -> find f l = find g l.
Proof.
  intros E. induction l as [|a l IH]; simpl; [reflexivity|].
  rewrite E, IH. reflexivity.
Qed.

Lemma find_absent {A} (f : A -> bool) (l : list A) :
  (forall a, In a l -> f a = false) -> find f l = None.
Proof.
  intros H. destruct (find f l) as [a|] eqn:E; [|reflexivity].
  apply find_some in E. destruct E as [I T]. rewrite (H a I) in T. discriminate.
Qed.

Lemma find_present {A} (f : A -> bool) (l : list A) (a : A) :
  In a l -> f a = true -> exists b, find f l = Some b.
Proof.
  intros I T. destruct (find f l) as [b|] eqn:E; [eauto|].
  rewrite (find_none f l E a I) in T. discriminate.
Qed.

Lemma table_findFirst_candidate (n : Z) (st : Store) :
  table_findFirst (Given n) true st = (Ok (first_candidate n st), st).
Proof.
  unfold table_findFirst, first_candidate. simpl. do 2 f_equal.
  apply find_agree. intros t. unfold is_candidate.
  destruct (t_isAvailable t); reflexivity.
Qed.

Lemma valid_request_passes (rt : Js.Runtime) (body : CreateReservationBody) (n : Z) :
  valid_request body n -> rejects body = false.
Proof.
  unfold valid_request, rejects.
  intros (-> & -> & -> & -> & -> & _). reflexivity.
Qed.

(** A reservation matches the conflict query exactly when it is a conflict. *)
Lemma reservation_matches_conflicts (table : Table) (d : Z) (t : string)
      (r : Reservation) :
  reservation_matches (mkReservationWhere (t_id table) (Given d) (Given t)
                                          ["booked"; "seated"]) r = true
  <-> conflicts table d t r.
Proof.
  unfold reservation_matches, conflicts, active, option_Z_eqb. simpl.
  rewrite !andb_true_iff, !orb_true_iff, Z.eqb_eq, !String.eqb_eq.
  destruct (r_tableId r) as [x|].
  - rewrite Z.eqb_eq. split.
    + intros [[[-> ->] ->] [E|[E|E]]]; auto; discriminate.
    + intros (E & -> & -> & [S|S]); inversion E; auto.
  - split; [intros [[[E _] _] _]|intros [E _]]; discriminate.
Qed.

(** The handler up to the commit, for a request that passes validation and
    a candidate table that exists. *)
Lemma post_reservation_candidate (prisma : PrismaClient) (rt : Js.Runtime)
      (body : CreateReservationBody) (st : Store) (n d : Z) (t : string)
      (table : Table) :
  valid_request body n ->
  first_candidate n st = Some table ->
  Js.new_Date (b_date body) = Some d ->
  b_time body = Js.Str t ->
  post_reservation prisma body st =
  match find (reservation_matches (mkReservationWhere (t_id table) (Given d) (Given t)
                                                      ["booked"; "seated"]))
             (reservations st) with
  | Some _ => (Failure (Text "Table is already reserved for this time") 400, st)
  | None => try_next (commit_reservation prisma body table) st
  end.
Proof.
  intros V C D T. unfold post_reservation, try_next.
  rewrite (valid_request_passes rt body n V).
  destruct V as (_ & _ & _ & _ & _ & P).
  unfold bind. rewrite P. simpl computed.
  rewrite table_findFirst_candidate, C.
  unfold reservation_findFirst, conflict_where. simpl. rewrite D, T. simpl.
  destruct (find _ (reservations st)); reflexivity.
Qed.

(** The commit never answers with one of the handler's own 400 errors. *)
Lemma commit_not_400 (prisma : PrismaClient) (rt : Js.Runtime)
      (body : CreateReservationBody) (table : Table) (st : Store) (m : Message) :
  fst (try_next (commit_reservation prisma body table) st) <> Failure m 400.
Proof.
  unfold try_next, commit_reservation, bind, reservation_create, table_update.
  destruct (c_date (create_data body table)),
           (c_time (create_data body table)),
           (c_people (create_data body table)),
           (c_userId (create_data body table)); simpl; try discriminate.
  destruct (include_valid prisma ["user"; "table"]); simpl; try discriminate.
  destruct (find_user a2 st), (find_table (t_id table) st); simpl;
    try discriminate.
  match goal with |- context [find_table ?i ?s] => destruct (find_table i s) end;
    simpl; discriminate.
Qed.

(** ** Creating a reservation: the error paths *)

(** A request that fails validation is answered 400 and nothing is read or
    written. *)
Lemma post_reservation_rejects (prisma : PrismaClient) (rt : Js.Runtime)
      (body : CreateReservationBody) (st : Store) :
  rejects body = true ->
  post_reservation prisma body st = (Failure (Text validation_message) 400, st).
Proof.
  intros R. unfold post_reservation, try_next. rewrite R. reflexivity.
Qed.

(** What the validation rejects: a falsy [date], [time], [userId] or
    [people], or a [people] whose numeric value is at most 0. *)
Lemma rejects_iff (rt : Js.Runtime) (body : CreateReservationBody) :
  rejects body = true <->
  Js.truthy (b_date body) = false \/ Js.truthy (b_time body) = false
  \/ Js.truthy (b_people body) = false \/ Js.leb (b_people body) 0 = true
  \/ Js.truthy (b_userId body) = false.
Proof.
  unfold rejects. rewrite !orb_true_iff, !negb_true_iff. tauto.
Qed.

(** A [people] that [parseInt] does not read passes on [NaN] to the table
    query, which Prisma refuses. *)
Lemma post_reservation_people_NaN (prisma : PrismaClient) (rt : Js.Runtime)
      (body : CreateReservationBody) (st : Store) :
  rejects body = false ->
  Js.parseInt (b_people body) = None ->
  post_reservation prisma body st = (Failure (PrismaText None) 500, st).
Proof.
  intros R P. unfold post_reservation, try_next, bind.
  rewrite R, P. reflexivity.
Qed.

(** C3, as amended: a request that passes validation and whose [people]
    [parseInt] reads as [partySize], in a store where no table has both a
    capacity of at least [partySize] and [isAvailable = true], is answered
    400 "No available table for this party size", and the store is
    unchanged. *)
Theorem C3_no_table_available (prisma : PrismaClient) (rt : Js.Runtime)
        (body : CreateReservationBody) (st : Store) (partySize : Z) :
  valid_request body partySize ->
  (forall t, In t (tables st) ->
             ~ (partySize <= t_capacity t /\ t_isAvailable t = true)) ->
  post_reservation prisma body st =
  (Failure (Text "No available table for this party size") 400, st).
Proof.
  intros V N. unfold post_reservation, try_next.
  rewrite (valid_request_passes rt body partySize V).
  destruct V as (_ & _ & _ & _ & _ & P).
  unfold bind. rewrite P. simpl computed.
  rewrite table_findFirst_candidate. unfold first_candidate.
  rewrite find_absent; [reflexivity|].
  intros t I. unfold is_candidate.
  destruct (partySize <=? t_capacity t) eqn:L; [|reflexivity].
  destruct (t_isAvailable t) eqn:A; [|reflexivity].
  exfalso. apply (N t I). split; [apply Z.leb_le, L | exact A].
Qed.

Lemma C3_no_table_available_witness :
  valid_request (rt := decimal_runtime) (request_for (Js.Num (Js.NInt 6))) 6
  /\ (forall t, In t (tables empty_store) ->
                ~ (6 <= t_capacity t /\ t_isAvailable t = true))
  /\ post_reservation schema_client (rt := decimal_runtime)
                      (request_for (Js.Num (Js.NInt 6))) empty_store =
     (Failure (Text "No available table for this party size") 400, empty_store).
Proof.
  assert (V : valid_request (rt := decimal_runtime)
                            (request_for (Js.Num (Js.NInt 6))) 6)
    by (repeat split; reflexivity).
  assert (N : forall t, In t (tables empty_store) ->
                        ~ (6 <= t_capacity t /\ t_isAvailable t = true)).
  { intros t [<-|[]] [L _]. simpl in L. lia. }
  split; [exact V|]. split; [exact N|].
  exact (C3_no_table_available schema_client decimal_runtime _ _ 6 V N).
Defined.

(** C3, as worded, fails for a party that is not a whole number.  A
    request for 2.5 people passes the validation; no table of
    [two_seater_store] has a capacity of at least 2.5; yet the answer is not
    "No available table for this party size": the handler asks for a
    capacity of at least [parseInt(2.5)], which is 2, finds table 1 and goes
    on to the commit, answered 500 with the client of the schema and 201,
    with a reservation for 2, with a client that accepts the include. *)
Lemma C3_fractional_party_counterexample :
  rejects (rt := decimal_runtime) (request_for (Js.Num (Js.NFrac 2))) = false
  /\ (forall t, In t (tables two_seater_store) ->
                ~ (Js.number_leb (Js.NFrac 2) (t_capacity t) = true
                   /\ t_isAvailable t = true))
  /\ post_reservation schema_client (rt := decimal_runtime)
                      (request_for (Js.Num (Js.NFrac 2))) two_seater_store =
     (Failure (PrismaText None) 500, two_seater_store)
  /\ post_reservation camel_client (rt := decimal_runtime)
                      (request_for (Js.Num (Js.NFrac 2))) two_seater_store =
     (Json 201 (ReservationBody
                  (mkReservationJson
                     (mkReservation 1 1749945600000 "19:00" 2 "booked" 1 (Some 1))
                     (Rel (Some john)) (Rel (Some (mkTable 1 "Table 1" 2 true))))),
      mkStore [john] [mkTable 1 "Table 1" 2 false]
              [mkReservation 1 1749945600000 "19:00" 2 "booked" 1 (Some 1)] 2).
Proof.
  split; [reflexivity|]. split; [|split; reflexivity].
  intros t [<-|[]] [L _]. discriminate L.
Qed.

(** C2: when the selected candidate table has a reservation of the same
    date and exactly the same time string whose status is [booked] or
    [seated], the request is answered 400 "Table is already reserved for
    this time" and the store is unchanged; when every reservation of that
    table, date and time has another status, the handler goes on to the
    commit and its answer is not that error. *)
Theorem C2_conflict_check (prisma : PrismaClient) (rt : Js.Runtime)
        (body : CreateReservationBody) (st : Store) (partySize date : Z)
        (time : string) (table : Table) :
  valid_request body partySize ->
  first_candidate partySize st = Some table ->
  Js.new_Date (b_date body) = Some date ->
  b_time body = Js.Str time ->
  ((exists r, In r (reservations st) /\ conflicts table date time r) ->
   post_reservation prisma body st =
   (Failure (Text "Table is already reserved for this time") 400, st))
  /\
  ((forall r, In r (reservations st) ->
              r_tableId r = Some (t_id table) -> r_date r = date ->
              r_time r = time -> ~ active r) ->
   post_reservation prisma body st = try_next (commit_reservation prisma body table) st
   /\ fst (post_reservation prisma body st) <>
      Failure (Text "Table is already reserved for this time") 400).
Proof.
  intros V C D T.
  rewrite (post_reservation_candidate prisma rt body st partySize date time table V C D T).
  split.
  - intros (r & I & K).
    apply reservation_matches_conflicts in K.
    destruct (find_present _ _ r I K) as [r' ->]. reflexivity.
  - intros N. rewrite find_absent.
    + split; [reflexivity | apply commit_not_400].
    + intros r I.
      destruct (reservation_matches _ r) eqn:K; [|reflexivity].
      apply reservation_matches_conflicts in K.
      destruct K as (K1 & K2 & K3 & K4). exfalso. exact (N r I K1 K2 K3 K4).
Qed.

Lemma C2_conflict_check_witness :
  (valid_request (rt := decimal_runtime) example_body 2
   /\ first_candidate 2 (store_with "booked") = Some table1
   /\ Js.new_Date (rt := decimal_runtime) (b_date example_body) = Some 1749945600000
   /\ b_time example_body = Js.Str "19:00"
   /\ (exists r, In r (reservations (store_with "booked"))
                 /\ conflicts table1 1749945600000 "19:00" r))
  /\ post_reservation schema_client (rt := decimal_runtime) example_body
                      (store_with "booked") =
     (Failure (Text "Table is already reserved for this time") 400,
      store_with "booked")
  /\ fst (post_reservation camel_client (rt := decimal_runtime) example_body
                           (store_with "cancelled")) <>
     Failure (Text "Table is already reserved for this time") 400.
Proof.
  assert (V : valid_request (rt := decimal_runtime) example_body 2)
    by (repeat split; reflexivity).
  assert (K : exists r, In r (reservations (store_with "booked"))
                        /\ conflicts table1 1749945600000 "19:00" r).
  { exists (booking "booked"). split; [left; reflexivity|].
    repeat split. left. reflexivity. }
  split; [repeat split; try reflexivity; exact K|]. split.
  - exact (proj1 (C2_conflict_check schema_client decimal_runtime example_body
                    (store_with "booked") 2 1749945600000 "19:00" table1
                    V eq_refl eq_refl eq_refl) K).
  - apply (C2_conflict_check camel_client decimal_runtime example_body
             (store_with "cancelled") 2 1749945600000 "19:00" table1
             V eq_refl eq_refl eq_refl).
    intros r [<-|[]] _ _ _ [S|S]; discriminate S.
Defined.

(** C4: a [people] that is not a number, here the string [abc], is not
    rejected by the validation: its numeric value is [NaN], [NaN <= 0] is
    false, and the handler goes on to query the tables with
    [parseInt("abc")]; the answer is Prisma's error with status 500, not
    the 400 of the validation. *)
Theorem C4_people_not_a_number_passes_validation :
  Js.ToNumber (rt := decimal_runtime) (Js.Str "abc") = None
  /\ rejects (rt := decimal_runtime) (request_for (Js.Str "abc")) = false
  /\ post_reservation schema_client (rt := decimal_runtime)
                      (request_for (Js.Str "abc")) empty_store =
     (Failure (PrismaText None) 500, empty_store).
Proof.
  repeat split.
Qed.

(** ** Updating a reservation *)

Lemma Forall2_update_where {A} (R : A -> A -> Prop) (p : A -> bool) (f : A -> A)
      (l : list A) :
  (forall x, R x x) -> (forall x, p x = true -> R x (f x)) ->
  Forall2 R l (update_where p f l).
Proof.
  intros Rr Rf. unfold update_where.
  induction l as [|x l IH]; simpl; constructor; [|exact IH].
  destruct (p x) eqn:P; auto.
Qed.

Lemma Forall2_same {A} (R : A -> A -> Prop) (l : list A) :
  (forall x, R x x) -> Forall2 R l l.
Proof.
  intros Rr. induction l; constructor; auto.
Qed.

(** The store after [reservation.update]: as before, or with the rows of
    that id rewritten. *)
Lemma reservation_update_store (prisma : PrismaClient) (id : Arg Z)
      (data : ReservationUpdate) (include : list string) (st : Store) :
  snd (reservation_update prisma id data include st) = st
  \/ exists i, id = Given i
               /\ snd (reservation_update prisma id data include st) =
                  set_reservations (update_where (fun r => r_id r =? i)
                                                 (apply_reservation_update data)
                                                 (reservations st)) st.
Proof.
  unfold reservation_update. destruct id as [| |i]; simpl; auto.
  destruct (_ || _); simpl; auto.
  destruct (find_reservation i st); simpl; eauto.
Qed.

Lemma put_reservation_store (prisma : PrismaClient) (rt : Js.Runtime) (id : string)
      (body : UpdateReservationBody) (st : Store) :
  snd (put_reservation prisma id body st) =
  snd (reservation_update prisma (computed (Js.parseInt (Js.Str id)))
                          (update_data body) ["user"; "table"] st).
Proof.
  unfold put_reservation, try_next_P2025, bind.
  destruct (reservation_update _ _ _ _ st) as [[r|e] st']; simpl; [reflexivity|].
  destruct (error_code e) as [c|]; [destruct (String.eqb c "P2025")|]; reflexivity.
Qed.

(** C8: [PUT /reservations/:id] leaves every table and every user as it
    was, whatever the body; every reservation keeps its id, its user and
    its table, and a reservation with another id is unchanged. *)
Theorem C8_update_touches_no_table (prisma : PrismaClient) (rt : Js.Runtime)
        (id : string) (body : UpdateReservationBody) (st : Store) :
  tables (snd (put_reservation prisma id body st)) = tables st
  /\ users (snd (put_reservation prisma id body st)) = users st
  /\ Forall2 (fun r r' => r_id r' = r_id r /\ r_userId r' = r_userId r
                          /\ r_tableId r' = r_tableId r
                          /\ (Js.parseInt (Js.Str id) <> Some (r_id r) -> r' = r))
             (reservations st)
             (reservations (snd (put_reservation prisma id body st))).
Proof.
  rewrite put_reservation_store.
  destruct (reservation_update_store prisma (computed (Js.parseInt (Js.Str id)))
              (update_data body) ["user"; "table"] st) as [E|(i & G & E)];
    rewrite E.
  - repeat split. apply Forall2_same. auto.
  - repeat split. simpl.
    apply Forall2_update_where; [auto|].
    intros r P. apply Z.eqb_eq in P. repeat split.
    intros N. exfalso. apply N.
    destruct (Js.parseInt (Js.Str id)); simpl in G; [|discriminate].
    inversion G. congruence.
Qed.

(** With a client that knows the relations by the handlers' names, a body
    that sets the status to [cancelled] does cancel the reservation, and
    table 1 stays taken. *)
Example put_cancelled_keeps_table_taken :
  snd (put_reservation camel_client (rt := decimal_runtime) "1" status_cancelled
                       booked_store) =
  mkStore [john] [mkTable 1 "Table 1" 4 false] [booking "cancelled"] 2.
Proof. reflexivity. Qed.

(** ** Patching a table *)

(** The [updates] object holds exactly the valid fields. *)
Lemma table_updates_valid_fields (rt : Js.Runtime) (body : PatchTableBody) :
  table_updates body = valid_fields body.
Proof.
  unfold table_updates, valid_fields. f_equal.
  - destruct (b_name body) as [| |b|[z|fl]|s]; simpl; try reflexivity.
    + destruct b; reflexivity.
    + destruct (z =? 0); reflexivity.
    + destruct (String.eqb s ""); reflexivity.
  - destruct (b_capacity body) as [| |b|[z|fl]|s]; simpl; try reflexivity.
    + destruct b; reflexivity.
    + unfold Js.geb. simpl.
      destruct (z =? 0) eqn:Z0; simpl.
      * apply Z.eqb_eq in Z0. subst z. reflexivity.
      * reflexivity.
    + destruct (String.eqb s ""); reflexivity.
  - destruct (b_isAvailable body) as [| |b|[z|fl]|s]; reflexivity.
Qed.

Lemma apply_valid_fields (body : PatchTableBody) (t : Table) :
  apply_table_update (valid_fields body) t = written body t.
Proof.
  unfold apply_table_update, written, valid_fields, orElse. reflexivity.
Qed.

Lemma update_where_ext {A} (p : A -> bool) (f g : A -> A) (l : list A) :
  (forall x, f x = g x) -> update_where p f l = update_where p g l.
Proof.
  intros E. unfold update_where. apply map_ext. intros x. rewrite E. reflexivity.
Qed.

(** Whatever the answer, the store after [PATCH /tables/:id] is the store
    before it or that store with the valid fields written to the rows of
    one id. *)
Lemma patch_table_store (rt : Js.Runtime) (id : string) (body : PatchTableBody)
      (st : Store) :
  snd (patch_table id body st) = st
  \/ exists n, snd (patch_table id body st) =
               set_tables (update_where (fun t => t_id t =? n) (written body)
                                        (tables st)) st.
Proof.
  unfold patch_table, try_next_P2025. rewrite table_updates_valid_fields.
  destruct (table_update_keys (valid_fields body) =? 0)%nat; [left; reflexivity|].
  unfold bind, table_update.
  destruct (computed (Js.parseInt (Js.Str id))) as [| |n]; try (left; reflexivity).
  destruct (find_table n st) as [t|]; [|left; reflexivity].
  right. exists n. simpl.
  rewrite (update_where_ext _ _ (written body) _ (apply_valid_fields body)).
  reflexivity.
Qed.

(** C9: a body of [PATCH /tables/:id] without a valid field is answered
    400 "No valid fields to update" and the store is unchanged; with at
    least one valid field, the row of that id is rewritten with the valid
    fields, its other columns kept, and returned with 200; and in no case
    is anything but the valid fields written. *)
Theorem C9_patch_table_valid_fields_only (rt : Js.Runtime) (id : string)
        (body : PatchTableBody) (st : Store) :
  (valid_name (b_name body) = None ->
   valid_capacity (b_capacity body) = None ->
   valid_isAvailable (b_isAvailable body) = None ->
   patch_table id body st = (Failure (Text "No valid fields to update") 400, st))
  /\
  (forall (n : Z) (t : Table),
      valid_name (b_name body) <> None
      \/ valid_capacity (b_capacity body) <> None
      \/ valid_isAvailable (b_isAvailable body) <> None ->
      Js.parseInt (Js.Str id) = Some n ->
      find_table n st = Some t ->
      patch_table id body st =
      (Json 200 (TableBody (written body t)),
       set_tables (update_where (fun t => t_id t =? n) (written body) (tables st)) st))
  /\
  (snd (patch_table id body st) = st
   \/ exists n, snd (patch_table id body st) =
                set_tables (update_where (fun t => t_id t =? n) (written body)
                                         (tables st)) st).
Proof.
  split; [|split; [|apply patch_table_store]];
    unfold patch_table, try_next_P2025; rewrite table_updates_valid_fields.
  - intros N C A. unfold table_update_keys, valid_fields. simpl.
    rewrite N, C, A. reflexivity.
  - intros n t V P F.
    assert (K : (table_update_keys (valid_fields body) =? 0)%nat = false).
    { unfold table_update_keys, valid_fields. simpl.
      destruct (valid_name (b_name body)), (valid_capacity (b_capacity body)),
               (valid_isAvailable (b_isAvailable body)); try reflexivity.
      destruct V as [V|[V|V]]; contradiction. }
    rewrite K. unfold bind, table_update. rewrite P. simpl computed.
    cbv beta iota. rewrite F, apply_valid_fields.
    rewrite (update_where_ext _ _ (written body) _ (apply_valid_fields body)).
    reflexivity.
Qed.

Lemma C9_patch_table_valid_fields_only_witness :
  patch_table (rt := decimal_runtime) "1" no_valid_field empty_store =
  (Failure (Text "No valid fields to update") 400, empty_store)
  /\ patch_table (rt := decimal_runtime) "1" name_only empty_store =
     (Json 200 (TableBody (mkTable 1 "Window" 4 true)),
      mkStore [john] [mkTable 1 "Window" 4 true] [] 1).
Proof.
  split.
  - apply (proj1 (C9_patch_table_valid_fields_only decimal_runtime "1"
                    no_valid_field empty_store)); reflexivity.
  - apply (proj1 (proj2 (C9_patch_table_valid_fields_only decimal_runtime "1"
                           name_only empty_store)) 1 table1);
      [left; discriminate | reflexivity | reflexivity].
Defined.

(** ** Patching a user *)

(** C10: a body of [PATCH /users/:id] whose [username], [email] and
    [password] are falsy (empty strings, say) and whose [isAdmin] is
    undefined is answered 400 "No fields to update" and writes nothing; a
    body that holds only [isAdmin: false] gives an [updates] object with
    that one key, and the user of that id gets [isAdmin = false]. *)
Theorem C10_patch_user_falsy_is_absent (rt : Js.Runtime) (id : string)
        (body : PatchUserBody) (st : Store) :
  Js.truthy (b_username body) = false ->
  Js.truthy (b_email body) = false ->
  Js.truthy (b_password body) = false ->
  (b_isAdmin body = Js.Undefined ->
   patch_user id body st = (Failure (Text "No fields to update") 400, st))
  /\
  (b_isAdmin body = Js.Boolean false ->
   user_updates body = mkUserUpdate None None None (Some (Js.Boolean false))
   /\ forall (n : Z) (u : User),
       Js.parseInt (Js.Str id) = Some n ->
       find_user n st = Some u ->
       patch_user id body st =
       (Json 200 (UserBody (mkUser (u_id u) (u_username u) (u_email u)
                                   (u_password u) false)),
        set_users (update_where (fun u => u_id u =? n)
                                (fun u => mkUser (u_id u) (u_username u) (u_email u)
                                                 (u_password u) false)
                                (users st)) st)).
Proof.
  intros U E P.
  assert (X : forall a, b_isAdmin body = a ->
                        user_updates body =
                        mkUserUpdate None None None
                                     (if not_undefined a then Some a else None)).
  { intros a <-. unfold user_updates. rewrite U, E, P. reflexivity. }
  split; intros A; specialize (X _ A); simpl in X.
  - unfold patch_user, try_next_P2025. rewrite X. reflexivity.
  - split; [exact X|]. intros n u N F.
    unfold patch_user, try_next_P2025. rewrite X. simpl.
    unfold bind, user_update. rewrite N. simpl. rewrite F. reflexivity.
Qed.

Lemma C10_patch_user_falsy_is_absent_witness :
  patch_user (rt := decimal_runtime) "2" empty_strings staff_store =
  (Failure (Text "No fields to update") 400, staff_store)
  /\ patch_user (rt := decimal_runtime) "2" only_isAdmin_false staff_store =
     (Json 200 (UserBody (mkUser 2 "Ada" "ada@example.com" "secret" false)),
      mkStore [john; mkUser 2 "Ada" "ada@example.com" "secret" false] [table1] [] 1).
Proof.
  split.
  - apply (proj1 (C10_patch_user_falsy_is_absent decimal_runtime "2" empty_strings
                    staff_store eq_refl eq_refl eq_refl)). reflexivity.
  - apply (proj2 (proj2 (C10_patch_user_falsy_is_absent decimal_runtime "2"
                           only_isAdmin_false staff_store eq_refl eq_refl eq_refl)
                        eq_refl) 2 admin); reflexivity.
Defined.

(** ** Rows and their ids *)

Lemma find_by_key_unique {A} (key : A -> Z) (l : list A) (a : A) :
  NoDup (map key l) -> In a l ->
  find (fun x => key x =? key a) l = Some a.
Proof.
  induction l as [|x l IH]; simpl; intros N I; [contradiction|].
  inversion N as [|? ? NI N']; subst.
  destruct I as [->|I].
  - rewrite Z.eqb_refl. reflexivity.
  - destruct (key x =? key a) eqn:E.
    + apply Z.eqb_eq in E. exfalso. apply NI. rewrite E. apply in_map, I.
    + apply IH; assumption.
Qed.

Lemma find_update_where {A} (key : A -> Z) (f : A -> A) (n : Z) (l : list A) :
  (forall x, key (f x) = key x) ->
  find (fun x => key x =? n) (update_where (fun x => key x =? n) f l) =
  option_map f (find (fun x => key x =? n) l).
Proof.
  intros K. unfold update_where.
  induction l as [|x l IH]; simpl; [reflexivity|].
  destruct (key x =? n) eqn:E.
  - rewrite K, E. reflexivity.
  - rewrite E. exact IH.
Qed.

Lemma update_where_idempotent {A} (p : A -> bool) (f : A -> A) (l : list A) :
  (forall x, p (f x) = p x) -> (forall x, f (f x) = f x) ->
  update_where p f (update_where p f l) = update_where p f l.
Proof.
  intros P F. unfold update_where. rewrite map_map. apply map_ext.
  intros x. destruct (p x) eqn:E.
  - rewrite P, E. apply F.
  - rewrite E. reflexivity.
Qed.

Lemma find_filter_out {A} (key : A -> Z) (n : Z) (l : list A) :
  find (fun x => key x =? n) (filter (fun x => negb (key x =? n)) l) = None.
Proof.
  apply find_absent. intros a I. apply filter_In in I.
  destruct I as [_ I]. apply negb_true_iff in I. exact I.
Qed.

Lemma freed_idempotent (tableId : option Z) (ts : list Table) :
  freed tableId (freed tableId ts) = freed tableId ts.
Proof.
  destruct tableId as [t|]; simpl; [|reflexivity].
  apply update_where_idempotent; reflexivity.
Qed.

Lemma find_table_freed (tableId : option Z) (t : Z) (ts : list Table) (row : Table) :
  find (fun x => t_id x =? t) ts = Some row ->
  find (fun x => t_id x =? t) (freed tableId ts) <> None.
Proof.
  intros F. destruct tableId as [t'|]; simpl; [|rewrite F; discriminate].
  unfold update_where. induction ts as [|x ts IH]; simpl in *; [discriminate|].
  assert (K : t_id (if t_id x =? t' then with_isAvailable true x else x) = t_id x)
    by (destruct (t_id x =? t'); reflexivity).
  rewrite K. destruct (t_id x =? t); [discriminate | exact (IH F)].
Qed.

(** ** The relation names of the schema *)

Lemma include_valid_named (prisma : PrismaClient) :
  relations_named_as_used prisma -> include_valid prisma ["user"; "table"] = true.
Proof.
  intros [U T]. unfold include_valid. rewrite U, T. reflexivity.
Qed.

Lemma asks_for_named (prisma : PrismaClient) :
  relations_named_as_used prisma ->
  asks_for (reservation_user_field prisma) ["user"; "table"] = true
  /\ asks_for (reservation_table_field prisma) ["user"; "table"] = true.
Proof.
  intros [U T]. rewrite U, T. split; reflexivity.
Qed.

(** The schema of the repository names the relation to the user [User];
    the handlers ask for [user]. *)
Lemma schema_client_refuses_include :
  include_valid schema_client ["user"; "table"] = false.
Proof. reflexivity. Qed.

(** With the client of the schema the commit always fails before it
    writes. *)
Lemma commit_fails_under_schema (rt : Js.Runtime) (body : CreateReservationBody)
      (table : Table) (st : Store) :
  try_next (commit_reservation schema_client body table) st =
  (Failure (PrismaText None) 500, st).
Proof.
  unfold try_next, commit_reservation, bind, reservation_create.
  rewrite schema_client_refuses_include.
  destruct (c_date (create_data body table)),
           (c_time (create_data body table)),
           (c_people (create_data body table)),
           (c_userId (create_data body table)); reflexivity.
Qed.

(** With the client of the schema [POST /reservations] never creates: every
    request is answered with an error and the store is unchanged. *)
Lemma post_reservation_under_schema (rt : Js.Runtime) (body : CreateReservationBody)
      (st : Store) :
  exists m s, post_reservation schema_client body st = (Failure m s, st).
Proof.
  unfold post_reservation. unfold try_next at 1.
  destruct (rejects body); [simpl; eauto|].
  unfold bind at 1. unfold table_findFirst.
  destruct (is_invalid _); [simpl; eauto|].
  cbv beta iota.
  destruct (find _ (tables st)) as [table|]; [|simpl; eauto].
  unfold bind at 1. unfold reservation_findFirst.
  destruct (_ || _); [simpl; eauto|]. cbv beta iota.
  destruct (find _ (reservations st)); [simpl; eauto|].
  pose proof (commit_fails_under_schema rt body table st) as C.
  unfold try_next in C. rewrite C. eauto.
Qed.

(** With the client of the schema [GET /reservations/:id] answers 500 for
    every id. *)
Lemma get_reservation_under_schema (rt : Js.Runtime) (id : string) (st : Store) :
  get_reservation schema_client id st = (Failure (PrismaText None) 500, st).
Proof.
  unfold get_reservation, try_next, bind, reservation_findUnique.
  rewrite schema_client_refuses_include.
  destruct (computed (Js.parseInt (Js.Str id))); reflexivity.
Qed.

(** ** Cancelling and deleting a reservation *)

Lemma findUnique_plain (prisma : PrismaClient) (n : Z) (st : Store) :
  reservation_findUnique prisma (Given n) [] st =
  (Ok (option_map (load_relations prisma [] st) (find_reservation n st)), st).
Proof. reflexivity. Qed.

Lemma free_table_bound (r : Reservation) (st : Store) :
  table_bound r st ->
  free_table r st = (Ok tt, set_tables (freed (r_tableId r) (tables st)) st).
Proof.
  unfold table_bound, free_table. intros B.
  destruct (r_tableId r) as [t|]; simpl.
  - destruct (B t eq_refl) as [N F].
    apply Z.eqb_neq in N. rewrite N.
    unfold bind, table_update.
    destruct (find_table t st) as [row|]; [|contradiction].
    reflexivity.
  - destruct st; reflexivity.
Qed.

(** [PUT /reservations/:id/cancel] and [DELETE /reservations/:id] answer 404
    for an id without a row, whatever the client, and write nothing. *)
Lemma cancel_reservation_not_found (prisma : PrismaClient) (rt : Js.Runtime)
      (id : string) (n : Z) (st : Store) :
  Js.parseInt (Js.Str id) = Some n ->
  find_reservation n st = None ->
  cancel_reservation prisma id st = (Failure (Text "Reservation not found") 404, st).
Proof.
  intros P F. unfold cancel_reservation, try_next, bind.
  rewrite P. simpl computed. rewrite findUnique_plain, F. reflexivity.
Qed.

Lemma delete_reservation_not_found (prisma : PrismaClient) (rt : Js.Runtime)
      (id : string) (n : Z) (st : Store) :
  Js.parseInt (Js.Str id) = Some n ->
  find_reservation n st = None ->
  delete_reservation prisma id st = (Failure (Text "Reservation not found") 404, st).
Proof.
  intros P F. unfold delete_reservation, try_next, bind.
  rewrite P. simpl computed. rewrite findUnique_plain, F. reflexivity.
Qed.

(** With a client that knows the relations by the handlers' names,
    cancelling sets the status, gives the table back and answers 200 with
    the reservation, its user and its table. *)
Lemma cancel_reservation_cancels (prisma : PrismaClient) (rt : Js.Runtime)
      (id : string) (n : Z) (r : Reservation) (st : Store) :
  relations_named_as_used prisma ->
  Js.parseInt (Js.Str id) = Some n ->
  find_reservation n st = Some r ->
  table_bound r st ->
  cancel_reservation prisma id st =
  (Json 200 (ReservationBody
               (mkReservationJson (with_status "cancelled" r)
                                  (Rel (find_user (r_userId r) st))
                                  (Rel (match r_tableId r with
                                        | Some t => find_table t st
                                        | None => None
                                        end)))),
   cancelled n r st).
Proof.
  intros R P F B. unfold cancel_reservation, try_next, bind.
  rewrite P. simpl computed. rewrite findUnique_plain, F. simpl option_map.
  cbv beta iota. unfold reservation_update.
  rewrite (include_valid_named prisma R). simpl. rewrite F.
  change (rj_reservation (load_relations prisma [] st r)) with r.
  match goal with |- context [free_table r ?s] =>
    rewrite (free_table_bound r s) end.
  - unfold load_relations.
    destruct (asks_for_named prisma R) as [-> ->]. reflexivity.
  - exact B.
Qed.

(** With such a client a second cancellation succeeds as well and leaves
    the store as the first one left it. *)
Lemma cancel_reservation_twice (prisma : PrismaClient) (rt : Js.Runtime)
      (id : string) (n : Z) (r : Reservation) (st : Store) :
  relations_named_as_used prisma ->
  Js.parseInt (Js.Str id) = Some n ->
  find_reservation n st = Some r ->
  table_bound r st ->
  snd (cancel_reservation prisma id st) = cancelled n r st
  /\ snd (cancel_reservation prisma id (cancelled n r st)) = cancelled n r st
  /\ exists body, fst (cancel_reservation prisma id (cancelled n r st)) = Json 200 body.
Proof.
  intros R P F B.
  rewrite (cancel_reservation_cancels prisma rt id n r st R P F B).
  split; [reflexivity|].
  assert (F' : find_reservation n (cancelled n r st) = Some (with_status "cancelled" r)).
  { unfold find_reservation, cancelled. simpl.
    rewrite (find_update_where r_id); [|reflexivity].
    unfold find_reservation in F. rewrite F. reflexivity. }
  assert (B' : table_bound (with_status "cancelled" r) (cancelled n r st)).
  { intros t E. simpl in E. destruct (B t E) as [N T]. split; [exact N|].
    unfold find_table, cancelled. simpl.
    unfold find_table in T.
    destruct (find (fun x => t_id x =? t) (tables st)) as [row|] eqn:K;
      [|contradiction].
    exact (find_table_freed (r_tableId r) t (tables st) row K). }
  rewrite (cancel_reservation_cancels prisma rt id n _ _ R P F' B').
  split; [|simpl; eexists; reflexivity]. simpl.
  unfold cancelled. simpl. f_equal.
  - apply freed_idempotent.
  - apply update_where_idempotent; reflexivity.
Qed.

(** With the client of the schema a reservation that exists is not
    cancelled: the update is refused, the answer is 500 and nothing is
    written. *)
Lemma cancel_reservation_under_schema (rt : Js.Runtime) (id : string) (n : Z)
      (r : Reservation) (st : Store) :
  Js.parseInt (Js.Str id) = Some n ->
  find_reservation n st = Some r ->
  cancel_reservation schema_client id st = (Failure (PrismaText None) 500, st).
Proof.
  intros P F. unfold cancel_reservation, try_next, bind.
  rewrite P. simpl computed. rewrite findUnique_plain, F. simpl option_map.
  cbv beta iota. unfold reservation_update.
  rewrite schema_client_refuses_include. reflexivity.
Qed.

(** Deleting removes the rows of that id, gives the table back and answers
    204, whatever the client; no row of that id is left. *)
Lemma delete_reservation_deletes (prisma : PrismaClient) (rt : Js.Runtime)
      (id : string) (n : Z) (r : Reservation) (st : Store) :
  Js.parseInt (Js.Str id) = Some n ->
  find_reservation n st = Some r ->
  table_bound r st ->
  delete_reservation prisma id st = (Empty 204, deleted n r st)
  /\ find_reservation n (deleted n r st) = None.
Proof.
  intros P F B. split.
  - unfold delete_reservation, try_next, bind.
    rewrite P. cbn [computed]. rewrite findUnique_plain, F.
    unfold reservation_delete. cbn [computed option_map]. rewrite F.
    change (rj_reservation (load_relations prisma [] st r)) with r.
    match goal with |- context [free_table r ?s] =>
      rewrite (free_table_bound r s) end; [reflexivity | exact B].
  - unfold find_reservation, deleted. simpl. apply (find_filter_out r_id).
Qed.

(** With a client that knows the relations by the handlers' names,
    [GET /reservations/:id] answers 404 for an id without a row. *)
Lemma get_reservation_not_found (prisma : PrismaClient) (rt : Js.Runtime)
      (id : string) (n : Z) (st : Store) :
  relations_named_as_used prisma ->
  Js.parseInt (Js.Str id) = Some n ->
  find_reservation n st = None ->
  get_reservation prisma id st = (Failure (Text "Reservation not found") 404, st).
Proof.
  intros R P F. unfold get_reservation, try_next, bind, reservation_findUnique.
  rewrite P. simpl computed. cbv beta iota.
  rewrite (include_valid_named prisma R), F. reflexivity.
Qed.

(** ** Creating a reservation: the commit *)

(** With a client that knows the relations by the handlers' names, a valid
    request whose first candidate table has no conflict is answered 201
    with the new reservation, status [booked], bound to that table and to
    the user, together with the user's and the table's rows; the store
    gains the reservation and the table is no longer available. *)
Lemma post_reservation_books (prisma : PrismaClient) (rt : Js.Runtime)
      (body : CreateReservationBody) (st : Store) (partySize date userId : Z)
      (time : string) (table : Table) (user : User) :
  relations_named_as_used prisma ->
  valid_request body partySize ->
  first_candidate partySize st = Some table ->
  NoDup (map t_id (tables st)) ->
  Js.new_Date (b_date body) = Some date ->
  b_time body = Js.Str time ->
  Js.parseInt (b_userId body) = Some userId ->
  find_user userId st = Some user ->
  (forall r, In r (reservations st) -> ~ conflicts table date time r) ->
  post_reservation prisma body st =
  (Json 201 (ReservationBody
               (mkReservationJson
                  (mkReservation (reservation_seq st) date time partySize "booked"
                                 userId (Some (t_id table)))
                  (Rel (Some user)) (Rel (Some table)))),
   mkStore (users st)
           (update_where (fun x => t_id x =? t_id table) (with_isAvailable false)
                         (tables st))
           (reservations st
            ++ [mkReservation (reservation_seq st) date time partySize "booked"
                              userId (Some (t_id table))])
           (reservation_seq st + 1)).
Proof.
  intros R V C N D T U FU NC.
  rewrite (post_reservation_candidate prisma rt body st partySize date time table
             V C D T).
  rewrite find_absent.
  2:{ intros r I. destruct (reservation_matches _ r) eqn:K; [|reflexivity].
      apply reservation_matches_conflicts in K. destruct (NC r I K). }
  assert (FT : find_table (t_id table) st = Some table).
  { unfold first_candidate in C. apply find_some in C.
    apply (find_by_key_unique t_id); [exact N | exact (proj1 C)]. }
  destruct V as (_ & _ & _ & _ & _ & P).
  unfold try_next, commit_reservation, bind, reservation_create, create_data.
  cbn [c_date c_time c_people c_userId c_tableId c_status].
  rewrite D, T, P, U. cbn [computed string_arg].
  rewrite (include_valid_named prisma R), FU, FT.
  unfold table_update, load_relations.
  destruct (asks_for_named prisma R) as [-> ->].
  cbn [r_userId r_tableId].
  change (find_user userId (set_reservations ?rs ?s)) with (find_user userId st).
  change (find_table (t_id table) (set_reservations ?rs ?s))
    with (find_table (t_id table) st).
  rewrite FU, FT. reflexivity.
Qed.

(** The example of the specification, run with a client whose schema names
    the relations as the handlers do: 201, and the store is [booked_store]. *)
Example create_with_matching_names :
  post_reservation camel_client (rt := decimal_runtime) example_body empty_store =
  (Json 201 (ReservationBody
               (mkReservationJson (booking "booked") (Rel (Some john))
                                  (Rel (Some table1)))),
   booked_store).
Proof.
  apply (post_reservation_books camel_client decimal_runtime example_body
           empty_store 2 1749945600000 1 "19:00" table1 john);
    try reflexivity.
  - split; reflexivity.
  - repeat split; reflexivity.
  - simpl. constructor; [intros []|constructor].
  - intros r [].
Qed.

(** ** The handlers with the client of the repository's schema *)

(** C1: the example of the specification (one free table of capacity 4, no
    reservation, a request for 2 people by user 1) is valid, has table 1
    as its first candidate and no conflict; with the client generated from
    the repository's schema the handler answers 500, creates no
    reservation and leaves table 1 available. *)
Theorem C1_create_refused_under_schema :
  valid_request (rt := decimal_runtime) example_body 2
  /\ first_candidate 2 empty_store = Some table1
  /\ reservations empty_store = []
  /\ post_reservation schema_client (rt := decimal_runtime) example_body empty_store =
     (Failure (PrismaText None) 500, empty_store).
Proof.
  repeat split.
Qed.

(** C5: reservation 1 exists, is booked and bound to table 1; with the
    client generated from the repository's schema the cancel handler
    answers 500, the status stays [booked] and table 1 stays
    unavailable. *)
Theorem C5_cancel_refused_under_schema :
  find_reservation 1 booked_store = Some (booking "booked")
  /\ cancel_reservation schema_client (rt := decimal_runtime) "1" booked_store =
     (Failure (PrismaText None) 500, booked_store).
Proof.
  split; reflexivity.
Qed.

(** C6: with the client generated from the repository's schema, two
    cancellations of reservation 1 in a row both answer 500 and the store
    is as it was before the first: still [booked], table 1 still
    unavailable. *)
Theorem C6_cancel_twice_refused_under_schema :
  let first := cancel_reservation schema_client (rt := decimal_runtime) "1"
                                  booked_store in
  let second := cancel_reservation schema_client (rt := decimal_runtime) "1"
                                   (snd first) in
  fst first = Failure (PrismaText None) 500
  /\ fst second = Failure (PrismaText None) 500
  /\ snd second = booked_store.
Proof.
  repeat split.
Qed.

(** C7: with the client generated from the repository's schema, deleting
    reservation 1 answers 204, removes the row and makes table 1 available
    again; the GET of that id which follows answers 500, not 404. *)
Theorem C7_get_after_delete_under_schema :
  delete_reservation schema_client (rt := decimal_runtime) "1" booked_store =
  (Empty 204, mkStore [john] [table1] [] 2)
  /\ get_reservation schema_client (rt := decimal_runtime) "1"
                     (mkStore [john] [table1] [] 2) =
     (Failure (PrismaText None) 500, mkStore [john] [table1] [] 2).
Proof.
  split; reflexivity.
Qed.

(** * Further properties *)

(** ** The outcomes of [POST /reservations] *)

Lemma rejects_false_valid (rt : Js.Runtime) (body : CreateReservationBody) (n : Z) :
  rejects body = false -> Js.parseInt (b_people body) = Some n ->
  valid_request body n.
Proof.
  unfold rejects, valid_request. intros R P.
  repeat (apply orb_false_iff in R; destruct R as [R ?]).
  repeat match goal with
         | H : negb _ = false |- _ => apply negb_false_iff in H
         end.
  auto 10.
Qed.

(** Every request ends in one of two ways: an error with status 400 or
    500 that leaves users, tables and reservations as they were, or the
    commit of a valid request on its first candidate table. *)
Lemma post_reservation_cases (prisma : PrismaClient) (rt : Js.Runtime)
      (body : CreateReservationBody) (st : Store) :
  (exists m s st',
      post_reservation prisma body st = (Failure m s, st')
      /\ (s = 400 \/ s = 500)
      /\ users st' = users st /\ tables st' = tables st
      /\ reservations st' = reservations st
      /\ reservation_seq st <= reservation_seq st')
  \/
  (exists table n d t u user rj,
      valid_request body n
      /\ first_candidate n st = Some table
      /\ Js.new_Date (b_date body) = Some d
      /\ b_time body = Js.Str t
      /\ Js.parseInt (b_userId body) = Some u
      /\ find_user u st = Some user
      /\ include_valid prisma ["user"; "table"] = true
      /\ (forall r, In r (reservations st) -> ~ conflicts table d t r)
      /\ rj_reservation rj = booked_row st d t n u table
      /\ post_reservation prisma body st =
         (Json 201 (ReservationBody rj), booked st table (booked_row st d t n u table))).
Proof.
  remember (post_reservation prisma body st) as out eqn:E.
  assert (FAIL : forall m s st',
             out = (Failure m s, st') -> (s = 400 \/ s = 500) ->
             users st' = users st -> tables st' = tables st ->
             reservations st' = reservations st ->
             reservation_seq st <= reservation_seq st' ->
             exists m s st',
               out = (Failure m s, st') /\ (s = 400 \/ s = 500)
               /\ users st' = users st /\ tables st' = tables st
               /\ reservations st' = reservations st
               /\ reservation_seq st <= reservation_seq st').
  { intros m s st' ? ? ? ? ? ?. exists m, s, st'. auto 6. }
  unfold post_reservation, try_next in E.
  destruct (rejects body) eqn:R.
  { left. eapply FAIL; [exact E|left| | | |]; try reflexivity; simpl; lia. }
  destruct (Js.parseInt (b_people body)) as [n|] eqn:P.
  2:{ left. unfold bind in E.
      eapply FAIL; [exact E|right| | | |]; try reflexivity; simpl; lia. }
  pose proof (rejects_false_valid rt body n R P) as V.
  unfold bind at 1 in E. cbn [computed] in E.
  rewrite table_findFirst_candidate in E.
  destruct (first_candidate n st) as [table|] eqn:C.
  2:{ left. eapply FAIL; [exact E|left| | | |]; try reflexivity; simpl; lia. }
  unfold bind at 1 in E. unfold reservation_findFirst, conflict_where in E.
  cbn [w_date w_time w_tableId w_status_in] in E.
  destruct (Js.new_Date (b_date body)) as [d|] eqn:D;
    cbn [computed is_invalid orb] in E.
  2:{ left. eapply FAIL; [exact E|right| | | |]; try reflexivity; simpl; lia. }
  destruct (b_time body) as [| |b|x|t] eqn:T;
    try (exfalso; destruct V as (_ & Vt & _); rewrite T in Vt; discriminate Vt);
    cbn [string_arg is_invalid] in E;
    try (left; eapply FAIL; [exact E|right| | | |]; try reflexivity; simpl; lia).
  destruct (find _ (reservations st)) as [k|] eqn:K.
  { left. eapply FAIL; [exact E|left| | | |]; try reflexivity; simpl; lia. }
  unfold commit_reservation, bind, reservation_create, create_data in E.
  cbn [c_date c_time c_people c_userId c_tableId c_status] in E.
  rewrite D, T, P in E. cbn [computed string_arg] in E.
  destruct (Js.parseInt (b_userId body)) as [u|] eqn:U; cbn [computed] in E.
  2:{ left. eapply FAIL; [exact E|right| | | |]; try reflexivity; simpl; lia. }
  destruct (include_valid prisma ["user"; "table"]) eqn:IV.
  2:{ left. eapply FAIL; [exact E|right| | | |]; try reflexivity; simpl; lia. }
  destruct (find_user u st) as [user|] eqn:FU.
  2:{ left. eapply FAIL; [exact E|right| | | |]; try reflexivity; simpl; lia. }
  destruct (find_table (t_id table) st) as [row|] eqn:FT.
  2:{ left. eapply FAIL; [exact E|right| | | |]; try reflexivity; simpl; lia. }
  right. clear FAIL.
  unfold table_update in E.
  change (find_table (t_id table) (set_reservations ?rs ?s))
    with (find_table (t_id table) st) in E.
  rewrite FT in E.
  exists table, n, d, t, u, user.
  eexists. split; [exact V|]. do 6 (split; [first [assumption|reflexivity]|]).
  split.
  - intros r I X. apply reservation_matches_conflicts in X.
    rewrite (find_none _ _ K r I) in X. discriminate.
  - split; [|exact E]. reflexivity.
Qed.

(** [POST /reservations] answers 201 only for a request that passes the
    validation, on the first candidate table of its party size, when that
    table has no active reservation at the date and time, and for a user
    that exists; the store then holds exactly one more reservation, with
    status [booked], bound to that table and user, and the rows of that
    table are flagged unavailable. *)
Theorem post_reservation_created_means (prisma : PrismaClient) (rt : Js.Runtime)
        (body : CreateReservationBody) (st st' : Store) (b : Body) :
  post_reservation prisma body st = (Json 201 b, st') ->
  exists table n d t u rj,
    b = ReservationBody rj
    /\ valid_request body n
    /\ first_candidate n st = Some table
    /\ Js.new_Date (b_date body) = Some d
    /\ b_time body = Js.Str t
    /\ Js.parseInt (b_userId body) = Some u
    /\ find_user u st <> None
    /\ (forall r, In r (reservations st) -> ~ conflicts table d t r)
    /\ rj_reservation rj = booked_row st d t n u table
    /\ st' = booked st table (booked_row st d t n u table).
Proof.
  intros E.
  destruct (post_reservation_cases prisma rt body st)
    as [(m & s & st1 & E1 & _)
       |(table & n & d & t & u & user & rj & V & C & D & T & U & FU & _ & NC & RJ & E1)];
    rewrite E1 in E; [discriminate|].
  inversion E; subst. exists table, n, d, t, u, rj.
  rewrite FU. repeat split; try assumption; try (apply V); discriminate.
Qed.

Lemma post_reservation_created_means_witness :
  post_reservation camel_client (rt := decimal_runtime) example_body empty_store =
  (Json 201 (ReservationBody
               (mkReservationJson (booking "booked") (Rel (Some john))
                                  (Rel (Some table1)))),
   booked_store)
  /\ exists table n d t u rj,
      ReservationBody (mkReservationJson (booking "booked") (Rel (Some john))
                                         (Rel (Some table1))) = ReservationBody rj
      /\ valid_request (rt := decimal_runtime) example_body n
      /\ first_candidate n empty_store = Some table
      /\ Js.new_Date (rt := decimal_runtime) (b_date example_body) = Some d
      /\ b_time example_body = Js.Str t
      /\ Js.parseInt (rt := decimal_runtime) (b_userId example_body) = Some u
      /\ find_user u empty_store <> None
      /\ (forall r, In r (reservations empty_store) -> ~ conflicts table d t r)
      /\ rj_reservation rj = booked_row empty_store d t n u table
      /\ booked_store = booked empty_store table (booked_row empty_store d t n u table).
Proof.
  split; [reflexivity|].
  exact (post_reservation_created_means camel_client decimal_runtime example_body
           empty_store booked_store _ eq_refl).
Defined.

(** A 400 from [POST /reservations] is one of the three errors the
    handler throws itself (validation, no table, conflict), and it is
    thrown before the first write: the store is exactly as it was. *)
Theorem post_reservation_400_writes_nothing (prisma : PrismaClient)
        (rt : Js.Runtime) (body : CreateReservationBody) (st : Store)
        (m : Message) :
  fst (post_reservation prisma body st) = Failure m 400 ->
  snd (post_reservation prisma body st) = st
  /\ (m = Text validation_message
      \/ m = Text "No available table for this party size"
      \/ m = Text "Table is already reserved for this time").
Proof.
  remember (post_reservation prisma body st) as out eqn:E. intros H.
  unfold post_reservation, try_next in E.
  destruct (rejects body) eqn:R.
  { subst out. simpl in *. inversion H. auto. }
  destruct (Js.parseInt (b_people body)) as [n|] eqn:P.
  2:{ unfold bind in E. subst out. discriminate H. }
  pose proof (rejects_false_valid rt body n R P) as V.
  unfold bind at 1 in E. cbn [computed] in E.
  rewrite table_findFirst_candidate in E.
  destruct (first_candidate n st) as [table|] eqn:C.
  2:{ subst out. simpl in *. inversion H. auto. }
  unfold bind at 1 in E. unfold reservation_findFirst, conflict_where in E.
  cbn [w_date w_time w_tableId w_status_in] in E.
  destruct (Js.new_Date (b_date body)) as [d|] eqn:D;
    cbn [computed is_invalid orb] in E.
  2:{ subst out. discriminate H. }
  destruct (b_time body) as [| |b|x|t] eqn:T;
    try (exfalso; destruct V as (_ & Vt & _); rewrite T in Vt; discriminate Vt);
    cbn [string_arg is_invalid] in E;
    try (subst out; discriminate H).
  destruct (find _ (reservations st)) as [k|] eqn:K.
  { subst out. simpl in *. inversion H. auto. }
  exfalso. rewrite E in H.
  exact (commit_not_400 prisma rt body table st m H).
Qed.

Lemma post_reservation_400_writes_nothing_witness :
  fst (post_reservation schema_client (rt := decimal_runtime) example_body
                        (store_with "booked")) =
  Failure (Text "Table is already reserved for this time") 400
  /\ snd (post_reservation schema_client (rt := decimal_runtime) example_body
                           (store_with "booked")) = store_with "booked".
Proof.
  split; [reflexivity|].
  exact (proj1 (post_reservation_400_writes_nothing schema_client decimal_runtime
                  example_body (store_with "booked") _ eq_refl)).
Defined.

(** Once [POST /reservations] has answered 201, no row of the table it
    bound is a candidate, whatever the party size: the table is not handed
    out again, for any date or time, while its flag stays as the handler
    left it. *)
Theorem booked_table_is_not_offered_again (prisma : PrismaClient) (rt : Js.Runtime)
        (body : CreateReservationBody) (st st' : Store) (rj : ReservationJson) :
  post_reservation prisma body st = (Json 201 (ReservationBody rj), st') ->
  forall partySize t,
    In t (tables st') ->
    r_tableId (rj_reservation rj) = Some (t_id t) ->
    is_candidate partySize t = false.
Proof.
  intros E partySize t I B.
  destruct (post_reservation_cases prisma rt body st)
    as [(m & s & st1 & E1 & _)
       |(table & n & d & s & u & user & rj' & _ & _ & _ & _ & _ & _ & _ & _ & RJ & E1)];
    rewrite E1 in E; [discriminate|].
  inversion E; subst rj' st'. clear E.
  rewrite RJ in B. simpl in B, I.
  unfold update_where in I. apply in_map_iff in I.
  destruct I as (x & X & _). subst t. unfold is_candidate.
  destruct (t_id x =? t_id table) eqn:K.
  - simpl. apply andb_false_r.
  - exfalso. apply Z.eqb_neq in K. congruence.
Qed.

Lemma booked_table_is_not_offered_again_witness :
  post_reservation camel_client (rt := decimal_runtime) example_body empty_store =
  (Json 201 (ReservationBody
               (mkReservationJson (booking "booked") (Rel (Some john))
                                  (Rel (Some table1)))),
   booked_store)
  /\ In (mkTable 1 "Table 1" 4 false) (tables booked_store)
  /\ is_candidate 1 (mkTable 1 "Table 1" 4 false) = false.
Proof.
  split; [reflexivity|]. split; [left; reflexivity|].
  apply (booked_table_is_not_offered_again camel_client decimal_runtime example_body
           empty_store booked_store
           (mkReservationJson (booking "booked") (Rel (Some john)) (Rel (Some table1)))
           eq_refl 1 (mkTable 1 "Table 1" 4 false));
    [left; reflexivity | reflexivity].
Defined.

(** ** No double booking *)

Lemma FOP_snoc {A} (R : A -> A -> Prop) (l : list A) (a : A) :
  ForallOrdPairs R l -> Forall (fun x => R x a) l -> ForallOrdPairs R (l ++ [a]).
Proof.
  induction 1 as [|x l H _ IH]; intros F; simpl.
  - constructor; constructor.
  - inversion F; subst. constructor; [|auto].
    apply Forall_app. split; [exact H | constructor; auto].
Qed.

Lemma FOP_map {A} (R : A -> A -> Prop) (g : A -> A) (l : list A) :
  (forall x y, R x y -> R (g x) (g y)) ->
  ForallOrdPairs R l -> ForallOrdPairs R (map g l).
Proof.
  intros G. induction 1 as [|x l H _ IH]; simpl; constructor; [|exact IH].
  apply Forall_map. eapply Forall_impl; [|exact H]. intros y. apply G.
Qed.

Lemma FOP_filter {A} (R : A -> A -> Prop) (p : A -> bool) (l : list A) :
  ForallOrdPairs R l -> ForallOrdPairs R (filter p l).
Proof.
  induction 1 as [|x l H _ IH]; simpl; [constructor|].
  destruct (p x); [|exact IH]. constructor; [|exact IH].
  apply Forall_forall. intros y I. apply filter_In in I.
  rewrite Forall_forall in H. apply H, I.
Qed.

Lemma cancelled_not_active (r : Reservation) : ~ active (with_status "cancelled" r).
Proof. intros [E|E]; discriminate E. Qed.

Lemma no_clash_after_cancel (p : Reservation -> bool) (x y : Reservation) :
  ~ clash x y ->
  ~ clash (if p x then with_status "cancelled" x else x)
          (if p y then with_status "cancelled" y else y).
Proof.
  intros N (A1 & A2 & K).
  destruct (p x); [exact (cancelled_not_active x A1)|].
  destruct (p y); [exact (cancelled_not_active y A2)|].
  apply N. repeat split; tauto.
Qed.

Lemma free_table_rows (r : Reservation) (st : Store) :
  reservations (snd (free_table r st)) = reservations st
  /\ users (snd (free_table r st)) = users st.
Proof.
  unfold free_table. destruct (r_tableId r) as [t|]; [|split; reflexivity].
  destruct (t =? 0); [split; reflexivity|].
  unfold bind, table_update.
  destruct (find_table t st); split; reflexivity.
Qed.

(** The reservations after a cancellation: as before, or with the rows of
    one id set to [cancelled]. *)
Lemma cancel_reservation_rows (prisma : PrismaClient) (rt : Js.Runtime)
      (id : string) (st : Store) :
  reservations (snd (cancel_reservation prisma id st)) = reservations st
  \/ exists n, reservations (snd (cancel_reservation prisma id st)) =
               update_where (fun r => r_id r =? n) (with_status "cancelled")
                            (reservations st).
Proof.
  unfold cancel_reservation, try_next, bind.
  destruct (Js.parseInt (Js.Str id)) as [n|]; cbn [computed]; [|left; reflexivity].
  rewrite findUnique_plain.
  destruct (find_reservation n st) as [r|] eqn:F; cbn [option_map];
    [|left; reflexivity].
  unfold reservation_update. cbn [cancel_data d_date d_time d_people d_status
                                  is_invalid orb].
  destruct (include_valid prisma ["user"; "table"]); cbn [negb];
    [|left; reflexivity].
  rewrite F.
  change (rj_reservation (load_relations prisma [] st r)) with r.
  match goal with |- context [free_table r ?s] =>
    pose proof (proj1 (free_table_rows r s)) as FR;
    destruct (free_table r s) as [[x|e] st2]
  end; simpl in FR |- *; rewrite FR; right; exists n; reflexivity.
Qed.

(** The reservations after a deletion: as before, or without the rows of
    one id. *)
Lemma delete_reservation_rows (prisma : PrismaClient) (rt : Js.Runtime)
      (id : string) (st : Store) :
  reservations (snd (delete_reservation prisma id st)) = reservations st
  \/ exists n, reservations (snd (delete_reservation prisma id st)) =
               filter (fun r => negb (r_id r =? n)) (reservations st).
Proof.
  unfold delete_reservation, try_next, bind.
  destruct (Js.parseInt (Js.Str id)) as [n|]; cbn [computed]; [|left; reflexivity].
  rewrite findUnique_plain.
  destruct (find_reservation n st) as [r|] eqn:F; cbn [option_map];
    [|left; reflexivity].
  unfold reservation_delete. rewrite F.
  change (rj_reservation (load_relations prisma [] st r)) with r.
  match goal with |- context [free_table r ?s] =>
    pose proof (proj1 (free_table_rows r s)) as FR;
    destruct (free_table r s) as [[x|e] st2]
  end; simpl in FR |- *; rewrite FR; right; exists n; reflexivity.
Qed.

(** One request to create, cancel or delete a reservation, served alone
    from its first store call to its last, with any client: if no two
    active reservations of the store clash before it, none clash after
    it. *)
Theorem no_double_booking_is_kept (prisma : PrismaClient) (rt : Js.Runtime)
        (st : Store) :
  no_double_booking st ->
  (forall body, no_double_booking (snd (post_reservation prisma body st)))
  /\ (forall id, no_double_booking (snd (cancel_reservation prisma id st)))
  /\ (forall id, no_double_booking (snd (delete_reservation prisma id st))).
Proof.
  unfold no_double_booking. intros I. repeat split.
  - intros body.
    destruct (post_reservation_cases prisma rt body st)
      as [(m & s & st1 & E1 & _ & _ & _ & Rs & _)
         |(table & n & d & t & u & user & rj & _ & _ & _ & _ & _ & _ & _ & NC & _ & E1)];
      rewrite E1; simpl.
    + rewrite Rs. exact I.
    + apply FOP_snoc; [exact I|]. apply Forall_forall.
      intros r In_r (A & _ & (x & T1 & T2) & D & T).
      apply (NC r In_r). simpl in *. inversion T2; subst x.
      repeat split; assumption.
  - intros id.
    destruct (cancel_reservation_rows prisma rt id st) as [->|(n & ->)];
      [exact I|].
    unfold update_where. apply FOP_map; [|exact I].
    intros x y. exact (no_clash_after_cancel (fun r => r_id r =? n) x y).
  - intros id.
    destruct (delete_reservation_rows prisma rt id st) as [->|(n & ->)];
      [exact I|].
    apply FOP_filter, I.
Qed.

Lemma no_double_booking_is_kept_witness :
  no_double_booking (store_with "cancelled")
  /\ no_double_booking
       (snd (post_reservation camel_client (rt := decimal_runtime) example_body
                              (store_with "cancelled")))
  /\ reservations (snd (post_reservation camel_client (rt := decimal_runtime)
                                         example_body (store_with "cancelled"))) =
     [booking "cancelled";
      mkReservation 2 1749945600000 "19:00" 2 "booked" 1 (Some 1)].
Proof.
  assert (N : no_double_booking (store_with "cancelled"))
    by (repeat constructor).
  split; [exact N|]. split; [|reflexivity].
  exact (proj1 (no_double_booking_is_kept camel_client decimal_runtime
                  (store_with "cancelled") N) example_body).
Defined.

(** ** Booking, then cancelling or deleting *)

Lemma same_key_same_row {A} (key : A -> Z) (l : list A) (a b : A) :
  NoDup (map key l) -> In a l -> In b l -> key a = key b -> a = b.
Proof.
  intros N Ia Ib E.
  pose proof (find_by_key_unique key l a N Ia) as Fa.
  pose proof (find_by_key_unique key l b N Ib) as Fb.
  rewrite E in Fa. congruence.
Qed.

Lemma find_some_by_key {A} (key : A -> Z) (l : list A) (a : A) :
  In a l -> find (fun x => key x =? key a) l <> None.
Proof.
  intros I E. pose proof (find_none _ _ E a I) as K. simpl in K.
  rewrite Z.eqb_refl in K. discriminate.
Qed.

Lemma find_snoc_fresh {A} (key : A -> Z) (l : list A) (a : A) :
  (forall x, In x l -> key x <> key a) ->
  find (fun x => key x =? key a) (l ++ [a]) = Some a.
Proof.
  intros F. induction l as [|x l IH]; simpl.
  - rewrite Z.eqb_refl. reflexivity.
  - destruct (key x =? key a) eqn:E.
    + apply Z.eqb_eq in E. destruct (F x (or_introl eq_refl) E).
    + apply IH. intros y I. apply F. right. exact I.
Qed.

Lemma filter_snoc_fresh {A} (key : A -> Z) (l : list A) (a : A) :
  (forall x, In x l -> key x <> key a) ->
  filter (fun x => negb (key x =? key a)) (l ++ [a]) = l.
Proof.
  intros F. rewrite filter_app. simpl. rewrite Z.eqb_refl. simpl.
  rewrite app_nil_r. induction l as [|x l IH]; simpl; [reflexivity|].
  destruct (key x =? key a) eqn:E.
  - apply Z.eqb_eq in E. destruct (F x (or_introl eq_refl) E).
  - simpl. f_equal. apply IH. intros y I. apply F. right. exact I.
Qed.

Lemma update_snoc_fresh {A} (key : A -> Z) (f : A -> A) (l : list A) (a : A) :
  (forall x, In x l -> key x <> key a) ->
  update_where (fun x => key x =? key a) f (l ++ [a]) = (l ++ [f a])%list.
Proof.
  intros F. unfold update_where. rewrite map_app. simpl. rewrite Z.eqb_refl.
  f_equal. rewrite <- (map_id l) at 2. apply map_ext_in.
  intros x I. destruct (key x =? key a) eqn:E; [|reflexivity].
  apply Z.eqb_eq in E. destruct (F x I E).
Qed.

(** Taking a free table and giving it back leaves the tables as they
    were. *)
Lemma flag_restored (l : list Table) (table : Table) :
  NoDup (map t_id l) -> In table l -> t_isAvailable table = true ->
  freed (Some (t_id table))
        (update_where (fun x => t_id x =? t_id table) (with_isAvailable false) l) = l.
Proof.
  intros N I A. simpl. unfold update_where. rewrite map_map.
  rewrite <- (map_id l) at 2. apply map_ext_in. intros x Ix.
  destruct (t_id x =? t_id table) eqn:E; simpl; rewrite E; [|reflexivity].
  apply Z.eqb_eq in E.
  rewrite (same_key_same_row t_id l x table N Ix I E).
  destruct table; simpl in *. subst. reflexivity.
Qed.

(** What a booking leaves behind, as the handlers that follow find it. *)
Lemma booked_store_facts (st : Store) (table : Table) (r : Reservation) :
  reservation_ids_fresh st -> r_id r = reservation_seq st ->
  r_tableId r = Some (t_id table) ->
  In table (tables st) -> t_id table <> 0 ->
  find_reservation (r_id r) (booked st table r) = Some r
  /\ table_bound r (booked st table r).
Proof.
  intros F Ir Tr It Nz.
  assert (Fr : forall x, In x (reservations st) -> r_id x <> r_id r).
  { intros x Ix. specialize (F x Ix). lia. }
  split.
  - unfold find_reservation, booked. simpl. apply (find_snoc_fresh r_id), Fr.
  - intros t E. rewrite Tr in E. inversion E; subst t. split; [exact Nz|].
    unfold find_table, booked. simpl.
    rewrite (find_update_where t_id); [|reflexivity].
    pose proof (find_some_by_key t_id (tables st) table It) as K.
    destruct (find (fun x => t_id x =? t_id table) (tables st)); [discriminate|].
    contradiction.
Qed.

(** Booking and then deleting the reservation just made leaves users,
    tables and reservations as they were before the booking. *)
Theorem book_then_delete_restores (prisma : PrismaClient) (rt : Js.Runtime)
        (body : CreateReservationBody) (st st1 : Store) (rj : ReservationJson)
        (id : string) :
  table_ids_unique st ->
  reservation_ids_fresh st ->
  (forall t, In t (tables st) -> t_id t <> 0) ->
  post_reservation prisma body st = (Json 201 (ReservationBody rj), st1) ->
  Js.parseInt (Js.Str id) = Some (r_id (rj_reservation rj)) ->
  exists st2,
    delete_reservation prisma id st1 = (Empty 204, st2)
    /\ users st2 = users st /\ tables st2 = tables st
    /\ reservations st2 = reservations st.
Proof.
  intros N F Nz E P.
  destruct (post_reservation_cases prisma rt body st)
    as [(m & s & st' & E1 & _)
       |(table & n & d & t & u & user & rj' & _ & C & _ & _ & _ & _ & _ & _ & RJ & E1)];
    rewrite E1 in E; [discriminate|].
  inversion E; subst rj' st1. clear E E1.
  unfold first_candidate in C. apply find_some in C. destruct C as [It Cand].
  set (r := booked_row st d t n u table) in *.
  destruct (booked_store_facts st table r F eq_refl eq_refl It (Nz table It))
    as [Fr B].
  rewrite RJ in P.
  destruct (delete_reservation_deletes prisma rt id (r_id r) r (booked st table r)
              P Fr B) as [D _].
  exists (deleted (r_id r) r (booked st table r)). split; [exact D|].
  repeat split.
  - unfold deleted, booked. simpl.
    apply (flag_restored (tables st) table N It).
    unfold is_candidate in Cand. apply andb_true_iff in Cand. apply Cand.
  - unfold deleted, booked. simpl.
    apply (filter_snoc_fresh r_id (reservations st) r).
    intros x Ix. specialize (F x Ix). simpl. lia.
Qed.

Lemma book_then_delete_restores_witness :
  (table_ids_unique empty_store /\ reservation_ids_fresh empty_store
   /\ (forall t, In t (tables empty_store) -> t_id t <> 0))
  /\ exists st2,
      delete_reservation camel_client (rt := decimal_runtime) "1" booked_store =
      (Empty 204, st2)
      /\ users st2 = users empty_store /\ tables st2 = tables empty_store
      /\ reservations st2 = reservations empty_store.
Proof.
  assert (N : table_ids_unique empty_store)
    by (unfold table_ids_unique; simpl; constructor; [intros []|constructor]).
  assert (F : reservation_ids_fresh empty_store) by (intros r []).
  assert (Z : forall t, In t (tables empty_store) -> t_id t <> 0)
    by (intros t [<-|[]]; discriminate).
  split; [auto|].
  exact (book_then_delete_restores camel_client decimal_runtime example_body
           empty_store booked_store
           (mkReservationJson (booking "booked") (Rel (Some john)) (Rel (Some table1)))
           "1" N F Z eq_refl eq_refl).
Defined.

(** The commit goes through for every client that accepts the include. *)
Lemma post_reservation_commits (prisma : PrismaClient) (rt : Js.Runtime)
      (body : CreateReservationBody) (st : Store) (n d u : Z) (t : string)
      (table : Table) (user : User) :
  valid_request body n ->
  first_candidate n st = Some table ->
  Js.new_Date (b_date body) = Some d ->
  b_time body = Js.Str t ->
  Js.parseInt (b_userId body) = Some u ->
  find_user u st = Some user ->
  include_valid prisma ["user"; "table"] = true ->
  (forall r, In r (reservations st) -> ~ conflicts table d t r) ->
  exists rj,
    rj_reservation rj = booked_row st d t n u table
    /\ post_reservation prisma body st =
       (Json 201 (ReservationBody rj), booked st table (booked_row st d t n u table)).
Proof.
  intros V C D T U FU IV NC.
  rewrite (post_reservation_candidate prisma rt body st n d t table V C D T).
  rewrite find_absent.
  2:{ intros r I. destruct (reservation_matches _ r) eqn:K; [|reflexivity].
      apply reservation_matches_conflicts in K. destruct (NC r I K). }
  assert (FT : find_table (t_id table) st <> None).
  { unfold first_candidate in C. apply find_some in C.
    apply (find_some_by_key t_id), C. }
  destruct (find_table (t_id table) st) as [row|] eqn:FT'; [|contradiction].
  destruct V as (_ & _ & _ & _ & _ & P).
  unfold try_next, commit_reservation, bind, reservation_create, create_data.
  cbn [c_date c_time c_people c_userId c_tableId c_status].
  rewrite D, T, P, U. cbn [computed string_arg].
  rewrite IV, FU, FT'. unfold table_update.
  change (find_table (t_id table) (set_reservations ?rs ?s))
    with (find_table (t_id table) st).
  rewrite FT'. eexists. split; [|reflexivity]. reflexivity.
Qed.

(** Cancelling goes through for every client that accepts the include. *)
Lemma cancel_reservation_goes_through (prisma : PrismaClient) (rt : Js.Runtime)
      (id : string) (n : Z) (r : Reservation) (st : Store) :
  include_valid prisma ["user"; "table"] = true ->
  Js.parseInt (Js.Str id) = Some n ->
  find_reservation n st = Some r ->
  table_bound r st ->
  exists rj,
    rj_reservation rj = with_status "cancelled" r
    /\ cancel_reservation prisma id st = (Json 200 (ReservationBody rj), cancelled n r st).
Proof.
  intros IV P F B. unfold cancel_reservation, try_next, bind.
  rewrite P. cbn [computed]. rewrite findUnique_plain, F. cbn [option_map].
  unfold reservation_update. rewrite IV. simpl. rewrite F.
  change (rj_reservation (load_relations prisma [] st r)) with r.
  match goal with |- context [free_table r ?s] =>
    rewrite (free_table_bound r s) end; [|exact B].
  eexists. split; [|reflexivity]. reflexivity.
Qed.

(** Booking and then cancelling the reservation just made restores the
    tables; the reservation stays, with status [cancelled]; and the same
    request, sent again, is answered 201 on the same table. *)
Theorem book_cancel_book_again (prisma : PrismaClient) (rt : Js.Runtime)
        (body : CreateReservationBody) (st st1 : Store) (rj : ReservationJson)
        (id : string) :
  table_ids_unique st ->
  reservation_ids_fresh st ->
  (forall t, In t (tables st) -> t_id t <> 0) ->
  post_reservation prisma body st = (Json 201 (ReservationBody rj), st1) ->
  Js.parseInt (Js.Str id) = Some (r_id (rj_reservation rj)) ->
  exists b st2,
    cancel_reservation prisma id st1 = (Json 200 b, st2)
    /\ users st2 = users st /\ tables st2 = tables st
    /\ reservations st2 =
       (reservations st ++ [with_status "cancelled" (rj_reservation rj)])%list
    /\ exists rj3 st3,
        post_reservation prisma body st2 = (Json 201 (ReservationBody rj3), st3)
        /\ r_tableId (rj_reservation rj3) = r_tableId (rj_reservation rj).
Proof.
  intros N F Nz E P.
  destruct (post_reservation_cases prisma rt body st)
    as [(m & s & st' & E1 & _)
       |(table & n & d & t & u & user & rj' & V & C & D & T & U & FU & IV & NC
         & RJ & E1)];
    rewrite E1 in E; [discriminate|].
  inversion E; subst rj' st1. clear E E1.
  pose proof C as C'. unfold first_candidate in C'. apply find_some in C'.
  destruct C' as [It Cand].
  set (r := booked_row st d t n u table) in *.
  destruct (booked_store_facts st table r F eq_refl eq_refl It (Nz table It))
    as [Fr B].
  rewrite RJ in *.
  destruct (cancel_reservation_goes_through prisma rt id (r_id r) r
              (booked st table r) IV P Fr B) as (rj2 & _ & X).
  assert (Ts : tables (cancelled (r_id r) r (booked st table r)) = tables st).
  { unfold cancelled, booked. simpl.
    apply (flag_restored (tables st) table N It).
    unfold is_candidate in Cand. apply andb_true_iff in Cand. apply Cand. }
  assert (Rs : reservations (cancelled (r_id r) r (booked st table r)) =
               (reservations st ++ [with_status "cancelled" r])%list).
  { unfold cancelled, booked. simpl.
    apply (update_snoc_fresh r_id (with_status "cancelled") (reservations st) r).
    intros x Ix. specialize (F x Ix). simpl. lia. }
  exists (ReservationBody rj2), (cancelled (r_id r) r (booked st table r)).
  split; [exact X|]. split; [reflexivity|]. split; [exact Ts|].
  split; [exact Rs|].
  destruct (post_reservation_commits prisma rt body
              (cancelled (r_id r) r (booked st table r)) n d u t table user)
    as (rj3 & R3 & X3); try assumption.
  - unfold first_candidate. rewrite Ts. exact C.
  - intros x Ix. rewrite Rs in Ix. apply in_app_iff in Ix.
    destruct Ix as [Ix|[<-|[]]]; [apply NC, Ix|].
    intros (_ & _ & _ & A). exact (cancelled_not_active r A).
  - exists rj3. eexists. split; [exact X3|]. rewrite R3. reflexivity.
Qed.

Lemma book_cancel_book_again_witness :
  (table_ids_unique empty_store /\ reservation_ids_fresh empty_store
   /\ (forall t, In t (tables empty_store) -> t_id t <> 0))
  /\ exists b st2,
      cancel_reservation camel_client (rt := decimal_runtime) "1" booked_store =
      (Json 200 b, st2)
      /\ users st2 = users empty_store /\ tables st2 = tables empty_store
      /\ reservations st2 = [booking "cancelled"]
      /\ exists rj3 st3,
          post_reservation camel_client (rt := decimal_runtime) example_body st2 =
          (Json 201 (ReservationBody rj3), st3)
          /\ r_tableId (rj_reservation rj3) = Some 1.
Proof.
  assert (N : table_ids_unique empty_store)
    by (unfold table_ids_unique; simpl; constructor; [intros []|constructor]).
  assert (F : reservation_ids_fresh empty_store) by (intros r []).
  assert (Z : forall t, In t (tables empty_store) -> t_id t <> 0)
    by (intros t [<-|[]]; discriminate).
  split; [auto|].
  exact (book_cancel_book_again camel_client decimal_runtime example_body
           empty_store booked_store
           (mkReservationJson (booking "booked") (Rel (Some john)) (Rel (Some table1)))
           "1" N F Z eq_refl eq_refl).
Defined.

(** ** Ids without a row, and deleting with any client *)

(** [DELETE /reservations/:id], with any client: an id that [parseInt] does
    not read is answered 500, an id without a row 404, and in both cases
    nothing is written; the reservation of an id with a row is removed,
    its table is made available and the answer is 204, after which no row
    of that id is left. *)
Theorem delete_reservation_with_any_client (prisma : PrismaClient) (rt : Js.Runtime)
        (id : string) (st : Store) :
  match Js.parseInt (Js.Str id) with
  | None => delete_reservation prisma id st = (Failure (PrismaText None) 500, st)
  | Some n =>
      match find_reservation n st with
      | None =>
          delete_reservation prisma id st =
          (Failure (Text "Reservation not found") 404, st)
      | Some r =>
          table_bound r st ->
          delete_reservation prisma id st = (Empty 204, deleted n r st)
          /\ find_reservation n (deleted n r st) = None
      end
  end.
Proof.
  destruct (Js.parseInt (Js.Str id)) as [n|] eqn:P.
  - destruct (find_reservation n st) as [r|] eqn:F.
    + intros B. exact (delete_reservation_deletes prisma rt id n r st P F B).
    + exact (delete_reservation_not_found prisma rt id n st P F).
  - unfold delete_reservation, try_next, bind. rewrite P. reflexivity.
Qed.

Lemma delete_reservation_with_any_client_witness :
  table_bound (booking "booked") booked_store
  /\ delete_reservation schema_client (rt := decimal_runtime) "1" booked_store =
     (Empty 204, mkStore [john] [table1] [] 2)
  /\ delete_reservation schema_client (rt := decimal_runtime) "7" booked_store =
     (Failure (Text "Reservation not found") 404, booked_store).
Proof.
  assert (B : table_bound (booking "booked") booked_store).
  { intros t E. inversion E; subst t. split; discriminate. }
  split; [exact B|]. split.
  - exact (proj1 (delete_reservation_with_any_client schema_client decimal_runtime
                    "1" booked_store B)).
  - exact (delete_reservation_with_any_client schema_client decimal_runtime
             "7" booked_store).
Defined.

(** An id without a reservation is answered 404 "Reservation not found"
    and nothing is written: by the cancel handler with any client, and by
    [GET /reservations/:id] and [PUT /reservations/:id] with a client that
    accepts the include (for [PUT], when the body holds no value Prisma
    refuses). *)
Theorem unknown_reservation_is_404 (prisma : PrismaClient) (rt : Js.Runtime)
        (id : string) (n : Z) (st : Store) :
  Js.parseInt (Js.Str id) = Some n ->
  find_reservation n st = None ->
  cancel_reservation prisma id st = (Failure (Text "Reservation not found") 404, st)
  /\ (include_valid prisma ["user"; "table"] = true ->
      get_reservation prisma id st = (Failure (Text "Reservation not found") 404, st)
      /\ forall body,
          is_invalid (d_date (update_data body)) = false ->
          is_invalid (d_time (update_data body)) = false ->
          is_invalid (d_people (update_data body)) = false ->
          is_invalid (d_status (update_data body)) = false ->
          put_reservation prisma id body st =
          (Failure (Text "Reservation not found") 404, st)).
Proof.
  intros P F. split; [exact (cancel_reservation_not_found prisma rt id n st P F)|].
  intros IV. split.
  - unfold get_reservation, try_next, bind, reservation_findUnique.
    rewrite P. cbn [computed]. rewrite IV, F. reflexivity.
  - intros body Hd Ht Hp Hs.
    unfold put_reservation, try_next_P2025, bind, reservation_update.
    rewrite P. cbn [computed]. rewrite Hd, Ht, Hp, Hs, IV, F. reflexivity.
Qed.

Lemma unknown_reservation_is_404_witness :
  cancel_reservation camel_client (rt := decimal_runtime) "7" booked_store =
  (Failure (Text "Reservation not found") 404, booked_store)
  /\ get_reservation camel_client (rt := decimal_runtime) "7" booked_store =
     (Failure (Text "Reservation not found") 404, booked_store)
  /\ put_reservation camel_client (rt := decimal_runtime) "7" status_cancelled
                     booked_store =
     (Failure (Text "Reservation not found") 404, booked_store).
Proof.
  pose proof (unknown_reservation_is_404 camel_client decimal_runtime "7" 7
                booked_store eq_refl eq_refl) as [C G].
  split; [exact C|]. destruct (G eq_refl) as [G1 G2].
  split; [exact G1|].
  exact (G2 status_cancelled eq_refl eq_refl eq_refl eq_refl).
Defined.

(** ** The reservation routes with the client of the repository's schema *)

(** With the client generated from the repository's schema, the handlers of
    [POST /reservations], [GET /reservations], [GET /reservations/:id],
    [PUT /reservations/:id] and [PUT /reservations/:id/cancel] answer every
    request with an error and leave the store as it is: through these
    routes no reservation is ever created, read or changed. *)
Theorem reservation_routes_under_schema (rt : Js.Runtime) (st : Store) :
  (forall body, exists m s,
        post_reservation schema_client body st = (Failure m s, st))
  /\ list_reservations schema_client st = (NoRows (Failure (PrismaText None) 500), st)
  /\ (forall id,
         get_reservation schema_client id st = (Failure (PrismaText None) 500, st))
  /\ (forall id body,
         put_reservation schema_client id body st =
         (Failure (PrismaText None) 500, st))
  /\ (forall id, exists m s,
         cancel_reservation schema_client id st = (Failure m s, st)).
Proof.
  split; [intros body; apply post_reservation_under_schema|].
  split; [reflexivity|].
  split; [intros id; apply get_reservation_under_schema|].
  split.
  - intros id body. unfold put_reservation, try_next_P2025, bind, reservation_update.
    rewrite schema_client_refuses_include.
    destruct (computed (Js.parseInt (Js.Str id))); try reflexivity.
    rewrite orb_true_r. reflexivity.
  - intros id. destruct (Js.parseInt (Js.Str id)) as [n|] eqn:P.
    + destruct (find_reservation n st) as [r|] eqn:F.
      * rewrite (cancel_reservation_under_schema rt id n r st P F). eauto.
      * rewrite (cancel_reservation_not_found schema_client rt id n st P F). eauto.
    + unfold cancel_reservation, try_next, bind. rewrite P. simpl. eauto.
Qed.

(** ** Reading *)

(** The handlers of the six GET routes never write: the store after the
    request is the store before it, so a read repeated with no write in
    between gives the same answer.  The two list routes without relations
    answer with all rows in the store's order, and the list of the
    reservations, with a client that accepts the include, holds every
    reservation once, in the store's order. *)
Theorem reads_do_not_write (prisma : PrismaClient) (rt : Js.Runtime) (st : Store) :
  (forall id, snd (get_reservation prisma id st) = st)
  /\ snd (list_reservations prisma st) = st
  /\ (include_valid prisma ["user"; "table"] = true ->
      exists rows, fst (list_reservations prisma st) = Rows rows
                   /\ map rj_reservation rows = reservations st)
  /\ (forall id, snd (get_table id st) = st)
  /\ list_tables st = (Rows (tables st), st)
  /\ (forall id, snd (get_user id st) = st)
  /\ list_users st = (Rows (users st), st).
Proof.
  repeat split.
  - intros id. unfold get_reservation, try_next, bind, reservation_findUnique.
    destruct (computed (Js.parseInt (Js.Str id))); try reflexivity.
    destruct (include_valid prisma ["user"; "table"]); [|reflexivity].
    destruct (find_reservation a st); reflexivity.
  - unfold list_reservations, try_next_rows, reservation_findMany.
    destruct (include_valid prisma ["user"; "table"]); reflexivity.
  - intros IV. unfold list_reservations, try_next_rows, reservation_findMany.
    rewrite IV. eexists. split; [reflexivity|].
    rewrite map_map. simpl. apply map_id.
  - intros id. unfold get_table, try_next, bind, table_findUnique.
    destruct (computed (Js.parseInt (Js.Str id))); try reflexivity.
    destruct (find_table a st); reflexivity.
  - intros id. unfold get_user, try_next, bind, user_findUnique.
    destruct (computed (Js.parseInt (Js.Str id))); try reflexivity.
    destruct (find_user a st); reflexivity.
Qed.

(** ** Status codes *)

(** The reservation routes answer with a fixed set of status codes:
    201, 400 or 500 for a creation; 200, 404 or 500 for a read by id, an
    update and a cancellation; 204, 404 or 500 for a deletion. *)
Theorem reservation_status_codes (prisma : PrismaClient) (rt : Js.Runtime)
        (st : Store) :
  (forall body, In (status_of (fst (post_reservation prisma body st))) [201; 400; 500])
  /\ (forall id, In (status_of (fst (get_reservation prisma id st))) [200; 404; 500])
  /\ (forall id body,
         In (status_of (fst (put_reservation prisma id body st))) [200; 404; 500])
  /\ (forall id, In (status_of (fst (cancel_reservation prisma id st))) [200; 404; 500])
  /\ (forall id, In (status_of (fst (delete_reservation prisma id st))) [204; 404; 500]).
Proof.
  repeat split.
  - intros body.
    destruct (post_reservation_cases prisma rt body st)
      as [(m & s & st1 & -> & [->| ->] & _)
         |(table & n & d & t & u & user & rj & _ & _ & _ & _ & _ & _ & _ & _ & _ & ->)];
      simpl; auto.
  - intros id. unfold get_reservation, try_next, bind, reservation_findUnique.
    destruct (computed (Js.parseInt (Js.Str id))) as [| |n]; simpl; auto.
    destruct (include_valid prisma ["user"; "table"]); simpl; auto.
    destruct (find_reservation n st); simpl; auto.
  - intros id body.
    unfold put_reservation, try_next_P2025, bind, reservation_update.
    destruct (computed (Js.parseInt (Js.Str id))) as [| |n]; simpl; auto.
    destruct (_ || _); simpl; auto.
    destruct (find_reservation n st); simpl; auto.
  - intros id. unfold cancel_reservation, try_next, bind.
    destruct (Js.parseInt (Js.Str id)) as [n|]; cbn [computed]; [|simpl; auto].
    rewrite findUnique_plain.
    destruct (find_reservation n st) as [r|] eqn:F; cbn [option_map];
      [|simpl; auto].
    unfold reservation_update.
    destruct (_ || _); [simpl; auto|]. rewrite F.
    change (rj_reservation (load_relations prisma [] st r)) with r.
    unfold free_table, bind, table_update.
    destruct (r_tableId r) as [t|]; [|simpl; auto].
    destruct (t =? 0); [simpl; auto|].
    match goal with |- context [find_table t ?s] => destruct (find_table t s) end;
      simpl; auto.
  - intros id. unfold delete_reservation, try_next, bind.
    destruct (Js.parseInt (Js.Str id)) as [n|]; cbn [computed]; [|simpl; auto].
    rewrite findUnique_plain.
    destruct (find_reservation n st) as [r|] eqn:F; cbn [option_map];
      [|simpl; auto].
    unfold reservation_delete. rewrite F.
    change (rj_reservation (load_relations prisma [] st r)) with r.
    unfold free_table, bind, table_update.
    destruct (r_tableId r) as [t|]; [|simpl; auto].
    destruct (t =? 0); [simpl; auto|].
    match goal with |- context [find_table t ?s] => destruct (find_table t s) end;
      simpl; auto.
Qed.

(** ** Creating, reading and deleting tables *)

(** [POST /tables], with its validation written in terms of the valid
    fields. *)
Lemma post_table_unfolded (rt : Js.Runtime) (body : CreateTableBody)
        (db : Database) :
  post_table body db =
  match valid_name (ct_name body), valid_capacity (ct_capacity body) with
  | Some name, Some capacity =>
      (Json 201 (TableBody (new_table db name capacity)),
       with_table db (new_table db name capacity))
  | _, _ => (Failure (Text table_validation_message) 400, db)
  end.
Proof.
  unfold post_table, table_rejects, js_ltb.
  destruct (ct_name body) as [| |b|[z|fl]|s]; simpl; try reflexivity.
  - destruct b; reflexivity.
  - destruct (z =? 0); reflexivity.
  - destruct (String.eqb s "") eqn:S; simpl; [reflexivity|].
    destruct (ct_capacity body) as [| |b|[z|fl]|c]; simpl; try reflexivity.
    + destruct b; reflexivity.
    + destruct (z =? 0) eqn:Z0; simpl.
      * apply Z.eqb_eq in Z0. subst z. reflexivity.
      * destruct (1 <=? z); reflexivity.
    + destruct (String.eqb c ""); reflexivity.
Qed.

(** [POST /tables] takes a body exactly when [PATCH /tables/:id] would take
    over both its name and its capacity: a non-empty string and an integer
    of at least 1.  Then it answers 201 with a new table that is
    available and has the next id of the sequence, appended to the tables;
    otherwise it answers 400 and writes nothing. *)
Theorem post_table_outcome (rt : Js.Runtime) (body : CreateTableBody)
        (db : Database) :
  post_table body db =
  match valid_name (ct_name body), valid_capacity (ct_capacity body) with
  | Some name, Some capacity =>
      (Json 201 (TableBody (new_table db name capacity)),
       with_table db (new_table db name capacity))
  | _, _ => (Failure (Text table_validation_message) 400, db)
  end.
Proof.
  unfold post_table, table_rejects, js_ltb.
  destruct (ct_name body) as [| |b|[z|fl]|s]; simpl; try reflexivity.
  - destruct b; reflexivity.
  - destruct (z =? 0); reflexivity.
  - destruct (String.eqb s "") eqn:S; simpl; [reflexivity|].
    destruct (ct_capacity body) as [| |b|[z|fl]|c]; simpl; try reflexivity.
    + destruct b; reflexivity.
    + destruct (z =? 0) eqn:Z0; simpl.
      * apply Z.eqb_eq in Z0. subst z. reflexivity.
      * destruct (1 <=? z); reflexivity.
    + destruct (String.eqb c ""); reflexivity.
Qed.

(** A table that [POST /tables] has created is found by
    [GET /tables/:id] under its id, as it was returned, and is a candidate
    for every party up to its capacity. *)
Theorem post_table_then_get (rt : Js.Runtime) (body : CreateTableBody)
        (db : Database) (name id : string) (capacity : Z) :
  table_ids_fresh db ->
  valid_name (ct_name body) = Some name ->
  valid_capacity (ct_capacity body) = Some capacity ->
  Js.parseInt (Js.Str id) = Some (table_seq db) ->
  fst (post_table body db) = Json 201 (TableBody (new_table db name capacity))
  /\ get_table id (store (snd (post_table body db))) =
     (Json 200 (TableBody (new_table db name capacity)),
      store (snd (post_table body db)))
  /\ forall partySize, partySize <= capacity ->
                       is_candidate partySize (new_table db name capacity) = true.
Proof.
  intros F N C P. rewrite post_table_unfolded, N, C. simpl.
  split; [reflexivity|]. split.
  - unfold get_table, try_next, bind, table_findUnique. rewrite P.
    cbn [computed]. unfold find_table.
    pose proof (find_snoc_fresh t_id (tables (store db))
                                (new_table db name capacity)) as X.
    unfold new_table in *. simpl in X |- *. rewrite X; [reflexivity|].
    intros x Ix. specialize (F x Ix). lia.
  - intros m L. unfold is_candidate. simpl. rewrite andb_true_r.
    apply Z.leb_le, L.
Qed.

Lemma post_table_then_get_witness :
  table_ids_fresh example_db
  /\ post_table (rt := decimal_runtime) patio example_db =
     (Json 201 (TableBody (mkTable 2 "Patio" 6 true)),
      mkDatabase (mkStore [john; admin] [table1; mkTable 2 "Patio" 6 true] [] 1) 3 3)
  /\ get_table (rt := decimal_runtime) "2"
               (store (snd (post_table (rt := decimal_runtime) patio example_db))) =
     (Json 200 (TableBody (mkTable 2 "Patio" 6 true)),
      store (snd (post_table (rt := decimal_runtime) patio example_db))).
Proof.
  assert (F : table_ids_fresh example_db)
    by (intros t [<-|[]]; reflexivity).
  split; [exact F|]. split; [reflexivity|].
  exact (proj1 (proj2 (post_table_then_get decimal_runtime patio example_db
                         "Patio" "2" 6 F eq_refl eq_refl eq_refl))).
Defined.

Lemma in_filter_out {A} (key : A -> Z) (n : Z) (l : list A) (a : A) :
  In a (filter (fun x => negb (key x =? n)) l) <-> In a l /\ key a <> n.
Proof.
  rewrite filter_In, negb_true_iff, Z.eqb_neq. reflexivity.
Qed.

(** [DELETE /tables/:id]: an id that [parseInt] does not read is answered
    500 and an id without a row 404, and nothing is written; else the
    answer is 204, the rows of that id are gone and the other tables are
    as they were, the users are as they were, no reservation is bound to
    the id any more, and [GET /tables/:id] answers 404 for it. *)
Theorem delete_table_outcome (rt : Js.Runtime) (id : string) (st : Store) :
  match Js.parseInt (Js.Str id) with
  | None => delete_table id st = (Failure (PrismaText None) 500, st)
  | Some n =>
      match find_table n st with
      | None =>
          delete_table id st =
          (Failure (Text ("Table with id " ++ id ++ " not found")) 404, st)
      | Some _ =>
          exists st',
          delete_table id st = (Empty 204, st')
          /\ users st' = users st
          /\ (forall t, In t (tables st') <-> In t (tables st) /\ t_id t <> n)
          /\ (forall r, In r (reservations st') -> r_tableId r <> Some n)
          /\ map r_id (reservations st') = map r_id (reservations st)
          /\ get_table id st' =
             (Failure (Text ("Table with id " ++ id ++ " not found")) 404, st')
      end
  end.
Proof.
  unfold delete_table, try_next_P2025, bind, table_delete.
  destruct (Js.parseInt (Js.Str id)) as [n|] eqn:P; cbn [computed];
    [|reflexivity].
  destruct (find_table n st) as [t|] eqn:F; [|reflexivity].
  eexists. split; [reflexivity|]. simpl. split; [reflexivity|].
  split; [intros x; apply (in_filter_out t_id)|]. split; [|split].
  - intros r I. unfold update_where in I. apply in_map_iff in I.
    destruct I as (x & <- & _).
    destruct (option_Z_eqb (r_tableId x) (Some n)) eqn:E; [discriminate|].
    intros K. rewrite K in E. simpl in E. rewrite Z.eqb_refl in E. discriminate.
  - unfold update_where. rewrite map_map. apply map_ext.
    intros x. destruct (option_Z_eqb _ _); reflexivity.
  - unfold get_table, try_next, bind, table_findUnique. rewrite P.
    cbn [computed]. unfold find_table. simpl.
    rewrite (find_filter_out t_id). reflexivity.
Qed.

(** ** Patching a table: the error paths and repetition *)

(** [PATCH /tables/:id] with a valid field answers 404 for an id without a
    row and 500 for an id that [parseInt] does not read, and writes
    nothing. *)
Theorem patch_table_unknown_id (rt : Js.Runtime) (id : string)
        (body : PatchTableBody) (st : Store) :
  valid_name (b_name body) <> None
  \/ valid_capacity (b_capacity body) <> None
  \/ valid_isAvailable (b_isAvailable body) <> None ->
  match Js.parseInt (Js.Str id) with
  | None => patch_table id body st = (Failure (PrismaText None) 500, st)
  | Some n =>
      find_table n st = None ->
      patch_table id body st =
      (Failure (Text ("Table with id " ++ id ++ " not found")) 404, st)
  end.
Proof.
  intros V. unfold patch_table, try_next_P2025.
  rewrite table_updates_valid_fields.
  assert (K : (table_update_keys (valid_fields body) =? 0)%nat = false).
  { unfold table_update_keys, valid_fields. simpl.
    destruct (valid_name (b_name body)), (valid_capacity (b_capacity body)),
             (valid_isAvailable (b_isAvailable body)); try reflexivity.
    destruct V as [V|[V|V]]; contradiction. }
  rewrite K. unfold bind, table_update.
  destruct (Js.parseInt (Js.Str id)) as [n|]; cbn [computed]; [|reflexivity].
  intros F. rewrite F. reflexivity.
Qed.

Lemma patch_table_unknown_id_witness :
  patch_table (rt := decimal_runtime) "9" name_only empty_store =
  (Failure (Text "Table with id 9 not found") 404, empty_store)
  /\ patch_table (rt := decimal_runtime) "nine" name_only empty_store =
     (Failure (PrismaText None) 500, empty_store).
Proof.
  assert (V : valid_name (b_name name_only) <> None
              \/ valid_capacity (b_capacity name_only) <> None
              \/ valid_isAvailable (b_isAvailable name_only) <> None)
    by (left; discriminate).
  split.
  - exact (patch_table_unknown_id decimal_runtime "9" name_only empty_store V
             eq_refl).
  - exact (patch_table_unknown_id decimal_runtime "nine" name_only empty_store V).
Defined.

Lemma apply_table_update_twice (data : TableUpdate) (t : Table) :
  apply_table_update data (apply_table_update data t) = apply_table_update data t.
Proof.
  unfold apply_table_update. simpl.
  destruct (d_name data), (d_capacity data), (d_isAvailable data); reflexivity.
Qed.

(** [PATCH /tables/:id] can be repeated: the same request sent a second
    time gets the same answer and leaves the store as the first left
    it. *)
Theorem patch_table_twice (rt : Js.Runtime) (id : string) (body : PatchTableBody)
        (st : Store) :
  patch_table id body (snd (patch_table id body st)) = patch_table id body st.
Proof.
  unfold patch_table, try_next_P2025.
  destruct (table_update_keys (table_updates body) =? 0)%nat; [reflexivity|].
  unfold bind, table_update.
  destruct (computed (Js.parseInt (Js.Str id))) as [| |n]; try reflexivity.
  destruct (find_table n st) as [t|] eqn:F; simpl; [|rewrite F; reflexivity].
  unfold find_table. simpl.
  rewrite (find_update_where t_id); [|reflexivity].
  unfold find_table in F. rewrite F. simpl.
  rewrite apply_table_update_twice.
  rewrite update_where_idempotent;
    [reflexivity | reflexivity | apply apply_table_update_twice].
Qed.

(** ** Creating and deleting users *)

Lemma existsb_email_false (e : string) (l : list User) :
  existsb (fun u => String.eqb (u_email u) e) l = false ->
  forall x, In x l -> u_email x <> e.
Proof.
  intros X x I E.
  assert (K : existsb (fun u => String.eqb (u_email u) e) l = true).
  { apply existsb_exists. exists x. split; [exact I|]. apply String.eqb_eq, E. }
  rewrite K in X. discriminate.
Qed.

Lemma truthy_string (s : string) : Js.truthy (Js.Str s) = true -> s <> "".
Proof.
  simpl. intros T E. subst s. discriminate.
Qed.

(** [POST /users] answers 201 only when [username], [email] and [password]
    are non-empty strings, [isAdmin] is [true] or falsy, and no user has
    the email; the user it inserts has the next id of the sequence, these
    three strings, and is an administrator exactly when the body says
    [isAdmin: true]. *)
Theorem post_user_created_means (body : CreateUserBody) (db db' : Database)
        (u : User) :
  post_user body db = (Json 201 (UserBody u), db') ->
  exists name email password,
    cu_username body = Js.Str name /\ cu_email body = Js.Str email
    /\ cu_password body = Js.Str password
    /\ name <> "" /\ email <> "" /\ password <> ""
    /\ (cu_isAdmin body = Js.Boolean true \/ Js.truthy (cu_isAdmin body) = false)
    /\ u = mkUser (user_seq db) name email password
                  (match cu_isAdmin body with Js.Boolean true => true | _ => false end)
    /\ (forall x, In x (users (store db)) -> u_email x <> email)
    /\ db' = with_user db u.
Proof.
  unfold post_user, user_rejects. intros E.
  destruct (Js.truthy (cu_username body)) eqn:Tn; [|discriminate].
  destruct (Js.truthy (cu_email body)) eqn:Te; [|discriminate].
  destruct (Js.truthy (cu_password body)) eqn:Tp; [|discriminate].
  cbn [negb orb] in E. unfold user_create in E.
  destruct (cu_username body) as [| |? |? |name]; try discriminate E.
  destruct (cu_email body) as [| |? |? |email]; try discriminate E.
  destruct (cu_password body) as [| |? |? |password]; try discriminate E.
  cbn [string_arg] in E.
  destruct (is_invalid (boolean_arg (js_or (cu_isAdmin body) (Js.Boolean false))))
    eqn:IA; [discriminate|].
  destruct (existsb _ (users (store db))) eqn:X; [discriminate|].
  inversion E; subst. clear E.
  exists name, email, password.
  do 3 (split; [reflexivity|]).
  do 3 (split; [apply truthy_string; assumption|]).
  assert (A : (cu_isAdmin body = Js.Boolean true
               \/ Js.truthy (cu_isAdmin body) = false)
              /\ assign (boolean_arg (js_or (cu_isAdmin body) (Js.Boolean false)))
                        false =
                 match cu_isAdmin body with Js.Boolean true => true | _ => false end).
  { unfold js_or in *.
    destruct (cu_isAdmin body) as [| |[|]|[z|fl]|s]; simpl in *; auto;
      try discriminate.
    - destruct (z =? 0); [auto|discriminate].
    - destruct (String.eqb s ""); [auto|discriminate]. }
  destruct A as [A1 A2]. rewrite A2.
  split; [exact A1|]. split; [reflexivity|]. split; [|reflexivity].
  apply existsb_email_false, X.
Qed.

Lemma post_user_created_means_witness :
  post_user (eve (Js.Boolean true)) example_db =
  (Json 201 (UserBody (mkUser 3 "Eve" "eve@example.com" "pw" true)),
   with_user example_db (mkUser 3 "Eve" "eve@example.com" "pw" true))
  /\ exists name email password,
      cu_username (eve (Js.Boolean true)) = Js.Str name
      /\ cu_email (eve (Js.Boolean true)) = Js.Str email
      /\ cu_password (eve (Js.Boolean true)) = Js.Str password
      /\ name <> "" /\ email <> "" /\ password <> ""
      /\ (cu_isAdmin (eve (Js.Boolean true)) = Js.Boolean true
          \/ Js.truthy (cu_isAdmin (eve (Js.Boolean true))) = false)
      /\ mkUser 3 "Eve" "eve@example.com" "pw" true =
         mkUser (user_seq example_db) name email password
                (match cu_isAdmin (eve (Js.Boolean true)) with
                 | Js.Boolean true => true
                 | _ => false
                 end)
      /\ (forall x, In x (users (store example_db)) -> u_email x <> email)
      /\ with_user example_db (mkUser 3 "Eve" "eve@example.com" "pw" true) =
         with_user example_db (mkUser 3 "Eve" "eve@example.com" "pw" true).
Proof.
  split; [reflexivity|].
  exact (post_user_created_means (eve (Js.Boolean true)) example_db _ _ eq_refl).
Defined.

(** What [POST /users] refuses: a falsy [username], [email] or [password]
    is answered 400; a truthy [isAdmin] that is not a boolean, or a
    [username], [email] or [password] that is truthy but not a string, is
    answered 500; an email that a user already has is answered 500.  In
    none of these cases is a user inserted. *)
Theorem post_user_refusals (body : CreateUserBody) (db : Database) :
  (Js.truthy (cu_username body) = false \/ Js.truthy (cu_email body) = false
   \/ Js.truthy (cu_password body) = false ->
   post_user body db =
   (Failure (Text "Username, email or password not specified.") 400, db))
  /\
  (Js.truthy (cu_username body) = true -> Js.truthy (cu_email body) = true ->
   Js.truthy (cu_password body) = true ->
   (Js.truthy (cu_isAdmin body) = true /\ as_boolean (cu_isAdmin body) = None)
   \/ as_string (cu_username body) = None \/ as_string (cu_email body) = None
   \/ as_string (cu_password body) = None ->
   post_user body db = (Failure (PrismaText None) 500, db))
  /\
  (forall name email password x,
      cu_username body = Js.Str name -> cu_email body = Js.Str email ->
      cu_password body = Js.Str password ->
      name <> "" -> email <> "" -> password <> "" ->
      absent_or_boolean (cu_isAdmin body) ->
      In x (users (store db)) -> u_email x = email ->
      fst (post_user body db) = Failure (PrismaText (Some "P2002")) 500
      /\ store (snd (post_user body db)) = store db).
Proof.
  unfold post_user, user_rejects. split; [|split].
  - intros [T|[T|T]]; rewrite T; simpl; rewrite ?orb_true_r; reflexivity.
  - intros Tn Te Tp H. rewrite Tn, Te, Tp. cbn [negb orb]. unfold user_create.
    destruct (cu_username body) as [| |? |? |name];
      try reflexivity; try (destruct H as [[_ H]|[H|[H|H]]]; discriminate H).
    destruct (cu_email body) as [| |? |? |email]; try reflexivity.
    destruct (cu_password body) as [| |? |? |password]; try reflexivity.
    destruct H as [[Ta Na]|[H|[H|H]]]; try discriminate H.
    unfold js_or. rewrite Ta.
    destruct (cu_isAdmin body) as [| |[|]|[z|fl]|s]; try discriminate; reflexivity.
  - intros name email password x En Ee Ep Nn Ne Np A I X.
    rewrite En, Ee, Ep. simpl.
    apply String.eqb_neq in Nn, Ne, Np. rewrite Nn, Ne, Np. simpl.
    unfold user_create.
    assert (K : existsb (fun u => String.eqb (u_email u) email)
                        (users (store db)) = true).
    { apply existsb_exists. exists x. split; [exact I|]. apply String.eqb_eq, X. }
    destruct A as [E|([|] & E)]; rewrite E; simpl; rewrite K; split; reflexivity.
Qed.

Lemma post_user_refusals_witness :
  post_user (eve (Js.Str "yes")) example_db = (Failure (PrismaText None) 500, example_db)
  /\ post_user (mkCreateUserBody (Js.Str "Eve") (Js.Str "") (Js.Str "pw") Js.Undefined)
               example_db =
     (Failure (Text "Username, email or password not specified.") 400, example_db)
  /\ fst (post_user (mkCreateUserBody (Js.Str "Eve") (Js.Str "ada@example.com")
                                      (Js.Str "pw") Js.Undefined)
                    example_db) =
     Failure (PrismaText (Some "P2002")) 500.
Proof.
  split; [|split].
  - apply (proj1 (proj2 (post_user_refusals (eve (Js.Str "yes")) example_db)));
      try reflexivity.
    left. split; reflexivity.
  - apply (proj1 (post_user_refusals _ example_db)). right. left. reflexivity.
  - apply (proj2 (proj2 (post_user_refusals
                           (mkCreateUserBody (Js.Str "Eve") (Js.Str "ada@example.com")
                                             (Js.Str "pw") Js.Undefined)
                           example_db))
                 "Eve" "ada@example.com" "pw" admin);
      try reflexivity; try discriminate.
    + left. reflexivity.
    + right. left. reflexivity.
Defined.

(** [DELETE /users/:id] never answers 404.  For an id without a row the
    handler builds the message of the 404 from [id], which is not in scope
    in its [catch] block, so its promise is rejected with a
    [ReferenceError] and neither a response nor [next] is reached.  A user
    who has reservations is not deleted (500); a user without is removed
    (204) and is not found afterwards.  Only the last case writes. *)
Theorem delete_user_outcome (rt : Js.Runtime) (id : string) (st : Store) :
  (forall r st', delete_user id st = (Responded r, st') ->
                 status_of r = 204 \/ status_of r = 500)
  /\
  match Js.parseInt (Js.Str id) with
  | None => delete_user id st = (Responded (Failure (PrismaText None) 500), st)
  | Some n =>
      match find_user n st with
      | None => delete_user id st = (Rejected "ReferenceError: id is not defined", st)
      | Some _ =>
          ((exists r, In r (reservations st) /\ r_userId r = n) ->
           delete_user id st =
           (Responded (Failure (PrismaText (Some "P2003")) 500), st))
          /\
          ((forall r, In r (reservations st) -> r_userId r <> n) ->
           exists st',
             delete_user id st = (Responded (Empty 204), st')
             /\ find_user n st' = None
             /\ (forall u, In u (users st') <-> In u (users st) /\ u_id u <> n)
             /\ tables st' = tables st /\ reservations st' = reservations st)
      end
  end.
Proof.
  unfold delete_user, bind, user_delete.
  destruct (Js.parseInt (Js.Str id)) as [n|]; cbn [computed].
  2:{ split; [|reflexivity]. intros r st' E. inversion E. auto. }
  destruct (find_user n st) as [u|] eqn:F.
  2:{ split; [|reflexivity]. intros r st' E. discriminate E. }
  destruct (existsb (fun r => r_userId r =? n) (reservations st)) eqn:X.
  - split; [intros r st' E; inversion E; auto|]. split; [reflexivity|].
    intros N. exfalso. apply existsb_exists in X.
    destruct X as (r & I & E). apply Z.eqb_eq in E. exact (N r I E).
  - split; [intros r st' E; inversion E; auto|]. split.
    + intros (r & I & E). exfalso.
      assert (K : existsb (fun r => r_userId r =? n) (reservations st) = true)
        by (apply existsb_exists; exists r; split; [exact I | apply Z.eqb_eq, E]).
      rewrite K in X. discriminate.
    + intros _. eexists. split; [reflexivity|]. simpl.
      split; [apply (find_filter_out u_id)|].
      split; [intros x; apply (in_filter_out u_id)|]. split; reflexivity.
Qed.

(** ** Patching a user: the error paths *)



(** ** What every route keeps *)

Lemma map_update_where_key {A B} (key : A -> B) (p : A -> bool) (f : A -> A)
      (l : list A) :
  (forall x, key (f x) = key x) -> map key (update_where p f l) = map key l.
Proof.
  intros K. unfold update_where. rewrite map_map. apply map_ext.
  intros x. destruct (p x); [apply K | reflexivity].
Qed.

Lemma in_update_where {A} (p : A -> bool) (f : A -> A) (l : list A) (y : A) :
  In y (update_where p f l) -> exists x, In x l /\ (y = x \/ y = f x).
Proof.
  unfold update_where. intros I. apply in_map_iff in I.
  destruct I as (x & E & I). exists x. split; [exact I|].
  destruct (p x); auto.
Qed.

Lemma found_iff_in {A} (key : A -> Z) (n : Z) (l : list A) :
  find (fun x => key x =? n) l <> None <-> In n (map key l).
Proof.
  split.
  - intros F. destruct (find (fun x => key x =? n) l) as [a|] eqn:E;
      [|contradiction].
    apply find_some in E. destruct E as [I K]. apply Z.eqb_eq in K.
    rewrite <- K. apply in_map, I.
  - intros I E. apply in_map_iff in I. destruct I as (a & K & I).
    pose proof (find_none _ _ E a I) as X. simpl in X.
    rewrite K, Z.eqb_refl in X. discriminate.
Qed.

Lemma NoDup_map_filter {A B} (key : A -> B) (p : A -> bool) (l : list A) :
  NoDup (map key l) -> NoDup (map key (filter p l)).
Proof.
  induction l as [|x l IH]; simpl; intros N; [constructor|].
  inversion N as [|? ? NI N']; subst.
  destruct (p x); [|auto]. simpl. constructor; [|auto].
  intros I. apply NI. apply in_map_iff in I. destruct I as (y & E & I).
  apply filter_In in I. rewrite <- E. apply in_map, I.
Qed.

Lemma NoDup_map_snoc {A B} (key : A -> B) (l : list A) (a : A) :
  NoDup (map key l) -> ~ In (key a) (map key l) -> NoDup (map key (l ++ [a])).
Proof.
  induction l as [|x l IH]; simpl; intros N NI.
  - constructor; [intros []|constructor].
  - inversion N as [|? ? NIx N']; subst. constructor.
    + rewrite map_app, in_app_iff. simpl. intros [I|[E|[]]]; [auto|].
      apply NI. left. symmetry. exact E.
    + apply IH; [exact N'|]. intros I. apply NI. right. exact I.
Qed.

Lemma below_not_in {A} (key : A -> Z) (l : list A) (n : Z) :
  (forall x, In x l -> key x < n) -> ~ In n (map key l).
Proof.
  intros B I. apply in_map_iff in I. destruct I as (x & E & I).
  specialize (B x I). lia.
Qed.

(** A row of one id is rewritten and takes an email that no other row
    has: the emails stay told apart. *)
Lemma emails_after_update (n : Z) (f : User -> User) (l : list User) :
  NoDup (map u_id l) -> NoDup (map u_email l) ->
  (forall x, In x l -> u_id x = n ->
             forall y, In y l -> u_id y <> n -> u_email y <> u_email (f x)) ->
  NoDup (map u_email (update_where (fun u => u_id u =? n) f l)).
Proof.
  unfold update_where. induction l as [|x l IH]; simpl; intros Ni Ne T;
    [constructor|].
  inversion Ni as [|? ? NIi Ni']; inversion Ne as [|? ? NIe Ne']; subst.
  constructor.
  - intros I. apply in_map_iff in I. destruct I as (y' & E & I).
    apply in_map_iff in I. destruct I as (y & <- & Iy).
    destruct (Z.eqb_spec (u_id x) n) as [Kx|Kx],
             (Z.eqb_spec (u_id y) n) as [Ky|Ky].
    + apply NIi. rewrite Kx, <- Ky. apply in_map, Iy.
    + apply (T x (or_introl eq_refl) Kx y (or_intror Iy) Ky). exact E.
    + apply (T y (or_intror Iy) Ky x (or_introl eq_refl) Kx). symmetry. exact E.
    + apply NIe. rewrite <- E. apply in_map, Iy.
  - apply IH; [assumption|assumption|].
    intros a Ia Ka b Ib Kb. apply (T a (or_intror Ia) Ka b (or_intror Ib) Kb).
Qed.

Lemma consistent_empty : consistent empty_db.
Proof.
  constructor; simpl; try lia; try constructor;
    try (intros ? []); try (intros ? ? []).
Qed.

(** Consistency depends on the rows and the sequences only. *)
Lemma consistent_same (a b : Database) :
  users (store a) = users (store b) -> tables (store a) = tables (store b) ->
  reservations (store a) = reservations (store b) ->
  reservation_seq (store a) = reservation_seq (store b) ->
  table_seq a = table_seq b -> user_seq a = user_seq b ->
  consistent a -> consistent b.
Proof.
  intros U T R S TS US [].
  constructor; rewrite <- ?U, <- ?T, <- ?R, <- ?S, <- ?TS, <- ?US; assumption.
Qed.

Lemma keep_flags (db : Database) (p : Table -> bool) (f : Table -> Table)
      (st' : Store) :
  (forall x, t_id (f x) = t_id x) ->
  users st' = users (store db) ->
  tables st' = update_where p f (tables (store db)) ->
  reservations st' = reservations (store db) ->
  reservation_seq st' = reservation_seq (store db) ->
  consistent db -> consistent (mkDatabase st' (table_seq db) (user_seq db)).
Proof.
  intros K U T R S [].
  assert (M : map t_id (tables st') = map t_id (tables (store db)))
    by (rewrite T; apply map_update_where_key, K).
  constructor; simpl; rewrite ?U, ?R, ?S, ?M; try assumption.
  intros t I. rewrite T in I. apply in_update_where in I.
  destruct I as (x & Ix & [->| ->]); [|rewrite K]; auto.
Qed.

Lemma keep_rows (db : Database) (p : Reservation -> bool)
      (f : Reservation -> Reservation) (st' : Store) :
  (forall x, r_id (f x) = r_id x) -> (forall x, r_userId (f x) = r_userId x) ->
  (forall x t, r_tableId (f x) = Some t -> r_tableId x = Some t) ->
  users st' = users (store db) ->
  tables st' = tables (store db) ->
  reservations st' = update_where p f (reservations (store db)) ->
  reservation_seq st' = reservation_seq (store db) ->
  consistent db -> consistent (mkDatabase st' (table_seq db) (user_seq db)).
Proof.
  intros Ki Ku Kt U T R S [].
  assert (M : map r_id (reservations st') = map r_id (reservations (store db)))
    by (rewrite R; apply map_update_where_key, Ki).
  constructor; simpl; rewrite ?U, ?T, ?S, ?M; try assumption.
  - intros r I. rewrite R in I. apply in_update_where in I.
    destruct I as (x & Ix & [->| ->]); [|rewrite Ki]; auto.
  - intros r I. rewrite R in I. apply in_update_where in I.
    destruct I as (x & Ix & [->| ->]); [|rewrite Ku]; auto.
  - intros r t I E. rewrite R in I. apply in_update_where in I.
    destruct I as (x & Ix & [->| ->]); eauto.
Qed.

Lemma keep_rows_filter (db : Database) (p : Reservation -> bool) (st' : Store) :
  users st' = users (store db) ->
  tables st' = tables (store db) ->
  reservations st' = filter p (reservations (store db)) ->
  reservation_seq st' = reservation_seq (store db) ->
  consistent db -> consistent (mkDatabase st' (table_seq db) (user_seq db)).
Proof.
  intros U T R S [].
  constructor; simpl; rewrite ?U, ?T, ?S, ?R; try assumption.
  - apply NoDup_map_filter. assumption.
  - intros r I. apply filter_In in I. apply reservation_range0, I.
  - intros r I. apply filter_In in I. apply reserved_by0, I.
  - intros r t I. apply filter_In in I. apply reserved_table0, I.
Qed.

Lemma NoDup_map_same {A B} (f : A -> B) (l : list A) (a b : A) :
  NoDup (map f l) -> In a l -> In b l -> f a = f b -> a = b.
Proof.
  induction l as [|x l IH]; simpl; intros N Ia Ib E; [contradiction|].
  inversion N as [|? ? NI N']; subst.
  destruct Ia as [->|Ia], Ib as [->|Ib]; auto.
  - exfalso. apply NI. rewrite E. apply in_map, Ib.
  - exfalso. apply NI. rewrite <- E. apply in_map, Ia.
Qed.

Lemma keep_seq (db : Database) (st' : Store) :
  users st' = users (store db) -> tables st' = tables (store db) ->
  reservations st' = reservations (store db) ->
  reservation_seq (store db) <= reservation_seq st' ->
  consistent db -> consistent (mkDatabase st' (table_seq db) (user_seq db)).
Proof.
  intros U T R S [].
  constructor; simpl; rewrite ?U, ?T, ?R; try assumption; try lia.
  intros r I. specialize (reservation_range0 r I). lia.
Qed.

Lemma keep_booking (db : Database) (r : Reservation) (st' : Store) :
  r_id r = reservation_seq (store db) ->
  In (r_userId r) (map u_id (users (store db))) ->
  (forall t, r_tableId r = Some t -> In t (map t_id (tables (store db)))) ->
  users st' = users (store db) -> tables st' = tables (store db) ->
  reservations st' = (reservations (store db) ++ [r])%list ->
  reservation_seq st' = reservation_seq (store db) + 1 ->
  consistent db -> consistent (mkDatabase st' (table_seq db) (user_seq db)).
Proof.
  intros Ir Iu It U T R S [].
  constructor; simpl; rewrite ?U, ?T, ?R, ?S; try assumption; try lia.
  - apply NoDup_map_snoc; [assumption|]. rewrite Ir.
    apply below_not_in. intros x I. apply reservation_range0, I.
  - intros x I. apply in_app_iff in I. destruct I as [I|[<-|[]]].
    + specialize (reservation_range0 x I). lia.
    + lia.
  - intros x I. apply in_app_iff in I. destruct I as [I|[<-|[]]]; auto.
  - intros x t I E. apply in_app_iff in I. destruct I as [I|[<-|[]]]; eauto.
Qed.

Lemma keep_new_table (db : Database) (t : Table) :
  t_id t = table_seq db -> consistent db -> consistent (with_table db t).
Proof.
  intros It []. constructor; simpl; try assumption; try lia.
  - apply NoDup_map_snoc; [assumption|]. rewrite It.
    apply below_not_in. intros x I. apply table_range0, I.
  - intros x I. apply in_app_iff in I. destruct I as [I|[<-|[]]].
    + specialize (table_range0 x I). lia.
    + lia.
  - intros r x I E. rewrite map_app. apply in_app_iff. left. eauto.
Qed.

Lemma keep_table_delete (db : Database) (n : Z) (st' : Store) :
  users st' = users (store db) ->
  tables st' = filter (fun t => negb (t_id t =? n)) (tables (store db)) ->
  reservations st' =
  update_where (fun r => option_Z_eqb (r_tableId r) (Some n)) unbind
               (reservations (store db)) ->
  reservation_seq st' = reservation_seq (store db) ->
  consistent db -> consistent (mkDatabase st' (table_seq db) (user_seq db)).
Proof.
  intros U T R S [].
  assert (M : map r_id (reservations st') = map r_id (reservations (store db)))
    by (rewrite R; apply map_update_where_key; reflexivity).
  constructor; simpl; rewrite ?U, ?S, ?M; try assumption.
  - rewrite T. apply NoDup_map_filter. assumption.
  - intros t I. rewrite T in I. apply filter_In in I. apply table_range0, I.
  - intros r I. rewrite R in I. apply in_update_where in I.
    destruct I as (x & Ix & [->| ->]); simpl; auto.
  - intros r I. rewrite R in I. apply in_update_where in I.
    destruct I as (x & Ix & [->| ->]); simpl; auto.
  - intros r t I E. rewrite R in I. unfold update_where in I.
    apply in_map_iff in I. destruct I as (x & X & Ix).
    destruct (option_Z_eqb (r_tableId x) (Some n)) eqn:K;
      subst r; [discriminate E|].
    rewrite E in K. simpl in K. apply Z.eqb_neq in K.
    pose proof (reserved_table0 x t Ix E) as It.
    apply in_map_iff in It. destruct It as (row & <- & Irow).
    rewrite T. apply in_map. apply filter_In. split; [exact Irow|].
    apply negb_true_iff, Z.eqb_neq, K.
Qed.

Lemma keep_new_user (db : Database) (u : User) :
  u_id u = user_seq db ->
  (forall x, In x (users (store db)) -> u_email x <> u_email u) ->
  consistent db -> consistent (with_user db u).
Proof.
  intros Iu Fe []. constructor; simpl; try assumption; try lia.
  - apply NoDup_map_snoc; [assumption|]. rewrite Iu.
    apply below_not_in. intros x I. apply user_range0, I.
  - apply NoDup_map_snoc; [assumption|]. intros I.
    apply in_map_iff in I. destruct I as (x & E & I). exact (Fe x I E).
  - intros x I. apply in_app_iff in I. destruct I as [I|[<-|[]]].
    + specialize (user_range0 x I). lia.
    + lia.
  - intros r I. rewrite map_app. apply in_app_iff. left. auto.
Qed.

Lemma keep_user_seq (db : Database) :
  consistent db -> consistent (mkDatabase (store db) (table_seq db) (user_seq db + 1)).
Proof.
  intros []. constructor; simpl; try assumption; try lia.
  intros u I. specialize (user_range0 u I). lia.
Qed.

Lemma keep_user_update (db : Database) (n : Z) (f : User -> User) (st' : Store) :
  (forall x, u_id (f x) = u_id x) ->
  (forall x, In x (users (store db)) -> u_id x = n ->
             forall y, In y (users (store db)) -> u_id y <> n ->
                       u_email y <> u_email (f x)) ->
  users st' = update_where (fun u => u_id u =? n) f (users (store db)) ->
  tables st' = tables (store db) ->
  reservations st' = reservations (store db) ->
  reservation_seq st' = reservation_seq (store db) ->
  consistent db -> consistent (mkDatabase st' (table_seq db) (user_seq db)).
Proof.
  intros K E U T R S [].
  assert (M : map u_id (users st') = map u_id (users (store db)))
    by (rewrite U; apply map_update_where_key, K).
  constructor; simpl; rewrite ?T, ?R, ?S, ?M; try assumption.
  - rewrite U. apply emails_after_update; assumption.
  - intros u I. rewrite U in I. apply in_update_where in I.
    destruct I as (x & Ix & [->| ->]); [|rewrite K]; auto.
Qed.

Lemma keep_user_delete (db : Database) (n : Z) (st' : Store) :
  (forall r, In r (reservations (store db)) -> r_userId r <> n) ->
  users st' = filter (fun u => negb (u_id u =? n)) (users (store db)) ->
  tables st' = tables (store db) ->
  reservations st' = reservations (store db) ->
  reservation_seq st' = reservation_seq (store db) ->
  consistent db -> consistent (mkDatabase st' (table_seq db) (user_seq db)).
Proof.
  intros N U T R S [].
  constructor; simpl; rewrite ?T, ?R, ?S, ?U; try assumption.
  - apply NoDup_map_filter. assumption.
  - apply NoDup_map_filter. assumption.
  - intros u I. apply filter_In in I. apply user_range0, I.
  - intros r I. pose proof (reserved_by0 r I) as X.
    apply in_map_iff in X. destruct X as (u & E & Iu).
    rewrite <- E. apply in_map. apply filter_In. split; [exact Iu|].
    apply negb_true_iff, Z.eqb_neq. rewrite E. apply N, I.
Qed.

Lemma keep_same (db : Database) :
  consistent db -> consistent (mkDatabase (store db) (table_seq db) (user_seq db)).
Proof.
  apply consistent_same; reflexivity.
Qed.

Lemma free_table_shape (r : Reservation) (st : Store) :
  snd (free_table r st) = st
  \/ exists t, snd (free_table r st) =
               set_tables (update_where (fun x => t_id x =? t)
                                        (apply_table_update (set_isAvailable true))
                                        (tables st)) st.
Proof.
  unfold free_table. destruct (r_tableId r) as [t|]; [|left; reflexivity].
  destruct (t =? 0); [left; reflexivity|].
  unfold bind, table_update.
  destruct (find_table t st); [right; exists t|left]; reflexivity.
Qed.

Lemma keep_free_table (db : Database) (r : Reservation) (st1 : Store) :
  consistent (mkDatabase st1 (table_seq db) (user_seq db)) ->
  consistent (mkDatabase (snd (free_table r st1)) (table_seq db) (user_seq db)).
Proof.
  intros C. destruct (free_table_shape r st1) as [->|(t & ->)]; [exact C|].
  apply (keep_flags (mkDatabase st1 (table_seq db) (user_seq db))
                    (fun x => t_id x =? t)
                    (apply_table_update (set_isAvailable true)));
    try reflexivity; exact C.
Qed.

Lemma post_reservation_keeps (prisma : PrismaClient) (rt : Js.Runtime)
      (body : CreateReservationBody) (db : Database) :
  consistent db -> consistent (snd (on_store (post_reservation prisma body) db)).
Proof.
  intros C. unfold on_store.
  destruct (post_reservation_cases prisma rt body (store db))
    as [(m & s & st1 & -> & _ & Us & Ts & Rs & Sq)
       |(table & n & d & t & u & user & rj & _ & Cd & _ & _ & _ & FU & _ & _ & _ & ->)];
    simpl.
  - apply keep_seq; assumption.
  - set (row := booked_row (store db) d t n u table).
    set (st1 := mkStore (users (store db)) (tables (store db))
                        (reservations (store db) ++ [row])
                        (reservation_seq (store db) + 1)).
    assert (C1 : consistent (mkDatabase st1 (table_seq db) (user_seq db))).
    { apply (keep_booking db row); try reflexivity; try assumption.
      - apply (found_iff_in u_id). simpl. unfold find_user in FU.
        rewrite FU. discriminate.
      - intros x E. inversion E; subst x.
        unfold first_candidate in Cd. apply find_some in Cd.
        apply in_map, Cd. }
    apply (keep_flags (mkDatabase st1 (table_seq db) (user_seq db))
                      (fun x => t_id x =? t_id table) (with_isAvailable false));
      try reflexivity; exact C1.
Qed.

Lemma put_reservation_keeps (prisma : PrismaClient) (rt : Js.Runtime)
      (id : string) (body : UpdateReservationBody) (db : Database) :
  consistent db -> consistent (snd (on_store (put_reservation prisma id body) db)).
Proof.
  intros C. unfold on_store.
  pose proof (put_reservation_store prisma rt id body (store db)) as E.
  destruct (put_reservation prisma id body (store db)) as [r st']. simpl in *.
  destruct (reservation_update_store prisma (computed (Js.parseInt (Js.Str id)))
              (update_data body) ["user"; "table"] (store db)) as [X|(i & _ & X)];
    rewrite X in E; subst st'.
  - apply keep_same, C.
  - apply (keep_rows db (fun r => r_id r =? i)
                     (apply_reservation_update (update_data body)));
      try reflexivity; try exact C.
    intros x t H. exact H.
Qed.

Lemma cancel_reservation_keeps (prisma : PrismaClient) (rt : Js.Runtime)
      (id : string) (db : Database) :
  consistent db -> consistent (snd (on_store (cancel_reservation prisma id) db)).
Proof.
  intros C. unfold on_store.
  destruct (cancel_reservation prisma id (store db)) as [resp st'] eqn:E. simpl.
  unfold cancel_reservation, try_next, bind in E.
  destruct (Js.parseInt (Js.Str id)) as [n|]; cbn [computed] in E.
  2:{ inversion E; subst. apply keep_same, C. }
  rewrite findUnique_plain in E.
  destruct (find_reservation n (store db)) as [r|] eqn:F; cbn [option_map] in E.
  2:{ inversion E; subst. apply keep_same, C. }
  unfold reservation_update in E.
  destruct (_ || _) in E.
  { inversion E; subst. apply keep_same, C. }
  rewrite F in E.
  change (rj_reservation (load_relations prisma [] (store db) r)) with r in E.
  match type of E with context [free_table r ?s] =>
    set (st1 := s) in *;
    assert (C1 : consistent (mkDatabase st1 (table_seq db) (user_seq db)))
  end.
  { apply (keep_rows db (fun r => r_id r =? n) (apply_reservation_update cancel_data));
      try reflexivity; try exact C.
    intros x t H. exact H. }
  pose proof (keep_free_table db r st1 C1) as C2.
  destruct (free_table r st1) as [[x|e] st2]; simpl in *;
    inversion E; subst; exact C2.
Qed.

Lemma delete_reservation_keeps (prisma : PrismaClient) (rt : Js.Runtime)
      (id : string) (db : Database) :
  consistent db -> consistent (snd (on_store (delete_reservation prisma id) db)).
Proof.
  intros C. unfold on_store.
  destruct (delete_reservation prisma id (store db)) as [resp st'] eqn:E. simpl.
  unfold delete_reservation, try_next, bind in E.
  destruct (Js.parseInt (Js.Str id)) as [n|]; cbn [computed] in E.
  2:{ inversion E; subst. apply keep_same, C. }
  rewrite findUnique_plain in E.
  destruct (find_reservation n (store db)) as [r|] eqn:F; cbn [option_map] in E.
  2:{ inversion E; subst. apply keep_same, C. }
  unfold reservation_delete in E. rewrite F in E.
  change (rj_reservation (load_relations prisma [] (store db) r)) with r in E.
  match type of E with context [free_table r ?s] =>
    set (st1 := s) in *;
    assert (C1 : consistent (mkDatabase st1 (table_seq db) (user_seq db)))
  end.
  { apply (keep_rows_filter db (fun r => negb (r_id r =? n)));
      try reflexivity; exact C. }
  pose proof (keep_free_table db r st1 C1) as C2.
  destruct (free_table r st1) as [[x|e] st2]; simpl in *;
    inversion E; subst; exact C2.
Qed.

Lemma patch_table_keeps (rt : Js.Runtime) (id : string) (body : PatchTableBody)
      (db : Database) :
  consistent db -> consistent (snd (on_store (patch_table id body) db)).
Proof.
  intros C. unfold on_store.
  pose proof (patch_table_store rt id body (store db)) as S.
  destruct (patch_table id body (store db)) as [r st']. simpl in *.
  destruct S as [->|(n & ->)]; [apply keep_same, C|].
  apply (keep_flags db (fun t => t_id t =? n) (written body));
    try reflexivity; exact C.
Qed.

Lemma delete_table_keeps (rt : Js.Runtime) (id : string) (db : Database) :
  consistent db -> consistent (snd (on_store (delete_table id) db)).
Proof.
  intros C. unfold on_store, delete_table, try_next_P2025, bind, table_delete.
  destruct (computed (Js.parseInt (Js.Str id))) as [| |n]; simpl;
    try (apply keep_same, C).
  destruct (find_table n (store db)); simpl; [|apply keep_same, C].
  apply (keep_table_delete db n); try reflexivity; exact C.
Qed.

Lemma post_table_keeps (rt : Js.Runtime) (body : CreateTableBody) (db : Database) :
  consistent db -> consistent (snd (post_table body db)).
Proof.
  intros C. rewrite post_table_unfolded.
  destruct (valid_name (ct_name body)) as [n|]; [|exact C].
  destruct (valid_capacity (ct_capacity body)) as [c|]; [|exact C].
  simpl. apply keep_new_table; [reflexivity | exact C].
Qed.

Lemma post_user_keeps (body : CreateUserBody) (db : Database) :
  consistent db -> consistent (snd (post_user body db)).
Proof.
  intros C. unfold post_user.
  destruct (user_rejects body); [exact C|]. unfold user_create.
  destruct (string_arg (cu_username body)) as [| |n]; try exact C.
  destruct (string_arg (cu_email body)) as [| |e]; try exact C.
  destruct (string_arg (cu_password body)) as [| |p]; try exact C.
  destruct (is_invalid _); [exact C|].
  destruct (existsb _ (users (store db))) eqn:X; simpl.
  - apply keep_user_seq, C.
  - apply keep_new_user; [reflexivity| |exact C].
    simpl. apply existsb_email_false, X.
Qed.

Lemma patch_user_keeps (rt : Js.Runtime) (id : string) (body : PatchUserBody)
      (db : Database) :
  consistent db -> consistent (snd (on_store (patch_user id body) db)).
Proof.
  intros C. unfold on_store, patch_user, try_next_P2025.
  destruct (user_update_keys (user_updates body) =? 0)%nat; simpl;
    [apply keep_same, C|].
  unfold bind, user_update.
  destruct (computed (Js.parseInt (Js.Str id))) as [| |n]; simpl;
    try (apply keep_same, C).
  destruct (_ || _); simpl; [apply keep_same, C|].
  destruct (find_user n (store db)) as [u|]; simpl; [|apply keep_same, C].
  destruct (email_taken n _ (store db)) eqn:T; simpl; [apply keep_same, C|].
  apply (keep_user_update db n (apply_user_update (user_updates body)));
    try reflexivity; try exact C.
  intros x Ix Kx y Iy Ky E. simpl in E.
  match type of T with
  | email_taken _ ?a _ = _ => destruct a as [| |e] eqn:A
  end; simpl in E, T.
  - apply Ky. rewrite <- Kx. f_equal.
    apply (NoDup_map_same u_email (users (store db)) y x (user_emails db C) Iy Ix E).
  - apply Ky. rewrite <- Kx. f_equal.
    apply (NoDup_map_same u_email (users (store db)) y x (user_emails db C) Iy Ix E).
  - assert (K : existsb (fun u => negb (u_id u =? n) && String.eqb (u_email u) e)
                        (users (store db)) = true).
    { apply existsb_exists. exists y. split; [exact Iy|].
      apply andb_true_iff. split.
      - apply negb_true_iff, Z.eqb_neq, Ky.
      - apply String.eqb_eq, E. }
    rewrite K in T. discriminate.
Qed.

Lemma delete_user_keeps (rt : Js.Runtime) (id : string) (db : Database) :
  consistent db -> consistent (snd (on_store (delete_user id) db)).
Proof.
  intros C. unfold on_store, delete_user, bind, user_delete.
  destruct (computed (Js.parseInt (Js.Str id))) as [| |n]; simpl;
    try (apply keep_same, C).
  destruct (find_user n (store db)); simpl; [|apply keep_same, C].
  destruct (existsb _ (reservations (store db))) eqn:X; simpl;
    [apply keep_same, C|].
  apply (keep_user_delete db n); try reflexivity; try exact C.
  intros r I E.
  assert (K : existsb (fun r => r_userId r =? n) (reservations (store db)) = true)
    by (apply existsb_exists; exists r; split; [exact I | apply Z.eqb_eq, E]).
  rewrite K in X. discriminate.
Qed.

(** Every route that writes keeps the database consistent: ids stay
    positive, told apart and behind their sequence, emails stay told
    apart, and every reservation keeps referring to a user and, when it is
    bound, to a table of the store.  The database before the first request
    is consistent. *)
Theorem every_route_keeps_consistency (prisma : PrismaClient) (rt : Js.Runtime)
        (db : Database) :
  consistent db ->
  (forall body, consistent (snd (on_store (post_reservation prisma body) db)))
  /\ (forall id body, consistent (snd (on_store (put_reservation prisma id body) db)))
  /\ (forall id, consistent (snd (on_store (cancel_reservation prisma id) db)))
  /\ (forall id, consistent (snd (on_store (delete_reservation prisma id) db)))
  /\ (forall body, consistent (snd (post_table body db)))
  /\ (forall id body, consistent (snd (on_store (patch_table id body) db)))
  /\ (forall id, consistent (snd (on_store (delete_table id) db)))
  /\ (forall body, consistent (snd (post_user body db)))
  /\ (forall id body, consistent (snd (on_store (patch_user id body) db)))
  /\ (forall id, consistent (snd (on_store (delete_user id) db))).
Proof.
  intros C.
  split; [intros; apply post_reservation_keeps, C|].
  split; [intros; apply put_reservation_keeps, C|].
  split; [intros; apply cancel_reservation_keeps, C|].
  split; [intros; apply delete_reservation_keeps, C|].
  split; [intros; apply post_table_keeps, C|].
  split; [intros; apply patch_table_keeps, C|].
  split; [intros; apply delete_table_keeps, C|].
  split; [intros; apply post_user_keeps, C|].
  split; [intros; apply patch_user_keeps, C|].
  intros; apply delete_user_keeps, C.
Qed.

Lemma every_route_keeps_consistency_witness :
  consistent empty_db
  /\ consistent (snd (post_table (rt := decimal_runtime) patio empty_db))
  /\ consistent (snd (post_user (eve (Js.Boolean true)) empty_db)).
Proof.
  split; [exact consistent_empty|].
  pose proof (every_route_keeps_consistency schema_client decimal_runtime empty_db
                consistent_empty)
    as (_ & _ & _ & _ & T & _ & _ & U & _).
  split; [apply T | apply U].
Defined.

(** In a consistent database the tables are told apart by their id, no
    table has id 0, the reservation and table sequences are ahead of the
    ids in use, the users are told apart by id and email, and the table of
    every reservation is a row of the store: what the theorems on booking,
    cancelling and deleting ask of the store holds after any sequence of
    requests. *)
Theorem consistent_meets_preconditions (db : Database) :
  consistent db ->
  table_ids_unique (store db)
  /\ reservation_ids_fresh (store db)
  /\ (forall t, In t (tables (store db)) -> t_id t <> 0)
  /\ table_ids_fresh db
  /\ users_consistent db
  /\ (forall r, In r (reservations (store db)) -> table_bound r (store db)).
Proof.
  intros C. destruct C.
  split; [assumption|].
  split; [intros r I; apply reservation_range0, I|].
  split; [intros t I; specialize (table_range0 t I); lia|].
  split; [intros t I; apply table_range0, I|].
  split; [split; [assumption|split; [assumption|]];
          intros u I; apply user_range0, I|].
  intros r Ir t E. pose proof (reserved_table0 r t Ir E) as I. split.
  - apply in_map_iff in I. destruct I as (row & X & I).
    specialize (table_range0 row I). lia.
  - apply (found_iff_in t_id), I.
Qed.

Lemma consistent_meets_preconditions_witness :
  consistent (mkDatabase booked_store 2 2)
  /\ table_bound (booking "booked") booked_store.
Proof.
  assert (C : consistent (mkDatabase booked_store 2 2)).
  { constructor; simpl; try lia;
      try (constructor; [intros []|constructor]).
    - intros t [<-|[]]. simpl. lia.
    - intros r [<-|[]]. simpl. lia.
    - intros u [<-|[]]. simpl. lia.
    - intros r [<-|[]]. simpl. auto.
    - intros r t [<-|[]] E. inversion E. simpl. auto. }
  split; [exact C|].
  apply (consistent_meets_preconditions (mkDatabase booked_store 2 2) C).
  left. reflexivity.
Defined.

(** ** Updating a reservation: what is written *)

(** [PUT /reservations/:id], with a client that accepts the include, on a
    reservation that exists: a [date] or [people] that is falsy (missing,
    [""], [0]) leaves the column as it is, as does a [time] or [status]
    that is missing; a [time] or [status] that is a string is written as
    it is, the empty string and any status included; id, user and table
    stay.  The answer is 200 with the new row. *)
Theorem put_reservation_updates (prisma : PrismaClient) (rt : Js.Runtime)
        (id : string) (body : UpdateReservationBody) (st : Store) (n : Z)
        (r : Reservation) :
  include_valid prisma ["user"; "table"] = true ->
  Js.parseInt (Js.Str id) = Some n ->
  find_reservation n st = Some r ->
  (Js.truthy (p_date body) = true -> Js.new_Date (p_date body) <> None) ->
  (Js.truthy (p_people body) = true -> Js.parseInt (p_people body) <> None) ->
  absent_or_string (p_time body) ->
  absent_or_string (p_status body) ->
  exists rj,
    fst (put_reservation prisma id body st) = Json 200 (ReservationBody rj)
    /\ find_reservation n (snd (put_reservation prisma id body st))
       = Some (rj_reservation rj)
    /\ r_id (rj_reservation rj) = r_id r
    /\ r_userId (rj_reservation rj) = r_userId r
    /\ r_tableId (rj_reservation rj) = r_tableId r
    /\ r_date (rj_reservation rj) =
       (if Js.truthy (p_date body)
        then match Js.new_Date (p_date body) with Some d => d | None => r_date r end
        else r_date r)
    /\ r_people (rj_reservation rj) =
       (if Js.truthy (p_people body)
        then match Js.parseInt (p_people body) with Some p => p | None => r_people r end
        else r_people r)
    /\ r_time (rj_reservation rj) =
       match p_time body with Js.Str t => t | _ => r_time r end
    /\ r_status (rj_reservation rj) =
       match p_status body with Js.Str s => s | _ => r_status r end.
Proof.
  intros IV P F Hd Hp Ht Hs.
  assert (V : is_invalid (d_date (update_data body))
              || is_invalid (d_time (update_data body))
              || is_invalid (d_people (update_data body))
              || is_invalid (d_status (update_data body)) = false).
  { unfold update_data. simpl.
    destruct (Js.truthy (p_date body)); [specialize (Hd eq_refl)|];
      destruct (Js.truthy (p_people body)); [specialize (Hp eq_refl)| |
                                             specialize (Hp eq_refl)|];
      try (destruct (Js.new_Date (p_date body)); [|contradiction]);
      try (destruct (Js.parseInt (p_people body)); [|contradiction]);
      destruct Ht as [->|(? & ->)], Hs as [->|(? & ->)]; reflexivity. }
  unfold put_reservation, try_next_P2025, bind, reservation_update.
  rewrite P. cbn [computed]. rewrite V, IV, F. cbn [negb orb fst snd].
  eexists. split; [reflexivity|].
  split.
  { unfold find_reservation. simpl.
    rewrite (find_update_where r_id); [|reflexivity].
    unfold find_reservation in F. rewrite F. reflexivity. }
  unfold load_relations, update_data. simpl.
  do 3 (split; [reflexivity|]).
  split; [destruct (Js.truthy (p_date body)); [|reflexivity];
          destruct (Js.new_Date (p_date body)); reflexivity|].
  split; [destruct (Js.truthy (p_people body)); [|reflexivity];
          destruct (Js.parseInt (p_people body)); reflexivity|].
  split; [destruct Ht as [->|(? & ->)]; reflexivity|].
  destruct Hs as [->|(? & ->)]; reflexivity.
Qed.

Lemma put_reservation_updates_witness :
  put_reservation camel_client (rt := decimal_runtime) "1" odd_update booked_store =
  (Json 200 (ReservationBody
               (mkReservationJson
                  (mkReservation 1 1749945600000 "" 2 "anything" 1 (Some 1))
                  (Rel (Some john)) (Rel (Some (mkTable 1 "Table 1" 4 false))))),
   mkStore [john] [mkTable 1 "Table 1" 4 false]
           [mkReservation 1 1749945600000 "" 2 "anything" 1 (Some 1)] 2)
  /\ exists rj,
      fst (put_reservation camel_client (rt := decimal_runtime) "1" odd_update
                           booked_store) = Json 200 (ReservationBody rj)
      /\ r_date (rj_reservation rj) = 1749945600000
      /\ r_people (rj_reservation rj) = 2
      /\ r_time (rj_reservation rj) = ""
      /\ r_status (rj_reservation rj) = "anything".
Proof.
  split; [reflexivity|].
  destruct (put_reservation_updates camel_client decimal_runtime "1" odd_update
              booked_store 1 (booking "booked") eq_refl eq_refl eq_refl)
    as (rj & E & _ & _ & _ & _ & D & Pp & T & S).
  - intros X. discriminate X.
  - intros X. discriminate X.
  - right. eexists. reflexivity.
  - right. eexists. reflexivity.
  - exists rj. split; [exact E|]. split; [exact D|]. split; [exact Pp|].
    split; [exact T | exact S].
Defined.

(** ** Creating a user, then reading *)

(** A user that [POST /users] has created is found by [GET /users/:id]
    under its id, as it was returned (password included). *)
Theorem post_user_then_get (rt : Js.Runtime) (body : CreateUserBody)
        (db db' : Database) (u : User) (id : string) :
  user_ids_fresh db ->
  post_user body db = (Json 201 (UserBody u), db') ->
  Js.parseInt (Js.Str id) = Some (user_seq db) ->
  get_user id (store db') = (Json 200 (UserBody u), store db')
  /\ u_id u = user_seq db.
Proof.
  intros F E P.
  assert (X : u_id u = user_seq db /\ db' = with_user db u).
  { unfold post_user in E. destruct (user_rejects body); [discriminate|].
    unfold user_create in E.
    destruct (string_arg (cu_username body)); try discriminate.
    destruct (string_arg (cu_email body)); try discriminate.
    destruct (string_arg (cu_password body)); try discriminate.
    destruct (is_invalid _); [discriminate|].
    destruct (existsb _ _); [discriminate|].
    inversion E; subst. split; reflexivity. }
  destruct X as [Iu ->]. split; [|exact Iu].
  unfold get_user, try_next, bind, user_findUnique. rewrite P. cbn [computed].
  unfold find_user. simpl. rewrite <- Iu.
  rewrite (find_snoc_fresh u_id (users (store db)) u); [reflexivity|].
  intros x Ix. specialize (F x Ix). lia.
Qed.

Lemma post_user_then_get_witness :
  user_ids_fresh example_db
  /\ get_user (rt := decimal_runtime) "3"
              (store (with_user example_db
                                (mkUser 3 "Eve" "eve@example.com" "pw" true))) =
     (Json 200 (UserBody (mkUser 3 "Eve" "eve@example.com" "pw" true)),
      store (with_user example_db (mkUser 3 "Eve" "eve@example.com" "pw" true))).
Proof.
  assert (F : user_ids_fresh example_db)
    by (intros u [<-|[<-|[]]]; reflexivity).
  split; [exact F|].
  exact (proj1 (post_user_then_get decimal_runtime (eve (Js.Boolean true)) example_db
                  _ _ "3" F eq_refl eq_refl)).
Defined.

(** ** Requests served in turn *)

(** Requests to create, cancel and delete reservations, served in turn,
    each run from its first store call to its last before the next
    begins, with any client: a store without double booking stays without.
    Nothing is said of requests whose store calls interleave; the
    handlers take no lock and open no transaction. *)
Theorem no_double_booking_in_turn (prisma : PrismaClient) (rt : Js.Runtime)
        (requests : list ReservationRequest) (st : Store) :
  no_double_booking st ->
  no_double_booking (serve_in_turn prisma requests st).
Proof.
  unfold serve_in_turn. revert st.
  induction requests as [|request requests IH]; intros st N; simpl; [exact N|].
  apply IH.
  destruct (no_double_booking_is_kept prisma rt st N) as (Create & Cancel & Delete).
  destruct request as [body|id|id]; simpl; auto.
Qed.

Lemma no_double_booking_in_turn_witness :
  no_double_booking empty_store
  /\ no_double_booking
       (serve_in_turn camel_client (rt := decimal_runtime)
                      [CreateRequest example_body; CreateRequest example_body;
                       CancelRequest "1"; CreateRequest example_body]
                      empty_store)
  /\ reservations
       (serve_in_turn camel_client (rt := decimal_runtime)
                      [CreateRequest example_body; CreateRequest example_body;
                       CancelRequest "1"; CreateRequest example_body]
                      empty_store) =
     [booking "cancelled";
      mkReservation 2 1749945600000 "19:00" 2 "booked" 1 (Some 1)].
Proof.
  assert (N : no_double_booking empty_store) by constructor.
  split; [exact N|]. split; [|reflexivity].
  exact (no_double_booking_in_turn camel_client decimal_runtime _ empty_store N).
Defined.
